(** * Identity and access subsystem of the vendor marketplace backend

    A shallow embedding of

      - [app/middleware/rate_limiting.py]  (RateLimitMiddleware,
        BruteForceProtection, the decorator [rate_limit]),
      - [app/services/auth_service.py]     (AuthService: the checks on a
        contact, the limit on codes, sending and verifying a code, vendor
        resolution, session minting, validation, refresh and logout),
      - [app/api/v1/endpoints/auth.py]     (the route handlers for login,
        verify-otp, refresh and logout, and the authenticating dependency),

    together with the properties of these functions that the design
    document states.

    The Python code talks to two stores (a Redis cache and a Supabase
    database), reads the wall clock and draws random numbers.  All of this
    is threaded through an explicit [World]; a Python exception is a
    [Raise] result, and [try: ... except Exception] is [try_catch]. *)

From Stdlib Require Import ZArith QArith Lia Bool Ascii String.
From stdpp Require Import base gmap strings list.
Close Scope Q_scope.
Local Open Scope Z_scope.

(** ** Python scalars *)

Definition digit_char (d : Z) : ascii :=
  match d with
  | 0 => "0" | 1 => "1" | 2 => "2" | 3 => "3" | 4 => "4"
  | 5 => "5" | 6 => "6" | 7 => "7" | 8 => "8" | _ => "9"
  end%char.

(** Decimal digits of a non-negative integer, most significant first.  The
    fuel counts the digits after the first one. *)
Fixpoint digits_fuel (fuel : nat) (n : Z) (acc : string) : string :=
  let acc' := String (digit_char (n mod 10)) acc in
  match fuel with
  | O => acc'
  | S fuel' => if n <? 10 then acc' else digits_fuel fuel' (n / 10) acc'
  end.

Definition digits (n : Z) : string := digits_fuel (Z.to_nat (Z.log2 n)) n "".

(** [str(n)] for a Python [int]. *)
Definition str_int (z : Z) : string :=
  if z <? 0 then "-" +:+ digits (- z) else digits z.

(** A Python number that is either an [int] or a [float].  The only floats
    of this code are [lockout_duration * 2 ** e] for a negative [e]; they
    are kept as exact rationals. *)
Inductive pynum :=
| PyInt (z : Z)
| PyFloat (q : Q).

(** [2 ** e]: an [int] for [e >= 0], a [float] otherwise. *)
Definition py_pow2 (e : Z) : pynum :=
  if 0 <=? e then PyInt (2 ^ e) else PyFloat (Qpower (2 # 1) e).

(** [a * x] for an [int] [a]. *)
Definition py_mul_int (a : Z) (x : pynum) : pynum :=
  match x with
  | PyInt z => PyInt (a * z)
  | PyFloat q => PyFloat (Qmult (inject_Z a) q)
  end.

(** [min(x, b)] for an [int] [b]: Python returns [b] only when [b < x]. *)
Definition py_min_int (x : pynum) (b : Z) : pynum :=
  match x with
  | PyInt z => if b <? z then PyInt b else PyInt z
  | PyFloat q => if Qle_bool q (inject_Z b) then PyFloat q else PyInt b
  end.

(** [a + x] for an [int] [a]. *)
Definition py_add_int (a : Z) (x : pynum) : pynum :=
  match x with
  | PyInt z => PyInt (a + z)
  | PyFloat q => PyFloat (Qplus (inject_Z a) q)
  end.

(** ** Exceptions *)

(** The messages of the exceptions this code raises.  [render] gives the
    Python text. *)
Inductive msg :=
| MInvalidToken                 (* verify_otp: no token mapping *)
| MRecordNotFound               (* verify_otp: token maps to no row *)
| MOtpExpired
| MOtpAlreadyUsed
| MMaxAttempts
| MInvalidOtp (remaining : Z)
| MFailedVendor                 (* _get_or_create_vendor *)
| MFailedCreateVendor
| MFailedSession                (* _create_vendor_session *)
| MRateLimited (retry_after : Z)
| MStoreDown                    (* message of a cache or datastore client error *)
| MRedisNotInitialized
| MBadValue                     (* message of a ValueError / TypeError / KeyError *)
| MDataError                    (* message of the cache client's DataError *)
| MJwt                          (* message of a JWTError *)
| MHash.                        (* message of a passlib error *)

Definition render (m : msg) : string :=
  match m with
  | MInvalidToken => "Invalid or expired verification token"
  | MRecordNotFound => "OTP verification record not found"
  | MOtpExpired => "OTP has expired"
  | MOtpAlreadyUsed => "OTP already used"
  | MMaxAttempts => "Maximum OTP attempts exceeded"
  | MInvalidOtp r => "Invalid OTP. " +:+ str_int r +:+ " attempts remaining"
  | MFailedVendor => "Failed to process vendor account"
  | MFailedCreateVendor => "Failed to create vendor"
  | MFailedSession => "Failed to create session"
  | MRateLimited s => "Rate limit exceeded. Try again in " +:+ str_int s +:+ " seconds."
  | MStoreDown => "store unavailable"
  | MRedisNotInitialized => "Redis not initialized. Call init_redis() first."
  | MBadValue => "bad value"
  | MDataError =>
      "Invalid input of type: 'dict'. Convert to a bytes, string, int or float first."
  | MJwt => "invalid token"
  | MHash => "hash could not be identified"
  end.

(** Exception classes.  All but [HTTPException] and [Exception] itself are
    subclasses of [Exception] that the code never raises by hand. *)
Inductive exn :=
| Exception (m : msg)
| StoreError                    (* raised by the cache or datastore client *)
| DataError                     (* the cache client: a value it cannot encode *)
| RuntimeError                  (* get_redis() before init_redis() *)
| ValueError                    (* int() of a non-numeric string *)
| TypeError                     (* subscript or int() of the wrong kind of value *)
| KeyError
| JWTError                      (* jose: bad signature, malformed or expired token *)
| HashError                     (* passlib: unusable hash *)
| HTTPException (status : Z) (detail : msg) (headers : list (string * string)).

(** [str(e)] *)
Definition str_exn (e : exn) : msg :=
  match e with
  | Exception m => m
  | StoreError => MStoreDown
  | DataError => MDataError
  | RuntimeError => MRedisNotInitialized
  | ValueError | TypeError | KeyError => MBadValue
  | JWTError => MJwt
  | HashError => MHash
  | HTTPException _ d _ => d
  end.

(** The error names of the design document. *)
Definition TokenInvalid : exn := Exception MInvalidToken.
Definition Expired : exn := Exception MOtpExpired.
Definition AlreadyUsed : exn := Exception MOtpAlreadyUsed.
Definition AttemptsExhausted : exn := Exception MMaxAttempts.
Definition InvalidCode (remaining : Z) : exn := Exception (MInvalidOtp remaining).

(** ** The two stores *)

(** A value held by the cache.  The cache keeps strings and nothing else,
    and the client decodes every reply to a [str]
    ([decode_responses=True]): [CNum z] is the decimal string of [z] (a
    counter, a timestamp or a row id), [CFloat q] the text of a float and
    [CStr s] any other string. *)
Inductive cval :=
| CNum (z : Z)
| CFloat (q : Q)
| CStr (s : string).

(** The dictionary [{"vendor_id": .., "expires_at": ..}] that describes a
    session. *)
Record session_info := mkSessionInfo {
  info_vendor_id : option Z;
  info_expires_at : Z
}.

(** Python truthiness of a cache reply: only the empty string is falsy. *)
Definition truthy (v : cval) : bool :=
  match v with
  | CStr s => negb (String.eqb s "")
  | _ => true
  end.

Definition truthy_opt (o : option cval) : bool :=
  match o with
  | Some v => truthy v
  | None => false
  end.

(** A cache entry: the value and the instant at which it expires, if any. *)
Record centry := CEntry { c_val : cval; c_expiry : option Z }.

(** Row of table [otp_verifications]. *)
Record otp_row := OtpRow {
  otp_id : Z;
  otp_phone_or_email : string;
  otp_code : string;              (* the hash of the code *)
  otp_attempts : Z;
  otp_verified : bool;
  otp_expires_at : Z
}.

(** Row of table [vendors]. *)
Record vendor_row := VendorRow {
  vendor_id : Z;
  vendor_name : string;
  vendor_market_location : string;
  vendor_preferred_language : string;
  vendor_status : string;
  vendor_last_active : Z;
  vendor_phone_number : option string;
  vendor_email : option string
}.

(** Row of table [vendor_sessions]. *)
Record session_row := SessionRow {
  session_id : Z;
  session_vendor_id : Z;
  session_token : string;
  session_refresh_token : string;
  session_expires_at : Z;
  session_last_used : option Z
}.

Inductive log_level := ERROR | WARNING | INFO.

(** Everything outside the process that the code reads or writes.

    - [now]: the wall clock in seconds; one call sees one reading.
    - [redis_ready]: whether [init_redis] installed a client.
    - [cache]: the contents of the Redis cache.
    - the three tables, each in insertion order, and [next_id], the key the
      database gives to the next inserted row.
    - [faults]: for each coming round trip to the cache or the database,
      whether the client raises instead of answering; past the end of the
      list nothing fails.
    - [entropy]: the coming outputs of the system random source.
    - [log]: what has been written to the logger, latest first. *)
Record World := mkWorld {
  now : Z;
  redis_ready : bool;
  cache : gmap string centry;
  otp_verifications : list otp_row;
  vendors : list vendor_row;
  vendor_sessions : list session_row;
  next_id : Z;
  faults : list bool;
  entropy : list Z;
  log : list (log_level * string)
}.

Definition set_cache (c : gmap string centry) (w : World) : World :=
  mkWorld (now w) (redis_ready w) c (otp_verifications w) (vendors w)
          (vendor_sessions w) (next_id w) (faults w) (entropy w) (log w).

Definition set_otp_verifications (t : list otp_row) (w : World) : World :=
  mkWorld (now w) (redis_ready w) (cache w) t (vendors w)
          (vendor_sessions w) (next_id w) (faults w) (entropy w) (log w).

Definition set_vendors (t : list vendor_row) (w : World) : World :=
  mkWorld (now w) (redis_ready w) (cache w) (otp_verifications w) t
          (vendor_sessions w) (next_id w) (faults w) (entropy w) (log w).

Definition set_vendor_sessions (t : list session_row) (w : World) : World :=
  mkWorld (now w) (redis_ready w) (cache w) (otp_verifications w) (vendors w)
          t (next_id w) (faults w) (entropy w) (log w).

Definition set_next_id (i : Z) (w : World) : World :=
  mkWorld (now w) (redis_ready w) (cache w) (otp_verifications w) (vendors w)
          (vendor_sessions w) i (faults w) (entropy w) (log w).

Definition set_faults (f : list bool) (w : World) : World :=
  mkWorld (now w) (redis_ready w) (cache w) (otp_verifications w) (vendors w)
          (vendor_sessions w) (next_id w) f (entropy w) (log w).

Definition set_entropy (r : list Z) (w : World) : World :=
  mkWorld (now w) (redis_ready w) (cache w) (otp_verifications w) (vendors w)
          (vendor_sessions w) (next_id w) (faults w) r (log w).

Definition set_log (l : list (log_level * string)) (w : World) : World :=
  mkWorld (now w) (redis_ready w) (cache w) (otp_verifications w) (vendors w)
          (vendor_sessions w) (next_id w) (faults w) (entropy w) l.

(** Time passing between two calls. *)
Definition advance (d : Z) (w : World) : World :=
  mkWorld (now w + d) (redis_ready w) (cache w) (otp_verifications w) (vendors w)
          (vendor_sessions w) (next_id w) (faults w) (entropy w) (log w).

(** ** Computations *)

Inductive result (A : Type) :=
| Ok (a : A)
| Raise (e : exn).
Arguments Ok {A} a.
Arguments Raise {A} e.

Definition M (A : Type) : Type := World -> result A * World.

Definition ret {A} (a : A) : M A := fun w => (Ok a, w).

Definition raise {A} (e : exn) : M A := fun w => (Raise e, w).

Definition bind {A B} (m : M A) (k : A -> M B) : M B :=
  fun w =>
    match m w with
    | (Ok a, w') => k a w'
    | (Raise e, w') => (Raise e, w')
    end.

(** [try: m  except Exception as e: h e]; every exception of this model is
    an [Exception] for Python, [HTTPException] included. *)
Definition try_catch {A} (m : M A) (h : exn -> M A) : M A :=
  fun w =>
    match m w with
    | (Ok a, w') => (Ok a, w')
    | (Raise e, w') => h e w'
    end.

Notation "x <- m ;; k" := (bind m (fun x => k))
  (at level 100, m at next level, right associativity).
Notation "m ;;; k" := (bind m (fun _ => k))
  (at level 100, right associativity).

Definition logger (lvl : log_level) (what : string) : M unit :=
  fun w => (Ok tt, set_log ((lvl, what) :: log w) w).

(** [int(time.time())], [datetime.now()], [datetime.utcnow()] *)
Definition time_time : M Z := fun w => (Ok (now w), w).

(** One round trip to a store: it fails when the schedule says so. *)
Definition round_trip : M unit :=
  fun w =>
    match faults w with
    | true :: fs => (Raise StoreError, set_faults fs w)
    | false :: fs => (Ok tt, set_faults fs w)
    | [] => (Ok tt, w)
    end.

(** [secrets.randbelow(n)] for a positive [n]: the next output of the
    random source, reduced to the range; an exhausted source gives 0. *)
Definition randbelow (n : Z) : M Z :=
  fun w => (Ok (hd 0 (entropy w) mod n), set_entropy (tail (entropy w)) w).

(** What the code uses and does not define. *)
Class Collaborators := {
  (** [jwt.encode(payload, JWT_SECRET, "HS256")] on the claims
      [sub], [type], [iat], [exp] *)
  jwt_encode : Z -> string -> Z -> Z -> string;
  (** [jwt.decode(token, JWT_SECRET, ["HS256"])] at a given time: [None]
      when it raises [JWTError], else the claims [type] and [sub], either
      of which may be missing; [sub] is the text of a vendor id, which is
      never empty *)
  jwt_decode : string -> Z -> option (option string * option Z);
  (** [pwd_context.verify(otp, hash)]; [None] when passlib raises *)
  pwd_verify : string -> string -> option bool;
  (** [hashlib.md5(s.encode()).hexdigest()] *)
  md5_hexdigest : string -> string;
  (** what the cache makes of a TTL that is not an integer: the TTL it
      applies, or [None] when it refuses the command *)
  float_ttl : Q -> option Z;
  (** the table of decimal digits (category Nd) of the Unicode database
      that [re] consults, outside ASCII: whether the character with this
      UTF-8 text is one *)
  unicode_decimal : string -> bool
}.

(** *** The cache *)

(** An entry is there until it expires.  The clock of this development
    counts whole seconds: an entry written at the reading [t] with a TTL of
    [d] seconds is taken to be gone from the reading [t + d] on, while the
    cache itself keeps it for the fraction of that second that had passed
    when the entry was written. *)
Definition live (t : Z) (e : centry) : bool :=
  match c_expiry e with
  | Some x => t <? x
  | None => true
  end.

(** The live entry under a key. *)
Definition cache_entry (w : World) (k : string) : option centry :=
  match cache w !! k with
  | Some e => if live (now w) e then Some e else None
  | None => None
  end.

Definition cache_lookup (w : World) (k : string) : option cval :=
  c_val <$> cache_entry w k.

(** [get_redis()] *)
Definition get_redis : M unit :=
  fun w => if redis_ready w then (Ok tt, w) else (Raise RuntimeError, w).

(** GET *)
Definition redis_get (k : string) : M (option cval) :=
  round_trip ;;; fun w => (Ok (cache_lookup w k), w).

Definition cache_put (k : string) (v : cval) (ttl : Z) : M unit :=
  fun w => (Ok tt, set_cache (<[k := CEntry v (Some (now w + ttl))]> (cache w)) w).

(** SETEX *)
Definition redis_setex `{Collaborators} (k : string) (ttl : pynum) (v : cval) : M unit :=
  round_trip ;;;
  match ttl with
  | PyInt t => cache_put k v t
  | PyFloat q =>
      match float_ttl q with
      | Some t => cache_put k v t
      | None => raise StoreError
      end
  end.

(** SETEX with a dictionary for a value.  The client encodes a command
    before it sends anything, and it encodes bytes, strings and numbers
    only: for a [dict] it raises [DataError], and the cache is not
    reached. *)
Definition redis_setex_dict (k : string) (ttl : pynum) (v : session_info) : M unit :=
  raise DataError.

(** DEL *)
Definition redis_delete (k : string) : M unit :=
  round_trip ;;; fun w => (Ok tt, set_cache (delete k (cache w)) w).

(** The counters of the cache are signed 64-bit integers. *)
Definition int64_min : Z := - 2 ^ 63.
Definition int64_max : Z := 2 ^ 63 - 1.

(** A count that INCR can raise: an integer of the 64-bit range below its
    maximum. *)
Definition incrementable (n : Z) : bool := (int64_min <=? n) && (n <? int64_max).

(** INCR: a missing key counts from zero and gets no expiry; a value that
    is no integer of the 64-bit range, or whose successor is none, is
    refused and left as it is. *)
Definition redis_incr (k : string) : M Z :=
  round_trip ;;;
  fun w =>
    match cache_entry w k with
    | None => (Ok 1, set_cache (<[k := CEntry (CNum 1) None]> (cache w)) w)
    | Some (CEntry (CNum n) x) =>
        if incrementable n
        then (Ok (n + 1), set_cache (<[k := CEntry (CNum (n + 1)) x]> (cache w)) w)
        else (Raise StoreError, w)
    | Some _ => (Raise StoreError, w)
    end.

(** EXPIRE *)
Definition redis_expire (k : string) (ttl : Z) : M unit :=
  round_trip ;;;
  fun w =>
    match cache_entry w k with
    | Some e => (Ok tt, set_cache (<[k := CEntry (c_val e) (Some (now w + ttl))]> (cache w)) w)
    | None => (Ok tt, w)
    end.

(** [int(v)] of a cache reply *)
Definition py_int (v : cval) : M Z :=
  match v with
  | CNum z => ret z
  | CFloat _ | CStr _ => raise ValueError
  end.

(** [int(x) if x else 0] *)
Definition int_or_zero (o : option cval) : M Z :=
  match o with
  | Some v => if truthy v then py_int v else ret 0
  | None => ret 0
  end.

(** ** [app/middleware/rate_limiting.py] *)

Record Request := mkRequest {
  url_path : string;
  client_host : option string;    (* [request.client.host], when there is one *)
  user_agent : option string      (* the [user-agent] header *)
}.

Record Response := mkResponse {
  status_code : Z;
  headers : list (string * string)
}.

(** [response.headers[k] = v] *)
Definition set_header (k v : string) (r : Response) : Response :=
  mkResponse (status_code r)
    (filter (fun kv => negb (String.eqb (fst kv) k)) (headers r) ++ [(k, v)]).

Module RateLimitMiddleware.

(** The instance attributes set by [__init__]. *)
Record t := mk {
  calls_per_minute : Z;
  calls_per_hour : Z
}.

(** [self.sensitive_endpoints]: [(per_minute, per_hour)] of a path. *)
Definition sensitive_endpoints (endpoint : string) : option (Z * Z) :=
  if String.eqb endpoint "/api/v1/auth/login" then Some (5, 20)
  else if String.eqb endpoint "/api/v1/auth/verify-otp" then Some (10, 50)
  else if String.eqb endpoint "/api/v1/auth/refresh" then Some (20, 200)
  else None.

(** The second component of what [_check_rate_limit] returns. *)
Inductive rate_info :=
| LimitReached (limit remaining reset : Z) (window : string)
| WithinLimits (minute_limit minute_remaining hour_limit hour_remaining : Z)
| NoInfo.                       (* the empty dictionary *)

Definition minute_key (identifier : string) (current_time : Z) : string :=
  "rate_limit:minute:" +:+ identifier +:+ ":" +:+ str_int (current_time / 60).

Definition hour_key (identifier : string) (current_time : Z) : string :=
  "rate_limit:hour:" +:+ identifier +:+ ":" +:+ str_int (current_time / 3600).

(** The limits that apply to a path. *)
Definition limits_for (self : t) (endpoint : string) : Z * Z :=
  match sensitive_endpoints endpoint with
  | Some limits => limits
  | None => (calls_per_minute self, calls_per_hour self)
  end.

Section WithCollaborators.
Context `{Collaborators}.

Definition _get_client_identifier (request : Request) : string :=
  let client_ip :=
    match client_host request with
    | Some host => if String.eqb host "" then "unknown" else host
    | None => "unknown"
    end in
  let ua := default "" (user_agent request) in
  client_ip +:+ ":" +:+ String.substring 0 8 (md5_hexdigest ua).

Definition _check_rate_limit (self : t) (identifier endpoint : string)
  : M (bool * rate_info) :=
  try_catch
    (get_redis ;;;
     current_time <- time_time ;;
     let '(minute_limit, hour_limit) := limits_for self endpoint in
     minute_reply <- redis_get (minute_key identifier current_time) ;;
     minute_count <- int_or_zero minute_reply ;;
     hour_reply <- redis_get (hour_key identifier current_time) ;;
     hour_count <- int_or_zero hour_reply ;;
     if minute_count >=? minute_limit then
       ret (false, LimitReached minute_limit 0 ((current_time / 60 + 1) * 60) "minute")
     else if hour_count >=? hour_limit then
       ret (false, LimitReached hour_limit 0 ((current_time / 3600 + 1) * 3600) "hour")
     else
       ret (true, WithinLimits minute_limit (minute_limit - minute_count - 1)
                           hour_limit (hour_limit - hour_count - 1)))
    (fun e =>
       logger ERROR "Rate limit check failed" ;;;
       ret (true, NoInfo)).

Definition _increment_counters (identifier : string) : M unit :=
  try_catch
    (get_redis ;;;
     current_time <- time_time ;;
     redis_incr (minute_key identifier current_time) ;;;
     redis_expire (minute_key identifier current_time) 60 ;;;
     redis_incr (hour_key identifier current_time) ;;;
     redis_expire (hour_key identifier current_time) 3600)
    (fun e => logger ERROR "Failed to increment rate limit counters").

(** The paths that [dispatch] lets through unchecked. *)
Definition exempt (path : string) : bool :=
  existsb (String.eqb path) ["/"; "/health"; "/docs"; "/redoc"; "/openapi.json"].

Definition dispatch (self : t) (request : Request)
    (call_next : Request -> M Response) : M Response :=
  if exempt (url_path request) then call_next request
  else
    let identifier := _get_client_identifier request in
    let endpoint := url_path request in
    checked <- _check_rate_limit self identifier endpoint ;;
    let '(allowed, info) := checked in
    if negb allowed then
      logger WARNING "Rate limit exceeded" ;;;
      match info with
      | LimitReached limit _ reset _ =>
          t1 <- time_time ;;
          t2 <- time_time ;;
          raise (HTTPException 429 (MRateLimited (reset - t2))
                   [("X-RateLimit-Limit", str_int limit);
                    ("X-RateLimit-Remaining", "0");
                    ("X-RateLimit-Reset", str_int reset);
                    ("Retry-After", str_int (reset - t1))])
      | _ => raise KeyError
      end
    else
      _increment_counters identifier ;;;
      response <- call_next request ;;
      match info with
      | WithinLimits ml mr hl hr =>
          ret (set_header "X-RateLimit-Hour-Remaining" (str_int hr)
              (set_header "X-RateLimit-Hour-Limit" (str_int hl)
              (set_header "X-RateLimit-Minute-Remaining" (str_int mr)
              (set_header "X-RateLimit-Minute-Limit" (str_int ml) response))))
      | LimitReached _ _ _ _ =>
          ret (set_header "X-RateLimit-Hour-Remaining" ""
              (set_header "X-RateLimit-Hour-Limit" ""
              (set_header "X-RateLimit-Minute-Remaining" ""
              (set_header "X-RateLimit-Minute-Limit" "" response))))
      | NoInfo => ret response
      end.

End WithCollaborators.
End RateLimitMiddleware.

Module BruteForceProtection.

(** The instance attributes set by [__init__]. *)
Definition max_failed_attempts : Z := 5.
Definition lockout_duration : Z := 15 * 60.
Definition progressive_lockout : bool := true.

Definition failed_attempts_key (identifier endpoint : string) : string :=
  "failed_attempts:" +:+ endpoint +:+ ":" +:+ identifier.

Definition lockout_key (identifier endpoint : string) : string :=
  "lockout:" +:+ endpoint +:+ ":" +:+ identifier.

(** The duration computed from the incremented count [attempts]. *)
Definition duration_for (attempts : Z) : pynum :=
  if progressive_lockout then
    py_min_int (py_mul_int lockout_duration (py_pow2 (attempts - max_failed_attempts))) 3600
  else PyInt lockout_duration.

(** The value the cache keeps for a Python number. *)
Definition cval_of (x : pynum) : cval :=
  match x with
  | PyInt z => CNum z
  | PyFloat q => CFloat q
  end.

Section WithCollaborators.
Context `{Collaborators}.

Definition record_failed_attempt (identifier endpoint : string) : M unit :=
  try_catch
    (get_redis ;;;
     let key := failed_attempts_key identifier endpoint in
     reply <- redis_get key ;;
     attempts <- int_or_zero reply ;;
     let attempts := attempts + 1 in
     let lockout_duration := duration_for attempts in
     redis_setex key lockout_duration (CNum attempts) ;;;
     if attempts >=? max_failed_attempts then
       current_time <- time_time ;;
       let lockout_until := py_add_int current_time lockout_duration in
       redis_setex (lockout_key identifier endpoint) lockout_duration
                   (cval_of lockout_until) ;;;
       logger WARNING "Account locked"
     else ret tt)
    (fun e => logger ERROR "Failed to record failed attempt").

Definition is_locked_out (identifier endpoint : string) : M (bool * Z) :=
  try_catch
    (get_redis ;;;
     reply <- redis_get (lockout_key identifier endpoint) ;;
     match reply with
     | None => ret (false, 0)
     | Some v =>
         if negb (truthy v) then ret (false, 0)
         else
           lockout_until <- py_int v ;;
           current_time <- time_time ;;
           if current_time <? lockout_until then
             ret (true, lockout_until - current_time)
           else
             redis_delete (lockout_key identifier endpoint) ;;;
             redis_delete (failed_attempts_key identifier endpoint) ;;;
             ret (false, 0)
     end)
    (fun e =>
       logger ERROR "Failed to check lockout status" ;;;
       ret (false, 0)).

Definition clear_failed_attempts (identifier endpoint : string) : M unit :=
  try_catch
    (get_redis ;;;
     redis_delete (failed_attempts_key identifier endpoint) ;;;
     redis_delete (lockout_key identifier endpoint))
    (fun e => logger ERROR "Failed to clear failed attempts").

End WithCollaborators.
End BruteForceProtection.

(** ** [app/services/auth_service.py] *)

(** [AuthResponse] of [app/schemas/auth.py] *)
Record AuthResponse := mkAuthResponse {
  access_token : string;
  refresh_token : string;
  auth_vendor_id : Z
}.

Module AuthService.

(** The instance attributes set by [__init__]. *)
Definition otp_expiry : Z := 5 * 60.
Definition max_otp_attempts : Z := 3.

(** *** Text

    A Python [str] is kept as its UTF-8 text: a character of the ASCII
    range is one [ascii], any other character a lead byte followed by one
    to three continuation bytes. *)

(** [[0-9]] *)
Definition is_digit (c : ascii) : bool :=
  let n := nat_of_ascii c in (48 <=? n)%nat && (n <=? 57)%nat.

(** A byte that continues a character. *)
Definition is_continuation (c : ascii) : bool :=
  let n := nat_of_ascii c in (128 <=? n)%nat && (n <? 192)%nat.

(** The number of continuation bytes that a lead byte announces. *)
Definition followers (c : ascii) : nat :=
  let n := nat_of_ascii c in
  if (n <? 192)%nat then 0%nat
  else if (n <? 224)%nat then 1%nat
  else if (n <? 240)%nat then 2%nat
  else 3%nat.

(** [len(s)]: the number of characters. *)
Fixpoint py_len (s : string) : nat :=
  match s with
  | EmptyString => O
  | String c s' => if is_continuation c then py_len s' else S (py_len s')
  end.

(** *** [_is_valid_phone]: [^(\+91|91)?[6-9]\d{9}$] on the number without
    spaces and dashes *)

Definition is_6_to_9 (c : ascii) : bool :=
  let n := nat_of_ascii c in (54 <=? n)%nat && (n <=? 57)%nat.

(** [s.replace(' ', '').replace('-', '')] *)
Fixpoint strip_separators (s : string) : string :=
  match s with
  | EmptyString => EmptyString
  | String c s' =>
      if (Ascii.eqb c " " || Ascii.eqb c "-")%char then strip_separators s'
      else String c (strip_separators s')
  end.

Fixpoint string_drop (n : nat) (s : string) : string :=
  match n, s with
  | O, _ => s
  | S n', String _ s' => string_drop n' s'
  | S _, EmptyString => EmptyString
  end.

Fixpoint string_take (n : nat) (s : string) : string :=
  match n, s with
  | O, _ => EmptyString
  | S n', String c s' => String c (string_take n' s')
  | S _, EmptyString => EmptyString
  end.

(** [\d] at the head of a text: the pattern is a [str], so that [\d] is a
    decimal digit of any script, an ASCII digit or a character of the
    table.  The answer is the text after the digit, when there is one. *)
Definition after_digit `{Collaborators} (s : string) : option string :=
  match s with
  | EmptyString => None
  | String c s' =>
      if is_digit c then Some s'
      else
        let k := followers c in
        let tail := string_take k s' in
        if (0 <? k)%nat && (String.length tail =? k)%nat
           && forallb is_continuation (list_ascii_of_string tail)
           && unicode_decimal (String c tail)
        then Some (string_drop k s')
        else None
  end.

(** [\d{k}$]: [k] digits, then the end of the string or its final newline *)
Fixpoint digits_then_end `{Collaborators} (k : nat) (s : string) : bool :=
  match k with
  | O =>
      match s with
      | EmptyString => true
      | String c EmptyString => Ascii.eqb c "010"%char
      | String _ (String _ _) => false
      end
  | S k' =>
      match after_digit s with
      | Some s' => digits_then_end k' s'
      | None => false
      end
  end.

(** [[6-9]\d{9}$] *)
Definition national_number `{Collaborators} (s : string) : bool :=
  match s with
  | String c s' => is_6_to_9 c && digits_then_end 9 s'
  | EmptyString => false
  end.

Definition _is_valid_phone `{Collaborators} (phone : string) : bool :=
  let p := strip_separators phone in
  (String.prefix "+91" p && national_number (string_drop 3 p))
  || (String.prefix "91" p && national_number (string_drop 2 p))
  || national_number p.

(** *** The tables *)

(** [table("otp_verifications").select("*").eq("id", otp_id).execute()];
    [otp_id] is the reply of the cache. *)
Definition otp_id_matches (key : cval) (r : otp_row) : bool :=
  match key with
  | CNum z => otp_id r =? z
  | _ => false
  end.

Definition select_otp (key : cval) : M (list otp_row) :=
  round_trip ;;;
  fun w => (Ok (filter (fun r => otp_id_matches key r) (otp_verifications w)), w).

(** [table("otp_verifications").update({..}).eq("id", otp_id).execute()] *)
Definition update_otp (key : cval) (f : otp_row -> otp_row) : M unit :=
  round_trip ;;;
  fun w => (Ok tt,
            set_otp_verifications
              (map (fun r => if otp_id_matches key r then f r else r)
                   (otp_verifications w)) w).

Definition with_attempts (a : Z) (r : otp_row) : otp_row :=
  OtpRow (otp_id r) (otp_phone_or_email r) (otp_code r) a
         (otp_verified r) (otp_expires_at r).

Definition with_verified (a : Z) (r : otp_row) : otp_row :=
  OtpRow (otp_id r) (otp_phone_or_email r) (otp_code r) a
         true (otp_expires_at r).

Definition option_string_is (s : string) (o : option string) : bool :=
  match o with
  | Some x => String.eqb x s
  | None => false
  end.

(** [table("vendors").select("*").eq("phone_number", identifier)] *)
Definition select_vendor_by_phone (identifier : string) : M (list vendor_row) :=
  round_trip ;;;
  fun w => (Ok (filter (fun r => option_string_is identifier (vendor_phone_number r))
                       (vendors w)), w).

(** [table("vendors").select("*").eq("email", identifier)] *)
Definition select_vendor_by_email (identifier : string) : M (list vendor_row) :=
  round_trip ;;;
  fun w => (Ok (filter (fun r => option_string_is identifier (vendor_email r))
                       (vendors w)), w).

Definition with_last_active (t : Z) (r : vendor_row) : vendor_row :=
  VendorRow (vendor_id r) (vendor_name r) (vendor_market_location r)
            (vendor_preferred_language r) (vendor_status r) t
            (vendor_phone_number r) (vendor_email r).

(** [table("vendors").update({"last_active": t}).eq("id", id)] *)
Definition touch_vendor (id t : Z) : M unit :=
  round_trip ;;;
  fun w => (Ok tt,
            set_vendors
              (map (fun r => if vendor_id r =? id then with_last_active t r else r)
                   (vendors w)) w).

(** [table("vendors").insert(vendor_data)]: the database adds the key and
    answers with the stored row. *)
Definition insert_vendor (data : Z -> vendor_row) : M (list vendor_row) :=
  round_trip ;;;
  fun w =>
    let row := data (next_id w) in
    (Ok [row], set_next_id (next_id w + 1) (set_vendors (vendors w ++ [row]) w)).

(** [table("vendor_sessions").insert({..})] *)
Definition insert_session (data : Z -> session_row) : M (list session_row) :=
  round_trip ;;;
  fun w =>
    let row := data (next_id w) in
    (Ok [row],
     set_next_id (next_id w + 1) (set_vendor_sessions (vendor_sessions w ++ [row]) w)).

(** [table("vendor_sessions").select("*").eq("session_token", token)] *)
Definition select_session_by_token (token : string) : M (list session_row) :=
  round_trip ;;;
  fun w => (Ok (filter (fun r => String.eqb (session_token r) token)
                       (vendor_sessions w)), w).

(** [table("vendor_sessions").delete().eq("id", id)] *)
Definition delete_session_by_id (id : Z) : M unit :=
  round_trip ;;;
  fun w => (Ok tt,
            set_vendor_sessions
              (filter (fun r => negb (session_id r =? id)) (vendor_sessions w)) w).

(** [table("vendor_sessions").delete().eq("session_token", token)] *)
Definition delete_session_by_token (token : string) : M unit :=
  round_trip ;;;
  fun w => (Ok tt,
            set_vendor_sessions
              (filter (fun r => negb (String.eqb (session_token r) token))
                      (vendor_sessions w)) w).

Definition with_last_used (t : Z) (r : session_row) : session_row :=
  SessionRow (session_id r) (session_vendor_id r) (session_token r)
             (session_refresh_token r) (session_expires_at r) (Some t).

(** [table("vendor_sessions").update({"last_used": t}).eq("id", id)] *)
Definition touch_session (id t : Z) : M unit :=
  round_trip ;;;
  fun w => (Ok tt,
            set_vendor_sessions
              (map (fun r => if session_id r =? id then with_last_used t r else r)
                   (vendor_sessions w)) w).

Definition otp_token_key (token : string) : string := "otp_token:" +:+ token.

Definition vendor_session_key (access_token : string) : string :=
  "vendor_session:" +:+ access_token.

Section WithCollaborators.
Context `{Collaborators}.

Definition _generate_jwt_tokens (vendor_id : Z) : M (string * string) :=
  now <- time_time ;;
  let access_token := jwt_encode vendor_id "access" now (now + 3600) in
  let refresh_token := jwt_encode vendor_id "refresh" now (now + 30 * 86400) in
  ret (access_token, refresh_token).

Definition _create_vendor_session (vendor_id : Z) (access_token refresh_token : string)
  : M unit :=
  try_catch
    (now <- time_time ;;
     let expires_at := now + 30 * 86400 in
     result <- insert_session
                 (fun id => SessionRow id vendor_id access_token refresh_token
                                       expires_at None) ;;
     match result with
     | [] => raise (Exception MFailedSession)
     | _ :: _ =>
         redis_setex_dict (vendor_session_key access_token) (PyInt (24 * 3600))
                          (mkSessionInfo (Some vendor_id) expires_at)
     end)
    (fun e =>
       logger ERROR "Failed to create vendor session" ;;;
       raise (Exception MFailedSession)).

Definition _get_or_create_vendor (identifier : string) : M vendor_row :=
  try_catch
    (result <- (if _is_valid_phone identifier
                then select_vendor_by_phone identifier
                else select_vendor_by_email identifier) ;;
     match result with
     | vendor :: _ =>
         now <- time_time ;;
         touch_vendor (vendor_id vendor) now ;;;
         ret vendor
     | [] =>
         now <- time_time ;;
         vendor_data <-
           (if _is_valid_phone identifier then
              ret (fun id => VendorRow id "" "" "hi" "active" now
                                       (Some identifier) None)
            else
              r <- randbelow 9000000000 ;;
              ret (fun id => VendorRow id "" "" "hi" "active" now
                                       (Some ("+91" +:+ str_int (r + 1000000000)))
                                       (Some identifier))) ;;
         result <- insert_vendor vendor_data ;;
         match result with
         | [] => raise (Exception MFailedCreateVendor)
         | row :: _ => ret row
         end
     end)
    (fun e =>
       logger ERROR "Failed to get or create vendor" ;;;
       raise (Exception MFailedVendor)).

Definition verify_otp (token otp : string) : M AuthResponse :=
  try_catch
    (let token_key := otp_token_key token in
     reply <- redis_get token_key ;;
     match reply with
     | None => raise (Exception MInvalidToken)
     | Some otp_id =>
         if negb (truthy otp_id) then raise (Exception MInvalidToken)
         else
           result <- select_otp otp_id ;;
           match result with
           | [] => raise (Exception MRecordNotFound)
           | otp_record :: _ =>
               now <- time_time ;;
               if now >? otp_expires_at otp_record then
                 raise (Exception MOtpExpired)
               else if otp_verified otp_record then
                 raise (Exception MOtpAlreadyUsed)
               else if otp_attempts otp_record >=? max_otp_attempts then
                 raise (Exception MMaxAttempts)
               else
                 match pwd_verify otp (otp_code otp_record) with
                 | None => raise HashError
                 | Some false =>
                     update_otp otp_id
                       (with_attempts (otp_attempts otp_record + 1)) ;;;
                     let remaining_attempts :=
                       max_otp_attempts - (otp_attempts otp_record + 1) in
                     raise (Exception (MInvalidOtp remaining_attempts))
                 | Some true =>
                     update_otp otp_id
                       (with_verified (otp_attempts otp_record + 1)) ;;;
                     let identifier := otp_phone_or_email otp_record in
                     vendor <- _get_or_create_vendor identifier ;;
                     tokens <- _generate_jwt_tokens (vendor_id vendor) ;;
                     let '(access_token, refresh_token) := tokens in
                     _create_vendor_session (vendor_id vendor)
                                            access_token refresh_token ;;;
                     redis_delete token_key ;;;
                     ret (mkAuthResponse access_token refresh_token
                                         (vendor_id vendor))
                 end
           end
     end)
    (fun e =>
       logger ERROR "OTP verification failed" ;;;
       raise (Exception (str_exn e))).

(** The cache fast path of [validate_session].  The reply of the cache is
    [None] or a [str], and [cached_session["expires_at"]] on a [str] raises
    [TypeError]: the path never answers with a session. *)
Definition cached_session (reply : option cval) : M (option session_info) :=
  match reply with
  | None => ret None
  | Some v => if negb (truthy v) then ret None else raise TypeError
  end.

Definition validate_session (access_token : string) : M (option session_info) :=
  try_catch
    (let session_key := vendor_session_key access_token in
     reply <- redis_get session_key ;;
     hit <- cached_session reply ;;
     match hit with
     | Some session => ret (Some session)
     | None =>
         now <- time_time ;;
         match jwt_decode access_token now with
         | None => raise JWTError
         | Some (type, sub) =>
             if negb (option_string_is "access" type) then ret None
             else
               result <- select_session_by_token access_token ;;
               match result with
               | [] => ret None
               | session :: _ =>
                   now <- time_time ;;
                   if now >? session_expires_at session then
                     delete_session_by_id (session_id session) ;;;
                     redis_delete session_key ;;;
                     ret None
                   else
                     touch_session (session_id session) now ;;;
                     ret (Some (mkSessionInfo sub (session_expires_at session)))
               end
         end
     end)
    (fun e =>
       match e with
       | JWTError => ret None
       | _ => logger ERROR "Session validation failed" ;;; ret None
       end).

End WithCollaborators.
End AuthService.

(** ** [app/api/v1/endpoints/auth.py] *)

Module Endpoints.
Section WithCollaborators.
Context `{Collaborators}.

(** [OTPVerifyRequest] is the pair of its fields [token] and [otp]; the
    handler receives an [AuthService] that was constructed for the
    request. *)
Definition verify_otp (token otp : string) : M AuthResponse :=
  try_catch
    (AuthService.verify_otp token otp)
    (fun e =>
       logger WARNING "OTP verification failed for token" ;;;
       raise (HTTPException 400 (str_exn e) [])).

End WithCollaborators.
End Endpoints.

(** ** Worlds after an operation *)

(** A log record added on top of the world. *)
Definition logged (lvl : log_level) (what : string) (w : World) : World :=
  set_log ((lvl, what) :: log w) w.

(** The rows of [otp_verifications] that a cache reply selects. *)
Definition otp_rows (key : cval) (w : World) : list otp_row :=
  filter (fun r => AuthService.otp_id_matches key r) (otp_verifications w).

(** The table after [update(..).eq("id", key)]. *)
Definition otp_updated (key : cval) (f : otp_row -> otp_row) (w : World) : World :=
  set_otp_verifications
    (map (fun r => if AuthService.otp_id_matches key r then f r else r)
         (otp_verifications w)) w.

(** The table of codes after an attempt on the records that a cache reply
    selects: their count of attempts is [a], and an accepted code marks
    them verified. *)
Definition attempt_recorded (key : cval) (a : Z) (accepted : bool) (w : World) : World :=
  set_otp_verifications
    (map (fun r =>
            if AuthService.otp_id_matches key r
            then OtpRow (otp_id r) (otp_phone_or_email r) (otp_code r) a
                        (if accepted then true else otp_verified r)
                        (otp_expires_at r)
            else r)
         (otp_verifications w)) w.

(** The vendor rows that [_get_or_create_vendor] selects for an identifier. *)
Definition vendor_matches `{Collaborators} (identifier : string) (w : World)
  : list vendor_row :=
  if AuthService._is_valid_phone identifier
  then filter (fun r => AuthService.option_string_is identifier (vendor_phone_number r))
              (vendors w)
  else filter (fun r => AuthService.option_string_is identifier (vendor_email r))
              (vendors w).

(** [last_active] of the vendor [id] set to the current time. *)
Definition vendor_touched (id : Z) (w : World) : World :=
  set_vendors
    (map (fun r => if vendor_id r =? id then AuthService.with_last_active (now w) r else r)
         (vendors w)) w.

(** A row appended to [vendors] under the next key. *)
Definition vendor_added (row : vendor_row) (w : World) : World :=
  set_next_id (next_id w + 1) (set_vendors (vendors w ++ [row]) w).

(** The number behind the placeholder phone of a vendor created for an
    email address: [secrets.randbelow(9000000000) + 1000000000]. *)
Definition placeholder_number (w : World) : Z :=
  hd 0 (entropy w) mod 9000000000 + 1000000000.

(** The vendor shell created for an identifier. *)
Definition new_vendor `{Collaborators} (identifier : string) (w : World) : vendor_row :=
  if AuthService._is_valid_phone identifier
  then VendorRow (next_id w) "" "" "hi" "active" (now w) (Some identifier) None
  else VendorRow (next_id w) "" "" "hi" "active" (now w)
                 (Some ("+91" +:+ str_int (placeholder_number w))) (Some identifier).

(** The random source after the creation of a vendor shell. *)
Definition entropy_used `{Collaborators} (identifier : string) (w : World) : World :=
  if AuthService._is_valid_phone identifier then w
  else set_entropy (tail (entropy w)) w.

(** The session row written by [_create_vendor_session], good for thirty
    days. *)
Definition session_stored (vid : Z) (access refresh : string) (w : World) : World :=
  set_next_id (next_id w + 1)
    (set_vendor_sessions
       (vendor_sessions w
        ++ [SessionRow (next_id w) vid access refresh (now w + 30 * 86400) None])
       w).

(** ** A concrete setting

    Stand-ins for the collaborators, used to run the code on examples: a
    token format that carries the claims in clear, a hash that prefixes the
    code, a constant digest, a cache that refuses a fractional TTL, and a
    table of digits that knows the Devanagari ones, U+0966 to U+096F. *)

Module Demo.

Fixpoint parse_digits (s : string) (acc : Z) : option Z :=
match s with
| EmptyString => Some acc
| String c s' =>
    if AuthService.is_digit c
    then parse_digits s' (10 * acc + (Z.of_nat (nat_of_ascii c) - 48))
    else None
end.

Definition parse_int (s : string) : option Z :=
match s with
| EmptyString => None
| _ => parse_digits s 0
end.

Fixpoint split_dots (s : string) : list string :=
match s with
| EmptyString => [EmptyString]
| String c s' =>
    if Ascii.eqb c "."%char then EmptyString :: split_dots s'
    else match split_dots s' with
         | x :: xs => String c x :: xs
         | [] => [String c EmptyString]
         end
end.

Definition encode (sub : Z) (type : string) (iat exp : Z) : string :=
type +:+ "." +:+ str_int sub +:+ "." +:+ str_int iat +:+ "." +:+ str_int exp.

(** A token is accepted until its [exp]. *)
Definition decode (token : string) (now : Z) : option (option string * option Z) :=
match split_dots token with
| [type; sub; iat; exp] =>
    match parse_int sub, parse_int iat, parse_int exp with
    | Some s, Some _, Some e => if e <? now then None else Some (Some type, Some s)
    | _, _, _ => None
    end
| _ => None
end.

(** The UTF-8 text of a Devanagari digit: E0 A5 A6 to E0 A5 AF. *)
Definition devanagari_digit (s : string) : bool :=
match s with
| String a (String b (String c EmptyString)) =>
    ((nat_of_ascii a =? 224) && (nat_of_ascii b =? 165)
     && (166 <=? nat_of_ascii c) && (nat_of_ascii c <=? 175))%nat
| _ => false
end.

Definition collaborators : Collaborators := {|
jwt_encode := encode;
jwt_decode := decode;
pwd_verify := fun otp hash => Some (String.eqb hash ("hash:" +:+ otp));
md5_hexdigest := fun _ => "d41d8cd98f00b204e9800998ecf8427e";
float_ttl := fun _ => None;
unicode_decimal := devanagari_digit
|}.

(** The Devanagari digit one. *)
Definition devanagari_one : string := String "224" (String "165" (String "167" "")).

(** An OTP issued at time 1000 for an email address, valid for five
  minutes, and the token that stands for it. *)
Definition issued : otp_row :=
OtpRow 7 "asha@example.com" "hash:482913" 0 false 1300.

Definition world : World :=
mkWorld 1000 true
        (<[AuthService.otp_token_key "tok-1" := CEntry (CNum 7) (Some 1300)]> ∅)
        [issued] [] [] 8 [] [5123456789] [].

(** The world after the code 482913 was given for [tok-1]. *)
Definition verified : World :=
snd (@AuthService.verify_otp collaborators "tok-1" "482913" world).

(** One attempt on [tok-1]. *)
Definition try_code (code : string) (w : World) : result AuthResponse * World :=
@AuthService.verify_otp collaborators "tok-1" code w.

(** Four failures on record for a client of the login route. *)
Definition client : string := "203.0.113.9:d41d8cd9".


(** A session row whose [expires_at] has passed while its access token
    still decodes, and no cache entry. *)
Definition lapsed_session : World :=
  mkWorld 1000 true ∅ [] []
          [SessionRow 3 2 "access.2.100.5000" "refresh.2.100.900" 900 None]
          4 [] [] [].

(** The demo world with four failures of the demo client on record for
    the verify-otp route, and the world after the guard was told of a
    fifth one. *)
Definition verify_path : string := "/api/v1/auth/verify-otp".

Definition four_failed_verifications : World :=
  set_cache
    (<[BruteForceProtection.failed_attempts_key client verify_path :=
         CEntry (CNum 4) (Some 1056)]> (cache world))
    world.

Definition fifth_failure_recorded : World :=
  snd (@BruteForceProtection.record_failed_attempt collaborators client verify_path
         four_failed_verifications).

(** The world after five requests to the verify-otp handler with a token
    that does not exist. *)
Definition bad_request (w : World) : World :=
  snd (@Endpoints.verify_otp collaborators "no-such-token" "000000" w).

Definition five_bad_requests : World :=
  bad_request (bad_request (bad_request (bad_request (bad_request world)))).

(** The limiter as [app/main.py] installs it, a request of the demo client
    for the health check, and an application that answers 200. *)
Definition limiter : RateLimitMiddleware.t := RateLimitMiddleware.mk 60 1000.

Definition health_check : Request :=
  mkRequest "/health" (Some "203.0.113.9") (Some "curl/8.5").

Definition profile_request : Request :=
  mkRequest "/api/v1/vendors/me" (Some "203.0.113.9") (Some "curl/8.5").

Definition app (request : Request) : M Response := ret (mkResponse 200 []).

(** Sixty requests of the demo client counted in the current minute. *)
Definition minute_used_up : World :=
  mkWorld 1000 true
          (<[RateLimitMiddleware.minute_key client 1000 := CEntry (CNum 60) (Some 1020)]>
             (<[RateLimitMiddleware.hour_key client 1000 := CEntry (CNum 60) (Some 3600)]> ∅))
          [] [] [] 1 [] [] [].

End Demo.

(** The vendor that [_get_or_create_vendor] answers with, and the world it
    leaves, when the database answers. *)
Definition vendor_resolved `{Collaborators} (identifier : string) (w : World)
  : vendor_row * World :=
  match vendor_matches identifier w with
  | v :: _ => (v, vendor_touched (vendor_id v) w)
  | [] => (new_vendor identifier w,
           vendor_added (new_vendor identifier w) (entropy_used identifier w))
  end.

(** The count a well-formed window counter stands for: a missing key is
    zero, and the only values [INCR] leaves are integers. *)
Definition count_reply (o : option cval) : option Z :=
  match o with
  | None => Some 0
  | Some (CNum n) => Some n
  | Some _ => None
  end.

(** Both window counters of an identifier raised to [mc + 1] and [hc + 1],
    with the TTL of their window.  A counter that the cache cannot raise
    ends the counting: it stays as it is, what was raised before it stays
    raised, and the error is logged. *)
Definition counted (identifier : string) (mc hc : Z) (w : World) : World :=
  if incrementable mc then
    if incrementable hc then
      set_cache
        (<[RateLimitMiddleware.hour_key identifier (now w) :=
             CEntry (CNum (hc + 1)) (Some (now w + 3600))]>
           (<[RateLimitMiddleware.minute_key identifier (now w) :=
                CEntry (CNum (mc + 1)) (Some (now w + 60))]> (cache w)))
        w
    else
      logged ERROR "Failed to increment rate limit counters"
        (set_cache
           (<[RateLimitMiddleware.minute_key identifier (now w) :=
                CEntry (CNum (mc + 1)) (Some (now w + 60))]> (cache w))
           w)
  else logged ERROR "Failed to increment rate limit counters" w.

(** The four headers [dispatch] adds to the response of an admitted
    request. *)
Definition with_rate_headers (ml mc hl hc : Z) (response : Response) : Response :=
  set_header "X-RateLimit-Hour-Remaining" (str_int (hl - hc - 1))
    (set_header "X-RateLimit-Hour-Limit" (str_int hl)
       (set_header "X-RateLimit-Minute-Remaining" (str_int (ml - mc - 1))
          (set_header "X-RateLimit-Minute-Limit" (str_int ml) response))).


(** The reply of the cache for the session key of a token is one on which
    the fast path of [validate_session] trips: a text that is not empty. *)
Definition cache_trips (access_token : string) (w : World) : bool :=
  truthy_opt (cache_lookup w (AuthService.vendor_session_key access_token)).

(** The session rows stored under an access token. *)
Definition session_rows (access_token : string) (w : World) : list session_row :=
  filter (fun r => String.eqb (session_token r) access_token) (vendor_sessions w).

(** The session row [id] and the cache entry of the token removed. *)
Definition session_purged (id : Z) (access_token : string) (w : World) : World :=
  set_cache (delete (AuthService.vendor_session_key access_token) (cache w))
    (set_vendor_sessions
       (filter (fun r => negb (session_id r =? id)) (vendor_sessions w)) w).

(** The cache with the entry under one key replaced by [o] ([None]: no
    entry). *)
Definition poke (k : string) (o : option centry) (w : World) : World :=
  set_cache (partial_alter (fun _ => o) k (cache w)) w.

(** A computation that neither reads nor writes the cache entry under [k]:
    replacing the entry beforehand changes neither the result nor anything
    else in the world it leaves. *)
Definition ignores (k : string) {A} (m : M A) : Prop :=
  forall o w, m (poke k o w) = (fst (m w), poke k o (snd (m w))).

(** The world after a failure was recorded that brought the count to [f]
    and set a lockout of [d] seconds. *)
Definition locked_out (identifier endpoint : string) (f d : Z) (w : World) : World :=
  logged WARNING "Account locked"
    (set_cache
       (<[BruteForceProtection.lockout_key identifier endpoint :=
            CEntry (CNum (now w + d)) (Some (now w + d))]>
          (<[BruteForceProtection.failed_attempts_key identifier endpoint :=
               CEntry (CNum f) (Some (now w + d))]> (cache w)))
       w).

(** ** Notions used for the further properties *)

(** The value read back from the digits that [digits_fuel] writes in front
    of an accumulator, starting from the value [a]. *)
Fixpoint shift_fuel (fuel : nat) (a n : Z) : Z :=
  match fuel with
  | O => 10 * a + n mod 10
  | S fuel' =>
      if n <? 10 then 10 * a + n mod 10
      else 10 * shift_fuel fuel' a (n / 10) + n mod 10
  end.

(** [s.rsplit(":", 1)]: the text before and after the last colon. *)
Fixpoint rsplit_colon (s : string) : option (string * string) :=
  match s with
  | EmptyString => None
  | String c s' =>
      match rsplit_colon s' with
      | Some (a, d) => Some (String c a, d)
      | None => if Ascii.eqb c ":"%char then Some (EmptyString, s') else None
      end
  end.

(** ** [app/services/auth_service.py]: issuing a code

    The part of [AuthService] that comes before a verification: the checks
    on the contact, the limit on codes per hour and the code itself. *)

Module AuthServiceOtp.

(** The instance attributes set by [__init__]. *)
Definition otp_rate_limit : Z := 5.
Definition login_rate_limit : Z := 10.
Definition lockout_duration : Z := 15 * 60.
Definition otp_length : Z := 6.

(** *** [_generate_otp] *)

(** [string.digits] *)
Definition string_digits : string := "0123456789".

(** [secrets.choice(string.digits)]: the character at the index
    [randbelow(len(string.digits))] *)
Definition choice_digit : M ascii :=
  i <- randbelow (Z.of_nat (String.length string_digits)) ;;
  ret (default "0"%char (String.get (Z.to_nat i) string_digits)).

(** [''.join(secrets.choice(string.digits) for _ in range(n))] *)
Fixpoint join_choices (n : nat) : M string :=
  match n with
  | O => ret EmptyString
  | S n' =>
      c <- choice_digit ;;
      s <- join_choices n' ;;
      ret (String c s)
  end.

Definition _generate_otp : M string := join_choices (Z.to_nat otp_length).

(** *** [_is_valid_email]:
    [^[a-zA-Z0-9._%+-]+@[a-zA-Z0-9.-]+\.[a-zA-Z]{2,}$]

    Each recogniser below tries, at every character, to leave the repeated
    group it is in or to stay in it, as the matcher does. *)

Definition is_alpha (c : ascii) : bool :=
  let n := nat_of_ascii c in
  ((65 <=? n)%nat && (n <=? 90)%nat) || ((97 <=? n)%nat && (n <=? 122)%nat).

Definition one_of (set : string) (c : ascii) : bool :=
  existsb (Ascii.eqb c) (list_ascii_of_string set).

(** [[a-zA-Z0-9._%+-]] *)
Definition is_local_char (c : ascii) : bool :=
  is_alpha c || AuthService.is_digit c || one_of "._%+-" c.

(** [[a-zA-Z0-9.-]] *)
Definition is_domain_char (c : ascii) : bool :=
  is_alpha c || AuthService.is_digit c || one_of ".-" c.

(** [$]: the end of the string or its final newline *)
Definition at_end (s : string) : bool :=
  match s with
  | EmptyString => true
  | String c EmptyString => Ascii.eqb c "010"%char
  | String _ (String _ _) => false
  end.

(** [[a-zA-Z]{2,}$], after [seen] letters of the group *)
Fixpoint letters_then_end (seen : nat) (s : string) : bool :=
  ((2 <=? seen)%nat && at_end s)
  || match s with
     | EmptyString => false
     | String c s' => is_alpha c && letters_then_end (S seen) s'
     end.

(** [[a-zA-Z0-9.-]+\.[a-zA-Z]{2,}$]; [started] tells whether the first
    group has taken a character *)
Fixpoint domain_then_end (started : bool) (s : string) : bool :=
  match s with
  | EmptyString => false
  | String c s' =>
      (started && Ascii.eqb c "."%char && letters_then_end 0 s')
      || (is_domain_char c && domain_then_end true s')
  end.

(** [[a-zA-Z0-9._%+-]+@] and the rest *)
Fixpoint local_then_rest (started : bool) (s : string) : bool :=
  match s with
  | EmptyString => false
  | String c s' =>
      (started && Ascii.eqb c "@"%char && domain_then_end false s')
      || (is_local_char c && local_then_rest true s')
  end.

Definition _is_valid_email (email : string) : bool := local_then_rest false email.

(** *** [_normalize_phone] *)

Definition _normalize_phone (phone : string) : string :=
  let clean_phone := AuthService.strip_separators phone in
  if String.prefix "91" clean_phone && (AuthService.py_len clean_phone =? 12)%nat
  then "+" +:+ clean_phone
  else if String.prefix "+91" clean_phone then clean_phone
  else if (AuthService.py_len clean_phone =? 10)%nat then "+91" +:+ clean_phone
  else clean_phone.

(** *** The limit on codes per hour *)

Definition rate_limit_key (limit_type identifier : string) : string :=
  "rate_limit:" +:+ limit_type +:+ ":" +:+ identifier.

Definition lockout_key (identifier : string) : string := "lockout:" +:+ identifier.

(** [self.otp_rate_limit if limit_type == "otp" else self.login_rate_limit] *)
Definition limit_of (limit_type : string) : Z :=
  if String.eqb limit_type "otp" then otp_rate_limit else login_rate_limit.

Section WithCollaborators.
Context `{Collaborators}.

(** The branch that sets a lockout.  The timestamp is the reading of the
    clock plus 900, and the entry lives for 900 seconds from the instant
    the cache receives it: in whole seconds both end at [now + 900]; in
    the cache the entry outlives its timestamp by a fraction of a second
    (see [live]). *)
Definition set_lockout (identifier : string) : M (bool * Z) :=
  now <- time_time ;;
  let lockout_until := now + lockout_duration in
  redis_setex (lockout_key identifier) (PyInt lockout_duration) (CNum lockout_until) ;;;
  ret (false, lockout_duration).

Definition _check_rate_limit (identifier limit_type : string) : M (bool * Z) :=
  try_catch
    (let cache_key := rate_limit_key limit_type identifier in
     reply <- redis_get cache_key ;;
     current_count <- int_or_zero reply ;;
     let limit := limit_of limit_type in
     if current_count >=? limit then
       lockout_time <- redis_get (lockout_key identifier) ;;
       match lockout_time with
       | Some v =>
           if truthy v then
             lockout_until <- py_int v ;;
             now <- time_time ;;
             let remaining_time := lockout_until - now in
             if remaining_time >? 0 then ret (false, remaining_time)
             else
               redis_delete cache_key ;;;
               redis_delete (lockout_key identifier) ;;;
               ret (true, 0)
           else set_lockout identifier
       | None => set_lockout identifier
       end
     else ret (true, 0))
    (fun e =>
       logger ERROR "Rate limit check failed" ;;;
       ret (true, 0)).

Definition _increment_rate_limit (identifier limit_type : string) : M unit :=
  try_catch
    (let cache_key := rate_limit_key limit_type identifier in
     reply <- redis_get cache_key ;;
     current_count <- int_or_zero reply ;;
     redis_setex cache_key (PyInt 3600) (CNum (current_count + 1)))
    (fun e => logger ERROR "Failed to increment rate limit").

End WithCollaborators.
End AuthServiceOtp.

(** The six draws of [_generate_otp] as decimal digits. *)
Definition otp_of (draws : list Z) : string :=
  string_of_list_ascii (map (fun r => digit_char (r mod 10)) draws).

(** The first [n] coming outputs of the random source, an exhausted source
    giving 0. *)
Fixpoint draws (n : nat) (source : list Z) : list Z :=
  match n with
  | O => []
  | S n' => hd 0 source :: draws n' (tail source)
  end.

(** [n] times the tail of a list. *)
Fixpoint tails (n : nat) (source : list Z) : list Z :=
  match n with
  | O => source
  | S n' => tails n' (tail source)
  end.

(** The lockout entry of the limit on codes written by a check at [w]. *)
Definition refused (identifier : string) (w : World) : World :=
  set_cache
    (<[AuthServiceOtp.lockout_key identifier :=
         CEntry (CNum (now w + 900)) (Some (now w + 900))]> (cache w))
    w.

(** The counter of the limit on codes set to [n] for an hour from [w]. *)
Definition tallied (identifier limit_type : string) (n : Z) (w : World) : World :=
  set_cache
    (<[AuthServiceOtp.rate_limit_key limit_type identifier :=
         CEntry (CNum n) (Some (now w + 3600))]> (cache w))
    w.

(** The world after [_increment_rate_limit] ran once for every element of
    [gaps], each run followed by that many seconds. *)
Fixpoint increments `{Collaborators} (identifier limit_type : string) (gaps : list Z)
    (w : World) : World :=
  match gaps with
  | [] => w
  | d :: gaps' =>
      increments identifier limit_type gaps'
        (advance d (snd (AuthServiceOtp._increment_rate_limit identifier limit_type w)))
  end.

(** Every character of a string passes a test. *)
Definition string_forall (p : ascii -> bool) (s : string) : bool :=
  forallb p (list_ascii_of_string s).

(** A text without a newline. *)
Definition single_line (s : string) : bool :=
  string_forall (fun c => negb (Ascii.eqb c "010"%char)) s.

(** A byte of a decimal digit: an ASCII digit, or a byte of a character
    beyond ASCII. *)
Definition is_digit_byte (c : ascii) : bool :=
  AuthService.is_digit c || (128 <=? nat_of_ascii c)%nat.

(** The bytes a phone number is written with: those of digits, [+], space,
    dash and newline. *)
Definition is_phone_char (c : ascii) : bool :=
  is_digit_byte c || AuthServiceOtp.one_of "+ -" c || Ascii.eqb c "010"%char.

(** The characters that [strip_separators] takes away. *)
Definition is_separator (c : ascii) : bool :=
  (Ascii.eqb c " " || Ascii.eqb c "-")%char.

(** ** Exceptions with a text of their own

    The functions below raise exceptions whose texts are made on the spot,
    and the route handlers put [str(e)] into the answer.  Their
    computations carry either an exception of the first part or one of
    these. *)

Inductive failure :=
| Inner (e : exn)                          (* an exception of the first part *)
| ExceptionOf (text : string)              (* [Exception(text)] *)
| ValueErrorOf (text : string)             (* [ValueError(text)] *)
| ZeroDivisionError
| AttributeErrorOf (text : string)         (* [AttributeError(text)] *)
| HTTPError (status : Z) (detail : string).  (* [HTTPException(status_code=.., detail=..)] *)

(** [str(e)] *)
Definition str_failure (e : failure) : string :=
  match e with
  | Inner e => render (str_exn e)
  | ExceptionOf text | ValueErrorOf text | AttributeErrorOf text => text
  | ZeroDivisionError => "integer division or modulo by zero"
  | HTTPError _ detail => detail
  end.

(** [isinstance(e, ValueError)] *)
Definition is_value_error (e : failure) : bool :=
  match e with
  | ValueErrorOf _ | Inner ValueError => true
  | _ => false
  end.

(** [isinstance(e, HTTPException)] *)
Definition is_http_exception (e : failure) : bool :=
  match e with
  | HTTPError _ _ | Inner (HTTPException _ _ _) => true
  | _ => false
  end.

(** [isinstance(e, JWTError)] *)
Definition is_jwt_error (e : failure) : bool :=
  match e with
  | Inner JWTError => true
  | _ => false
  end.

Inductive reply (A : Type) :=
| Returned (a : A)
| Raised (e : failure).
Arguments Returned {A} a.
Arguments Raised {A} e.

Definition Py (A : Type) : Type := World -> reply A * World.

Definition py_return {A} (a : A) : Py A := fun w => (Returned a, w).

Definition py_raise {A} (e : failure) : Py A := fun w => (Raised e, w).

Definition py_bind {A B} (m : Py A) (k : A -> Py B) : Py B :=
  fun w =>
    match m w with
    | (Returned a, w') => k a w'
    | (Raised e, w') => (Raised e, w')
    end.

(** [try: m  except Exception as e: h e] *)
Definition py_try {A} (m : Py A) (h : failure -> Py A) : Py A :=
  fun w =>
    match m w with
    | (Returned a, w') => (Returned a, w')
    | (Raised e, w') => h e w'
    end.

(** A computation of the first part. *)
Definition lift {A} (m : M A) : Py A :=
  fun w =>
    match m w with
    | (Ok a, w') => (Returned a, w')
    | (Raise e, w') => (Raised (Inner e), w')
    end.

Notation "x <~ m ;; k" := (py_bind m (fun x => k))
  (at level 100, m at next level, right associativity).
Notation "m ;;~ k" := (py_bind m (fun _ => k))
  (at level 100, right associativity).

(** The next output of the system random source. *)
Definition urandom : M Z :=
  fun w => (Ok (hd 0 (entropy w)), set_entropy (tail (entropy w)) w).

(** What the issuing code uses and does not define. *)
Class Issuing := {
  (** [secrets.token_urlsafe(32)], written from one output of the random
      source *)
  token_urlsafe : Z -> string;
  (** [pwd_context.hash(otp)] with a salt from the random source; [None]
      when passlib raises *)
  pwd_hash : Z -> string -> option string
}.

(** ** [app/services/auth_service.py]: sending a code, refreshing a token,
    logging out *)

(** What [send_otp] returns. *)
Record OtpSent := mkOtpSent {
  sent_success : bool;
  sent_message : string;
  sent_token : string;
  sent_expires_in : Z
}.

(** What [refresh_token] returns. *)
Record Refreshed := mkRefreshed {
  new_access_token : string;
  token_type : string;
  new_expires_in : Z
}.

Module AuthServiceApi.

(** [c.lower()] for a character of the ASCII range *)
Definition lower_char (c : ascii) : ascii :=
  let n := nat_of_ascii c in
  if ((65 <=? n) && (n <=? 90))%nat then ascii_of_nat (n + 32) else c.

(** [s.lower()] for a text of ASCII characters, which is what [send_otp]
    applies it to: an address that passed [_is_valid_email]. *)
Fixpoint lower (s : string) : string :=
  match s with
  | EmptyString => EmptyString
  | String c s' => String (lower_char c) (lower s')
  end.

(** [table("otp_verifications").insert({..})]: the database adds the key
    and answers with the stored row. *)
Definition insert_otp (data : Z -> otp_row) : M (list otp_row) :=
  round_trip ;;;
  fun w =>
    let row := data (next_id w) in
    (Ok [row],
     set_next_id (next_id w + 1)
       (set_otp_verifications (otp_verifications w ++ [row]) w)).

(** [table("vendor_sessions").select("*").eq("refresh_token", token)] *)
Definition select_session_by_refresh (token : string) : M (list session_row) :=
  round_trip ;;;
  fun w => (Ok (filter (fun r => String.eqb (session_refresh_token r) token)
                       (vendor_sessions w)), w).

Definition with_session_token (token : string) (t : Z) (r : session_row) : session_row :=
  SessionRow (session_id r) (session_vendor_id r) token
             (session_refresh_token r) (session_expires_at r) (Some t).

(** [table("vendor_sessions").update({"session_token": .., "last_used": ..})
    .eq("id", id)] *)
Definition retoken_session (id : Z) (token : string) (t : Z) : M unit :=
  round_trip ;;;
  fun w => (Ok tt,
            set_vendor_sessions
              (map (fun r => if session_id r =? id then with_session_token token t r
                             else r)
                   (vendor_sessions w)) w).

Section WithCollaborators.
Context `{Collaborators} `{Issuing}.

Definition _store_otp (identifier otp : string) : Py string :=
  py_try
    (r <~ lift urandom ;;
     let token := token_urlsafe r in
     salt <~ lift urandom ;;
     match pwd_hash salt otp with
     | None => py_raise (Inner HashError)
     | Some otp_hash =>
         now <~ lift time_time ;;
         let expires_at := now + AuthService.otp_expiry in
         result <~ lift (insert_otp
                           (fun id => OtpRow id identifier otp_hash 0 false expires_at)) ;;
         match result with
         | [] => py_raise (ExceptionOf "Failed to store OTP in database")
         | row :: _ =>
             lift (redis_setex (AuthService.otp_token_key token)
                               (PyInt AuthService.otp_expiry) (CNum (otp_id row))) ;;~
             py_return token
         end
     end)
    (fun e =>
       lift (logger ERROR "Failed to store OTP") ;;~
       py_raise (ExceptionOf "Failed to generate OTP")).

(** The record is the text that is logged, code included. *)
Definition _send_otp_notification (identifier otp : string) : Py bool :=
  py_try
    ((if AuthService._is_valid_phone identifier
      then lift (logger INFO ("SMS OTP for " +:+ identifier +:+ ": " +:+ otp))
      else lift (logger INFO ("Email OTP for " +:+ identifier +:+ ": " +:+ otp))) ;;~
     py_return true)
    (fun e =>
       lift (logger ERROR "Failed to send OTP notification") ;;~
       py_return false).

Definition send_otp (phone_or_email : string) : Py OtpSent :=
  py_try
    (contact <~
       (if AuthService._is_valid_phone phone_or_email
        then py_return (AuthServiceOtp._normalize_phone phone_or_email, "phone")
        else if AuthServiceOtp._is_valid_email phone_or_email
        then py_return (lower phone_or_email, "email")
        else py_raise (ValueErrorOf "Invalid phone number or email format")) ;;
     let '(identifier, contact_type) := contact in
     checked <~ lift (AuthServiceOtp._check_rate_limit identifier "otp") ;;
     let '(allowed, remaining_time) := checked in
     if negb allowed then
       py_raise (ExceptionOf ("Rate limit exceeded. Try again in "
                              +:+ str_int (remaining_time / 60) +:+ " minutes"))
     else
       otp <~ lift AuthServiceOtp._generate_otp ;;
       token <~ _store_otp identifier otp ;;
       sent <~ _send_otp_notification identifier otp ;;
       if negb sent then py_raise (ExceptionOf "Failed to send OTP")
       else
         lift (AuthServiceOtp._increment_rate_limit identifier "otp") ;;~
         py_return (mkOtpSent true ("OTP sent to " +:+ contact_type) token
                              AuthService.otp_expiry))
    (fun e =>
       if is_value_error e then
         lift (logger WARNING "Invalid input for OTP request") ;;~
         py_raise (ExceptionOf (str_failure e))
       else
         lift (logger ERROR "Failed to send OTP") ;;~
         py_raise (ExceptionOf "Failed to send OTP. Please try again.")).

Definition refresh_token (refresh_token : string) : Py Refreshed :=
  py_try
    (now <~ lift time_time ;;
     match jwt_decode refresh_token now with
     | None => py_raise (Inner JWTError)
     | Some (type, sub) =>
         if negb (AuthService.option_string_is "refresh" type)
         then py_raise (ExceptionOf "Invalid token type")
         else
           match sub with
           | None => py_raise (ExceptionOf "Invalid token payload")
           | Some vendor_id =>
               result <~ lift (select_session_by_refresh refresh_token) ;;
               match result with
               | [] => py_raise (ExceptionOf "Session not found")
               | session :: _ =>
                   let expires_at := session_expires_at session in
                   now <~ lift time_time ;;
                   if now >? expires_at then
                     lift (AuthService.delete_session_by_id (session_id session)) ;;~
                     py_raise (ExceptionOf "Session expired")
                   else
                     tokens <~ lift (AuthService._generate_jwt_tokens vendor_id) ;;
                     let access_token := fst tokens in
                     now <~ lift time_time ;;
                     lift (retoken_session (session_id session) access_token now) ;;~
                     lift (redis_setex_dict
                             (AuthService.vendor_session_key access_token)
                             (PyInt (24 * 3600))
                             (mkSessionInfo (Some vendor_id) expires_at)) ;;~
                     py_return (mkRefreshed access_token "bearer" 3600)
               end
           end
     end)
    (fun e =>
       if is_jwt_error e then
         lift (logger WARNING "JWT error during token refresh") ;;~
         py_raise (ExceptionOf "Invalid refresh token")
       else
         lift (logger ERROR "Token refresh failed") ;;~
         py_raise (ExceptionOf "Failed to refresh token")).

Definition logout (access_token : string) : Py string :=
  py_try
    (lift (AuthService.delete_session_by_token access_token) ;;~
     lift (redis_delete (AuthService.vendor_session_key access_token)) ;;~
     py_return "Logged out successfully")
    (fun e =>
       lift (logger ERROR "Logout failed") ;;~
       py_raise (ExceptionOf "Failed to logout")).

End WithCollaborators.
End AuthServiceApi.

(** ** [app/api/v1/endpoints/auth.py]: the other routes *)

Module Routes.
Section WithCollaborators.
Context `{Collaborators} `{Issuing}.

(** The dependency that authenticates a request by its bearer token. *)
Definition get_current_vendor (credentials : string) : Py session_info :=
  py_try
    (session <~ lift (AuthService.validate_session credentials) ;;
     match session with
     | None => py_raise (HTTPError 401 "Invalid or expired token")
     | Some session => py_return session
     end)
    (fun e =>
       lift (logger ERROR "Authentication failed") ;;~
       py_raise (HTTPError 401 "Authentication failed")).

Definition login (phone_or_email : string) : Py OtpSent :=
  py_try
    (result <~ AuthServiceApi.send_otp phone_or_email ;;
     py_return (mkOtpSent true (sent_message result) (sent_token result)
                          (sent_expires_in result)))
    (fun e =>
       lift (logger WARNING "Login attempt failed") ;;~
       py_raise (HTTPError 400 (str_failure e))).

Definition refresh_token (refresh_token : string) : Py Refreshed :=
  py_try
    (AuthServiceApi.refresh_token refresh_token)
    (fun e =>
       lift (logger WARNING "Token refresh failed") ;;~
       py_raise (HTTPError 401 (str_failure e))).

(** [credentials] is the bearer token; [get_current_vendor] runs first. *)
Definition logout (credentials : string) : Py string :=
  current_vendor <~ get_current_vendor credentials ;;
  py_try
    (AuthServiceApi.logout credentials)
    (fun e =>
       lift (logger ERROR "Logout failed for vendor") ;;~
       py_raise (HTTPError 500 (str_failure e))).

End WithCollaborators.
End Routes.

(** ** [app/middleware/rate_limiting.py]: the decorator [rate_limit] *)

Module RateLimitDecorator.

Definition endpoint_key (identifier : string) (window_key : Z) : string :=
  "rate_limit:endpoint:" +:+ identifier +:+ ":" +:+ str_int window_key.

(** What the wrapper takes for the request of a call: the keyword argument
    [request] when it is truthy, whatever it is, else the first [Request]
    among the positional arguments. *)
Inductive request_argument :=
| NoRequest                         (* neither of them *)
| ARequest (request : Request)      (* a [Request] *)
| AnotherObject (class_name : string).
    (* a keyword argument [request] of another class, which has no attribute
       [client]: the [TTSRequest] of the text-to-speech routes *)

(** [f"{client_ip}:{endpoint}"] for a [Request], when there is one;
    [func_name] is the name of the wrapped function. *)
Definition caller_text (request : option Request) (func_name : string) : string :=
  match request with
  | Some request => default "unknown" (client_host request) +:+ ":" +:+ url_path request
  | None => "unknown" +:+ ":" +:+ func_name
  end.

(** The identifier of a call.  [request.client] is read before the [try],
    whatever [request] is. *)
Definition caller (request : request_argument) (func_name : string) : Py string :=
  match request with
  | ARequest request => py_return (caller_text (Some request) func_name)
  | NoRequest => py_return (caller_text None func_name)
  | AnotherObject class_name =>
      py_raise (AttributeErrorOf
                  ("'" +:+ class_name +:+ "' object has no attribute 'client'"))
  end.

(** [wrapper], the decorated function, for the wrapped function [func] *)
Definition rate_limit {A} (calls period : Z) (func_name : string) (func : Py A)
    (request : request_argument) : Py A :=
  identifier <~ caller request func_name ;;
  py_try
    (lift get_redis ;;~
     current_time <~ lift time_time ;;
     if period =? 0 then py_raise ZeroDivisionError
     else
       let window_key := current_time / period in
       let cache_key := endpoint_key identifier window_key in
       reply <~ lift (redis_get cache_key) ;;
       current_count <~ lift (int_or_zero reply) ;;
       if current_count >=? calls then
         let reset_time := (window_key + 1) * period - current_time in
         py_raise (Inner (HTTPException 429 (MRateLimited reset_time)
                            [("X-RateLimit-Limit", str_int calls);
                             ("X-RateLimit-Remaining", "0");
                             ("X-RateLimit-Reset", str_int ((window_key + 1) * period));
                             ("Retry-After", str_int reset_time)]))
       else
         lift (redis_incr cache_key) ;;~
         lift (redis_expire cache_key period) ;;~
         py_return tt)
    (fun e =>
       if is_http_exception e then py_raise e
       else lift (logger ERROR "Rate limit check failed") ;;~ py_return tt) ;;~
  func.

End RateLimitDecorator.

(** The argument that the decorator finds in a call with a [Request], or
    in one without. *)
Definition as_argument (request : option Request) : RateLimitDecorator.request_argument :=
  match request with
  | Some request => RateLimitDecorator.ARequest request
  | None => RateLimitDecorator.NoRequest
  end.

(** The identifier and the kind of contact [send_otp] makes of its
    argument, when it accepts it. *)
Definition contact_of `{Collaborators} (phone_or_email : string)
  : option (string * string) :=
  if AuthService._is_valid_phone phone_or_email
  then Some (AuthServiceOtp._normalize_phone phone_or_email, "phone")
  else if AuthServiceOtp._is_valid_email phone_or_email
  then Some (AuthServiceApi.lower phone_or_email, "email")
  else None.

(** The world after [_generate_otp] and [_store_otp]: eight outputs of the
    random source are used (six for the code, one for the token, one for
    the salt), the record is stored under the next key and the token is
    mapped to it for five minutes. *)
Definition code_issued `{Issuing} (identifier hash : string) (w : World) : World :=
  set_cache
    (<[AuthService.otp_token_key (token_urlsafe (hd 0 (tails 6 (entropy w)))) :=
         CEntry (CNum (next_id w)) (Some (now w + 300))]> (cache w))
    (set_next_id (next_id w + 1)
       (set_otp_verifications
          (otp_verifications w
           ++ [OtpRow (next_id w) identifier hash 0 false (now w + 300)])
          (set_entropy (tails 8 (entropy w)) w))).

(** The record that [_send_otp_notification] writes. *)
Definition notification `{Collaborators} (identifier otp : string)
  : log_level * string :=
  (INFO,
   (if AuthService._is_valid_phone identifier then "SMS OTP for " else "Email OTP for ")
   +:+ identifier +:+ ": " +:+ otp).

(** The world after a successful [send_otp] that found the count [n]. *)
Definition code_sent `{Collaborators} `{Issuing} (identifier otp hash : string) (n : Z)
    (w : World) : World :=
  tallied identifier "otp" (n + 1)
    (set_log (notification identifier otp :: log w) (code_issued identifier hash w)).


(** The session rows of an access token and its cache entry removed by
    [logout]. *)
Definition logged_out (access : string) (w : World) : World :=
  set_cache (delete (AuthService.vendor_session_key access) (cache w))
    (set_vendor_sessions
       (filter (fun r => negb (String.eqb (session_token r) access))
               (vendor_sessions w)) w).


(** A computation of the first part that raises nothing but the error of
    a store. *)
Definition store_only {A} (m : M A) : Prop :=
  forall w e w', m w = (Raise e, w') -> e = StoreError.

(** A computation of the second part that raises no [JWTError] and
    returns nothing but values with the property [Q]. *)
Definition answers {A} (Q : A -> Prop) (m : Py A) : Prop :=
  forall w r w',
    m w = (r, w') ->
    match r with
    | Returned a => Q a
    | Raised e => is_jwt_error e = false
    end.

(** The headers of the 429 that the decorator raises. *)
Definition limit_headers (calls reset reset_time : Z) : list (string * string) :=
  [("X-RateLimit-Limit", str_int calls);
   ("X-RateLimit-Remaining", "0");
   ("X-RateLimit-Reset", str_int reset);
   ("Retry-After", str_int reset_time)].



(** Further concrete worlds. *)

Module Cases.

(** A lockout entry with the timestamp 900 that lives until 2000, seen at
    time 1000. *)
Definition stale_lockout : World :=
  mkWorld 1000 true
          (<[BruteForceProtection.lockout_key Demo.client Demo.verify_path :=
               CEntry (CNum 900) (Some 2000)]> ∅)
          [] [] [] 1 [] [] [].

(** The demo world when the cache and the database answer three times and
    the fourth round trip fails. *)
Definition database_goes_down : World :=
  set_faults [false; false; false; true] Demo.world.

(** Five codes counted for an address at time 1000, the counter living
    until 4000. *)
Definition five_codes_sent : World :=
  mkWorld 1000 true
          (<[AuthServiceOtp.rate_limit_key "otp" "asha@example.com" :=
               CEntry (CNum 5) (Some 4000)]> ∅)
          [] [] [] 1 [] [] [].

(** The minute counter of the demo client at the end of the 64-bit range,
    at time 1000. *)
Definition minute_counter_at_the_end : World :=
  mkWorld 1000 true
          (<[RateLimitMiddleware.minute_key Demo.client 1000 :=
               CEntry (CNum int64_max) (Some 1020)]> ∅)
          [] [] [] 1 [] [] [].

(** The demo world before [init_redis] was called. *)
Definition no_cache_client : World :=
  mkWorld 1000 false ∅ [] [] [] 1 [] [] [].

(** Five codes counted for an address and a lockout set at time 100 for
    it, seen at time 1000, the second of its timestamp, with the entry of
    the lockout still in the cache. *)
Definition lockout_at_its_end : World :=
  mkWorld 1000 true
          (<[AuthServiceOtp.lockout_key "asha@example.com" :=
               CEntry (CNum 1000) (Some 1001)]>
             (<[AuthServiceOtp.rate_limit_key "otp" "asha@example.com" :=
                  CEntry (CNum 5) (Some 3000)]> ∅))
          [] [] [] 1 [] [] [].

(** Stand-ins for the token and the hash of a code. *)
Definition issuing : Issuing := {|
  token_urlsafe := fun r => "tok-" +:+ str_int r;
  pwd_hash := fun _ otp => Some ("hash:" +:+ otp)
|}.

(** Empty stores at time 1000, and a random source that gives the code
    482913, the token tok-777 and the salt 55. *)
Definition fresh_start : World :=
  mkWorld 1000 true ∅ [] [] [] 1 [] [4; 8; 2; 9; 1; 3; 777; 55; 5123456789] [].

End Cases.

(** ** Stepping through a computation *)

Section Stepping.
Context `{Collaborators}.

Lemma bind_ok {A B} (m : M A) (k : A -> M B) w a w1 :
  m w = (Ok a, w1) -> bind m k w = k a w1.
Proof. intros E. unfold bind. now rewrite E. Qed.

Lemma bind_raise {A B} (m : M A) (k : A -> M B) w e w1 :
  m w = (Raise e, w1) -> bind m k w = (Raise e, w1).
Proof. intros E. unfold bind. now rewrite E. Qed.

Lemma try_ok {A} (m : M A) h w a w1 :
  m w = (Ok a, w1) -> try_catch m h w = (Ok a, w1).
Proof. intros E. unfold try_catch. now rewrite E. Qed.

Lemma try_raise {A} (m : M A) h w e w1 :
  m w = (Raise e, w1) -> try_catch m h w = h e w1.
Proof. intros E. unfold try_catch. now rewrite E. Qed.

(** With an empty fault schedule every round trip answers. *)
Lemma round_trip_quiet w : faults w = [] -> round_trip w = (Ok tt, w).
Proof. intros E. unfold round_trip. now rewrite E. Qed.

Lemma get_redis_ready w : redis_ready w = true -> get_redis w = (Ok tt, w).
Proof. intros E. unfold get_redis. now rewrite E. Qed.

Lemma redis_get_quiet k w :
  faults w = [] -> redis_get k w = (Ok (cache_lookup w k), w).
Proof. intros E. unfold redis_get. now rewrite (bind_ok _ _ _ _ _ (round_trip_quiet w E)). Qed.

Lemma redis_setex_quiet k t v w :
  faults w = [] ->
  redis_setex k (PyInt t) v w
  = (Ok tt, set_cache (<[k := CEntry v (Some (now w + t))]> (cache w)) w).
Proof. intros E. unfold redis_setex. now rewrite (bind_ok _ _ _ _ _ (round_trip_quiet w E)). Qed.

Lemma redis_delete_quiet k w :
  faults w = [] -> redis_delete k w = (Ok tt, set_cache (delete k (cache w)) w).
Proof. intros E. unfold redis_delete. now rewrite (bind_ok _ _ _ _ _ (round_trip_quiet w E)). Qed.

(** An entry whose TTL has run out reads like no entry. *)
Lemma cache_lookup_stale w k e :
  cache w !! k = Some e -> live (now w) e = false -> cache_lookup w k = None.
Proof. intros E L. unfold cache_lookup, cache_entry. now rewrite E, L. Qed.

Lemma cache_lookup_live w k v x :
  cache w !! k = Some (CEntry v (Some x)) -> now w < x -> cache_lookup w k = Some v.
Proof.
  intros E L. unfold cache_lookup, cache_entry, live. rewrite E. cbn.
  destruct (Z.ltb_spec (now w) x); [reflexivity | lia].
Qed.

End Stepping.

(** ** The brute-force guard: lockout durations *)

Section LockoutSchedule.
Context `{Collaborators}.
Import BruteForceProtection.

(** From the threshold on the duration is an integer number of seconds. *)
Lemma duration_for_threshold f :
  5 <= f -> duration_for f = PyInt (Z.min (900 * 2 ^ (f - 5)) 3600).
Proof.
  intros Hf. unfold duration_for, progressive_lockout, py_pow2,
    max_failed_attempts, lockout_duration.
  destruct (Z.leb_spec 0 (f - 5)) as [_|]; [|lia].
  cbn [py_mul_int py_min_int].
  change (15 * 60) with 900.
  destruct (Z.ltb_spec 3600 (900 * 2 ^ (f - 5))) as [Hlt|Hge];
    f_equal; lia.
Qed.





End LockoutSchedule.

(** ** OTP verification *)

Ltac quiet :=
  cbn [faults set_cache set_log set_otp_verifications set_vendors
       set_vendor_sessions set_next_id set_entropy advance logged otp_updated];
  assumption.

Ltac run_with tac := erewrite bind_ok by tac; cbn beta iota.
Ltac run_pure := run_with ltac:(reflexivity).

Section VerifyOtp.
Context `{Collaborators}.
Import AuthService.

Lemma select_otp_quiet key w :
  faults w = [] -> select_otp key w = (Ok (otp_rows key w), w).
Proof. intros E. unfold select_otp. now rewrite (bind_ok _ _ _ _ _ (round_trip_quiet w E)). Qed.

Lemma update_otp_quiet key f w :
  faults w = [] -> update_otp key f w = (Ok tt, otp_updated key f w).
Proof. intros E. unfold update_otp. now rewrite (bind_ok _ _ _ _ _ (round_trip_quiet w E)). Qed.

(** No live mapping for the token: [TokenInvalid]. *)
Lemma verify_otp_no_mapping token otp w :
  faults w = [] ->
  cache_lookup w (otp_token_key token) = None ->
  verify_otp token otp w
  = (Raise TokenInvalid, logged ERROR "OTP verification failed" w).
Proof.
  intros Hq Hc. unfold verify_otp.
  eapply eq_trans.
  - eapply try_raise.
    run_with ltac:(apply redis_get_quiet; quiet). rewrite Hc. reflexivity.
  - reflexivity.
Qed.

(** The checks on the record, in the order of the code. *)
Lemma verify_otp_rejects token otp w key r rest :
  faults w = [] ->
  cache_lookup w (otp_token_key token) = Some key ->
  truthy key = true ->
  otp_rows key w = r :: rest ->
  ((now w >? otp_expires_at r) = true ->
     verify_otp token otp w
     = (Raise Expired, logged ERROR "OTP verification failed" w))
  /\ ((now w >? otp_expires_at r) = false -> otp_verified r = true ->
     verify_otp token otp w
     = (Raise AlreadyUsed, logged ERROR "OTP verification failed" w))
  /\ ((now w >? otp_expires_at r) = false -> otp_verified r = false ->
      (otp_attempts r >=? max_otp_attempts) = true ->
     verify_otp token otp w
     = (Raise AttemptsExhausted, logged ERROR "OTP verification failed" w))
  /\ ((now w >? otp_expires_at r) = false -> otp_verified r = false ->
      (otp_attempts r >=? max_otp_attempts) = false ->
      pwd_verify otp (otp_code r) = Some false ->
     verify_otp token otp w
     = (Raise (InvalidCode (max_otp_attempts - (otp_attempts r + 1))),
        logged ERROR "OTP verification failed"
          (otp_updated key (with_attempts (otp_attempts r + 1)) w))).
Proof.
  intros Hq Hc Ht Hr.
  repeat split; intros; unfold verify_otp;
    (eapply eq_trans;
     [ eapply try_raise;
       run_with ltac:(apply redis_get_quiet; quiet); rewrite Hc, Ht; cbn [negb];
       run_with ltac:(apply select_otp_quiet; quiet); rewrite Hr;
       run_pure;
       repeat match goal with
              | E : _ = _ |- _ => rewrite E
              end;
       try (run_with ltac:(apply update_otp_quiet; quiet));
       reflexivity
     | reflexivity ]).
Qed.

Lemma otp_id_matches_update key f r :
  (forall r, otp_id (f r) = otp_id r) ->
  otp_id_matches key (f r) = otp_id_matches key r.
Proof. intros Hf. unfold otp_id_matches. now rewrite Hf. Qed.

(** The rows a key selects after an update are the updated rows. *)
Lemma otp_rows_updated key f w :
  (forall r, otp_id (f r) = otp_id r) ->
  otp_rows key (otp_updated key f w) = map f (otp_rows key w).
Proof.
  intros Hf. unfold otp_rows, otp_updated.
  cbn [otp_verifications set_otp_verifications].
  induction (otp_verifications w) as [|a l IH]; [reflexivity|].
  cbn [map]. rewrite !filter_cons.
  destruct (otp_id_matches key a) eqn:E.
  - rewrite (otp_id_matches_update key f a Hf), E. cbn. now rewrite IH.
  - rewrite E. cbn. exact IH.
Qed.

End VerifyOtp.

Section VerifyOtpSuccess.
Context `{Collaborators}.
Import AuthService.

Lemma select_vendor_quiet identifier w :
  faults w = [] ->
  (if _is_valid_phone identifier
   then select_vendor_by_phone identifier
   else select_vendor_by_email identifier) w
  = (Ok (vendor_matches identifier w), w).
Proof.
  intros E. unfold vendor_matches, select_vendor_by_phone, select_vendor_by_email.
  destruct (_is_valid_phone identifier);
    now rewrite (bind_ok _ _ _ _ _ (round_trip_quiet w E)).
Qed.

Lemma touch_vendor_quiet id w :
  faults w = [] -> touch_vendor id (now w) w = (Ok tt, vendor_touched id w).
Proof. intros E. unfold touch_vendor. now rewrite (bind_ok _ _ _ _ _ (round_trip_quiet w E)). Qed.

Lemma insert_vendor_quiet data w :
  faults w = [] ->
  insert_vendor data w = (Ok [data (next_id w)], vendor_added (data (next_id w)) w).
Proof. intros E. unfold insert_vendor. now rewrite (bind_ok _ _ _ _ _ (round_trip_quiet w E)). Qed.

Lemma insert_session_quiet data w :
  faults w = [] ->
  insert_session data w
  = (Ok [data (next_id w)],
     set_next_id (next_id w + 1)
       (set_vendor_sessions (vendor_sessions w ++ [data (next_id w)]) w)).
Proof. intros E. unfold insert_session. now rewrite (bind_ok _ _ _ _ _ (round_trip_quiet w E)). Qed.

(** An existing vendor is returned as selected and its [last_active] is
    refreshed. *)
Lemma get_vendor_existing identifier w v rest :
  faults w = [] ->
  vendor_matches identifier w = v :: rest ->
  _get_or_create_vendor identifier w = (Ok v, vendor_touched (vendor_id v) w).
Proof.
  intros Hq Hm. unfold _get_or_create_vendor. apply try_ok.
  run_with ltac:(apply select_vendor_quiet; quiet). rewrite Hm.
  run_pure.
  run_with ltac:(apply touch_vendor_quiet; quiet).
  reflexivity.
Qed.

(** Without one, a vendor shell is inserted. *)
Lemma get_vendor_created identifier w :
  faults w = [] ->
  vendor_matches identifier w = [] ->
  _get_or_create_vendor identifier w
  = (Ok (new_vendor identifier w),
     vendor_added (new_vendor identifier w) (entropy_used identifier w)).
Proof.
  intros Hq Hm. unfold _get_or_create_vendor. apply try_ok.
  run_with ltac:(apply select_vendor_quiet; quiet). rewrite Hm.
  run_pure.
  unfold new_vendor, entropy_used, placeholder_number.
  destruct (_is_valid_phone identifier).
  - run_pure. run_with ltac:(apply insert_vendor_quiet; quiet). reflexivity.
  - run_pure.
    run_with ltac:(apply insert_vendor_quiet; quiet).
    reflexivity.
Qed.

(** The session row is stored, and then the cache client refuses the
    dictionary: the function logs and raises. *)
Lemma create_vendor_session_fails vid access refresh w :
  faults w = [] ->
  _create_vendor_session vid access refresh w
  = (Raise (Exception MFailedSession),
     logged ERROR "Failed to create vendor session"
       (session_stored vid access refresh w)).
Proof.
  intros Hq. unfold _create_vendor_session.
  eapply eq_trans.
  - eapply try_raise. run_pure.
    run_with ltac:(apply insert_session_quiet; quiet). reflexivity.
  - reflexivity.
Qed.

End VerifyOtpSuccess.

Section VerifyOtpAccepts.
Context `{Collaborators}.
Import AuthService.

(** The world after a verification that accepted the code and resolved
    the vendor in [w2]: the session row is stored, the call fails on the
    cache entry of the session, and the token mapping stays. *)
Lemma verify_otp_accepts token otp w key r rest vendor w2 :
  faults w = [] ->
  cache_lookup w (otp_token_key token) = Some key ->
  truthy key = true ->
  otp_rows key w = r :: rest ->
  (now w >? otp_expires_at r) = false ->
  otp_verified r = false ->
  (otp_attempts r >=? max_otp_attempts) = false ->
  pwd_verify otp (otp_code r) = Some true ->
  _get_or_create_vendor (otp_phone_or_email r)
    (otp_updated key (with_verified (otp_attempts r + 1)) w) = (Ok vendor, w2) ->
  faults w2 = [] ->
  let access := jwt_encode (vendor_id vendor) "access" (now w2) (now w2 + 3600) in
  let refresh := jwt_encode (vendor_id vendor) "refresh" (now w2) (now w2 + 30 * 86400) in
  verify_otp token otp w
  = (Raise (Exception MFailedSession),
     logged ERROR "OTP verification failed"
       (logged ERROR "Failed to create vendor session"
          (session_stored (vendor_id vendor) access refresh w2))).
Proof.
  intros Hq Hc Ht Hr He Hv Ha Hp Hg Hq2 access refresh.
  unfold verify_otp. eapply eq_trans.
  - eapply try_raise.
    run_with ltac:(apply redis_get_quiet; quiet). rewrite Hc, Ht. cbn [negb].
    run_with ltac:(apply select_otp_quiet; quiet). rewrite Hr.
    run_pure. rewrite He, Hv, Ha, Hp.
    run_with ltac:(apply update_otp_quiet; quiet).
    run_with ltac:(exact Hg).
    run_pure.
    erewrite bind_raise by (apply create_vendor_session_fails; quiet).
    reflexivity.
  - reflexivity.
Qed.

End VerifyOtpAccepts.

(** ** Reading a result backwards *)

Section Inversion.
Context `{Collaborators}.

Lemma bind_inv_ok {A B} (m : M A) (k : A -> M B) w b w' :
  bind m k w = (Ok b, w') ->
  exists a w1, m w = (Ok a, w1) /\ k a w1 = (Ok b, w').
Proof.
  unfold bind. destruct (m w) as [[a|e] w1]; intros E.
  - eauto.
  - discriminate.
Qed.

(** A handler that re-raises never turns a failure into a success. *)
Lemma try_inv_ok {A} (m : M A) h w (a : A) w' :
  (forall e w1, exists e' w2, h e w1 = (Raise e', w2)) ->
  try_catch m h w = (Ok a, w') -> m w = (Ok a, w').
Proof.
  intros Hh. unfold try_catch. destruct (m w) as [[a0|e] w1]; intros E.
  - exact E.
  - destruct (Hh e w1) as (e' & w2 & Eh). congruence.
Qed.

End Inversion.

Section VerifyOtpOnce.
Context `{Collaborators}.
Import AuthService.

Lemma get_or_create_vendor_quiet identifier w :
  faults w = [] ->
  _get_or_create_vendor identifier w
  = (Ok (fst (vendor_resolved identifier w)), snd (vendor_resolved identifier w)).
Proof.
  intros Hq. unfold vendor_resolved.
  destruct (vendor_matches identifier w) as [|v rest] eqn:Hm.
  - now apply get_vendor_created.
  - now apply (get_vendor_existing identifier w v rest).
Qed.

Lemma vendor_resolved_frame identifier w :
  faults (snd (vendor_resolved identifier w)) = faults w
  /\ now (snd (vendor_resolved identifier w)) = now w
  /\ cache (snd (vendor_resolved identifier w)) = cache w
  /\ otp_verifications (snd (vendor_resolved identifier w)) = otp_verifications w
  /\ vendor_sessions (snd (vendor_resolved identifier w)) = vendor_sessions w.
Proof.
  unfold vendor_resolved, entropy_used.
  destruct (vendor_matches identifier w); [destruct (_is_valid_phone identifier)|];
    cbn; auto.
Qed.

(** Whatever the stores do, [_create_vendor_session] raises: when the row
    was stored, the cache client refuses the dictionary. *)
Lemma create_vendor_session_raises vid access refresh w :
  exists w',
    _create_vendor_session vid access refresh w = (Raise (Exception MFailedSession), w').
Proof.
  unfold _create_vendor_session, try_catch.
  match goal with |- context [bind ?m ?k w] => destruct (bind m k w) as [[u|e] w1] eqn:E end.
  - exfalso.
    apply bind_inv_ok in E. destruct E as (t & w2 & _ & E).
    apply bind_inv_ok in E. destruct E as (rows & w3 & _ & E).
    destruct rows; discriminate.
  - eexists. reflexivity.
Qed.

(** [verify_otp] never returns: the one path to its [return] leads through
    [_create_vendor_session]. *)
Lemma verify_otp_never_returns token otp w resp w' :
  verify_otp token otp w <> (Ok resp, w').
Proof.
  unfold verify_otp. intros E.
  apply try_inv_ok in E.
  2:{ intros e w1. eexists _, _. reflexivity. }
  apply bind_inv_ok in E. destruct E as (reply & w1 & _ & E).
  destruct reply as [key|]; [|discriminate].
  destruct (negb (truthy key)); [discriminate|].
  apply bind_inv_ok in E. destruct E as (rows & w2 & _ & E).
  destruct rows as [|r rest]; [discriminate|].
  apply bind_inv_ok in E. destruct E as (t & w3 & _ & E).
  destruct (t >? otp_expires_at r); [discriminate|].
  destruct (otp_verified r); [discriminate|].
  destruct (otp_attempts r >=? max_otp_attempts); [discriminate|].
  destruct (pwd_verify otp (otp_code r)) as [[|]|]; [|
    apply bind_inv_ok in E; destruct E as (? & ? & _ & E); discriminate |
    discriminate].
  apply bind_inv_ok in E. destruct E as (u1 & w4 & _ & E).
  apply bind_inv_ok in E. destruct E as (vendor & w5 & _ & E).
  apply bind_inv_ok in E. destruct E as ([access refresh] & w6 & _ & E).
  apply bind_inv_ok in E. destruct E as (u2 & w7 & Es & _).
  destruct (create_vendor_session_raises (vendor_id vendor) access refresh w6)
    as (w8 & Er).
  congruence.
Qed.

(** The world that the call which accepts the code leaves. *)
Lemma verify_otp_accepted token otp w key r rest :
  faults w = [] ->
  cache_lookup w (otp_token_key token) = Some key ->
  truthy key = true ->
  otp_rows key w = r :: rest ->
  (now w >? otp_expires_at r) = false ->
  otp_verified r = false ->
  (otp_attempts r >=? max_otp_attempts) = false ->
  pwd_verify otp (otp_code r) = Some true ->
  let w1 := attempt_recorded key (otp_attempts r + 1) true w in
  let vendor := fst (vendor_resolved (otp_phone_or_email r) w1) in
  let w2 := snd (vendor_resolved (otp_phone_or_email r) w1) in
  let access := jwt_encode (vendor_id vendor) "access" (now w) (now w + 3600) in
  let refresh := jwt_encode (vendor_id vendor) "refresh" (now w) (now w + 30 * 86400) in
  verify_otp token otp w
  = (Raise (Exception MFailedSession),
     logged ERROR "OTP verification failed"
       (logged ERROR "Failed to create vendor session"
          (session_stored (vendor_id vendor) access refresh w2))).
Proof.
  intros Hq Hc Ht Hr He Hv Ha Hp w1 vendor w2 access refresh.
  subst access refresh vendor w2 w1.
  change (attempt_recorded key (otp_attempts r + 1) true w)
    with (otp_updated key (with_verified (otp_attempts r + 1)) w).
  pose proof (vendor_resolved_frame (otp_phone_or_email r)
                (otp_updated key (with_verified (otp_attempts r + 1)) w))
    as (Hf2 & Hn2 & _).
  assert (Hg := get_or_create_vendor_quiet (otp_phone_or_email r)
                  (otp_updated key (with_verified (otp_attempts r + 1)) w) Hq).
  rewrite (verify_otp_accepts token otp w key r rest _ _ Hq Hc Ht Hr He Hv Ha Hp Hg).
  - rewrite Hn2. reflexivity.
  - rewrite Hf2. quiet.
Qed.

(** What a later call finds: the stores as the accepting call left them,
    the record verified. *)
Lemma accepted_frame key a vid access refresh identifier w :
  let w1 := attempt_recorded key a true w in
  let w2 := snd (vendor_resolved identifier w1) in
  let w3 := logged ERROR "OTP verification failed"
              (logged ERROR "Failed to create vendor session"
                 (session_stored vid access refresh w2)) in
  faults w3 = faults w /\ cache w3 = cache w /\ now w3 = now w
  /\ otp_verifications w3 = otp_verifications w1.
Proof.
  intros w1 w2 w3.
  destruct (vendor_resolved_frame identifier w1) as (F & N & C & T & _).
  subst w3 w2. cbn [faults cache now otp_verifications logged session_stored
                   set_log set_next_id set_vendor_sessions].
  rewrite F, C, N, T. subst w1. cbn. auto.
Qed.


End VerifyOtpOnce.


(** The second call in the demo world: [AlreadyUsed] at once and after
    ten seconds, [TokenInvalid] after the five minutes of the mapping. *)
Example verify_otp_twice_demo :
  fst (@AuthService.verify_otp Demo.collaborators "tok-1" "482913" Demo.world)
  = Raise (Exception MFailedSession)
  /\ fst (@AuthService.verify_otp Demo.collaborators "tok-1" "482913" Demo.verified)
     = Raise AlreadyUsed
  /\ fst (@AuthService.verify_otp Demo.collaborators "tok-1" "482913"
            (advance 10 Demo.verified)) = Raise AlreadyUsed
  /\ fst (@AuthService.verify_otp Demo.collaborators "tok-1" "482913"
            (advance 300 Demo.verified)) = Raise TokenInvalid.
Proof. repeat split; vm_compute; reflexivity. Qed.

(** ** Decimal text of the placeholder number *)

Section Decimal.

Lemma digits_fuel_length (k : nat) :
  forall fuel n acc,
    10 ^ Z.of_nat k <= n < 10 ^ (Z.of_nat k + 1) ->
    (k <= fuel)%nat ->
    String.length (digits_fuel fuel n acc) = (S k + String.length acc)%nat.
Proof.
  induction k as [|k IH]; intros fuel n acc Hn Hk.
  - change (10 ^ Z.of_nat 0) with 1 in Hn. change (10 ^ (Z.of_nat 0 + 1)) with 10 in Hn.
    destruct fuel as [|fuel]; cbn [digits_fuel].
    + reflexivity.
    + destruct (Z.ltb_spec n 10); [reflexivity | lia].
  - destruct fuel as [|fuel]; [lia|].
    cbn [digits_fuel].
    assert (H10 : 10 ^ Z.of_nat (S k) = 10 * 10 ^ Z.of_nat k).
    { rewrite Nat2Z.inj_succ, Z.pow_succ_r by lia. reflexivity. }
    assert (H100 : 10 ^ (Z.of_nat (S k) + 1) = 10 * 10 ^ (Z.of_nat k + 1)).
    { rewrite Nat2Z.inj_succ.
      replace (Z.succ (Z.of_nat k) + 1) with (Z.succ (Z.of_nat k + 1)) by lia.
      rewrite Z.pow_succ_r by lia. reflexivity. }
    assert (Hpos : 1 <= 10 ^ Z.of_nat k).
    { change 1 with (10 ^ 0). apply Z.pow_le_mono_r; lia. }
    destruct (Z.ltb_spec n 10) as [Hlt|Hge]; [lia|].
    rewrite IH.
    + cbn [String.length]. lia.
    + split.
      * apply Z.div_le_lower_bound; lia.
      * apply Z.div_lt_upper_bound; lia.
    + lia.
Qed.

(** The text of a number between 1000000000 and 9999999999 has ten
    characters. *)
Lemma str_int_ten_digits n :
  1000000000 <= n <= 9999999999 -> String.length (str_int n) = 10%nat.
Proof.
  intros Hn. unfold str_int.
  destruct (Z.ltb_spec n 0); [lia|].
  unfold digits.
  rewrite (digits_fuel_length 9).
  - reflexivity.
  - change (10 ^ Z.of_nat 9) with 1000000000.
    change (10 ^ (Z.of_nat 9 + 1)) with 10000000000. lia.
  - assert (29 <= Z.log2 n).
    { change 29 with (Z.log2 1000000000). apply Z.log2_le_mono. lia. }
    lia.
Qed.

Lemma placeholder_number_range w :
  1000000000 <= placeholder_number w <= 9999999999.
Proof.
  unfold placeholder_number.
  pose proof (Z.mod_pos_bound (hd 0 (entropy w)) 9000000000 ltac:(lia)).
  lia.
Qed.

End Decimal.

(** ** The order of the checks of [verify_otp] *)

Section VerifyOtpOrder.
Context `{Collaborators}.
Import AuthService.

(** A mapping with an empty text reads like no mapping. *)
Lemma verify_otp_empty_mapping token otp w key :
  faults w = [] ->
  cache_lookup w (otp_token_key token) = Some key ->
  truthy key = false ->
  verify_otp token otp w
  = (Raise TokenInvalid, logged ERROR "OTP verification failed" w).
Proof.
  intros Hq Hc Ht. unfold verify_otp.
  eapply eq_trans.
  - eapply try_raise.
    run_with ltac:(apply redis_get_quiet; quiet). rewrite Hc, Ht. reflexivity.
  - reflexivity.
Qed.

(** A mapping that selects no row. *)
Lemma verify_otp_no_record token otp w key :
  faults w = [] ->
  cache_lookup w (otp_token_key token) = Some key ->
  truthy key = true ->
  otp_rows key w = [] ->
  verify_otp token otp w
  = (Raise (Exception MRecordNotFound), logged ERROR "OTP verification failed" w).
Proof.
  intros Hq Hc Ht Hr. unfold verify_otp.
  eapply eq_trans.
  - eapply try_raise.
    run_with ltac:(apply redis_get_quiet; quiet). rewrite Hc, Ht. cbn [negb].
    run_with ltac:(apply select_otp_quiet; quiet). rewrite Hr. reflexivity.
  - reflexivity.
Qed.

Lemma verify_otp_hash_error token otp w key r rest :
  faults w = [] ->
  cache_lookup w (otp_token_key token) = Some key ->
  truthy key = true ->
  otp_rows key w = r :: rest ->
  (now w >? otp_expires_at r) = false -> otp_verified r = false ->
  (otp_attempts r >=? max_otp_attempts) = false ->
  pwd_verify otp (otp_code r) = None ->
  verify_otp token otp w
  = (Raise (Exception MHash), logged ERROR "OTP verification failed" w).
Proof.
  intros Hq Hc Ht Hr He Hv Ha Hp. unfold verify_otp.
  eapply eq_trans.
  - eapply try_raise.
    run_with ltac:(apply redis_get_quiet; quiet). rewrite Hc, Ht. cbn [negb].
    run_with ltac:(apply select_otp_quiet; quiet). rewrite Hr.
    run_pure. rewrite He, Hv, Ha, Hp. reflexivity.
  - reflexivity.
Qed.

(** C3: with both stores answering, [verify_otp] decides in this order.
    No live mapping for the token (never set, deleted or expired alike),
    or an empty one: [TokenInvalid].  A mapping that selects no record:
    "OTP verification record not found".  Otherwise, for the first row
    [r] the mapping selects: past [expires_at], [Expired]; else already
    verified, [AlreadyUsed]; else [attempts >= 3], [AttemptsExhausted];
    else on a hash mismatch the attempts become [attempts + 1] and the
    error is [InvalidCode] with [3 - (attempts + 1)] remaining.  On a
    match the row is marked verified with [attempts + 1], the vendor of
    the record's identifier is resolved or created and a session row is
    stored for it; then the cache client refuses the session dictionary,
    so that the call raises "Failed to create session", the token mapping
    is not deleted and no tokens are returned.  [verify_otp] returns on no
    input at all. *)
Theorem verify_otp_checks_in_order token otp w :
  faults w = [] ->
  let failed := logged ERROR "OTP verification failed" in
  match cache_lookup w (otp_token_key token) with
  | None => verify_otp token otp w = (Raise TokenInvalid, failed w)
  | Some key =>
      if negb (truthy key) then
        verify_otp token otp w = (Raise TokenInvalid, failed w)
      else
        match otp_rows key w with
        | [] =>
            verify_otp token otp w = (Raise (Exception MRecordNotFound), failed w)
        | r :: _ =>
            if now w >? otp_expires_at r then
              verify_otp token otp w = (Raise Expired, failed w)
            else if otp_verified r then
              verify_otp token otp w = (Raise AlreadyUsed, failed w)
            else if otp_attempts r >=? 3 then
              verify_otp token otp w = (Raise AttemptsExhausted, failed w)
            else
              match pwd_verify otp (otp_code r) with
              | Some false =>
                  verify_otp token otp w
                  = (Raise (InvalidCode (3 - (otp_attempts r + 1))),
                     failed (attempt_recorded key (otp_attempts r + 1) false w))
              | Some true =>
                  let w1 := attempt_recorded key (otp_attempts r + 1) true w in
                  let vendor := fst (vendor_resolved (otp_phone_or_email r) w1) in
                  let w2 := snd (vendor_resolved (otp_phone_or_email r) w1) in
                  let access :=
                    jwt_encode (vendor_id vendor) "access" (now w) (now w + 3600) in
                  let refresh :=
                    jwt_encode (vendor_id vendor) "refresh" (now w)
                               (now w + 30 * 86400) in
                  let w3 :=
                    failed (logged ERROR "Failed to create vendor session"
                              (session_stored (vendor_id vendor) access refresh w2)) in
                  verify_otp token otp w = (Raise (Exception MFailedSession), w3)
                  /\ cache_lookup w3 (otp_token_key token) = Some key
              | None =>
                  verify_otp token otp w = (Raise (Exception MHash), failed w)
              end
        end
  end
  /\ (forall e, cache w !! otp_token_key token = Some e ->
                live (now w) e = false ->
                verify_otp token otp w = (Raise TokenInvalid, failed w))
  /\ (forall token otp w resp w', verify_otp token otp w <> (Ok resp, w')).
Proof.
  intros Hq failed. split; [|split].
  - destruct (cache_lookup w (otp_token_key token)) as [key|] eqn:Hc.
    2:{ now apply verify_otp_no_mapping. }
    destruct (truthy key) eqn:Ht; cbn [negb].
    2:{ now apply (verify_otp_empty_mapping token otp w key). }
    destruct (otp_rows key w) as [|r rest] eqn:Hr.
    { now apply (verify_otp_no_record token otp w key). }
    destruct (verify_otp_rejects token otp w key r rest Hq Hc Ht Hr)
      as (Hexp & Hused & Hmax & Hbad).
    destruct (now w >? otp_expires_at r) eqn:He; [now apply Hexp|].
    destruct (otp_verified r) eqn:Hv; [now apply Hused|].
    change 3 with max_otp_attempts.
    destruct (otp_attempts r >=? max_otp_attempts) eqn:Ha; [now apply Hmax|].
    destruct (pwd_verify otp (otp_code r)) as [[|]|] eqn:Hp.
    + cbv zeta. split.
      * exact (verify_otp_accepted token otp w key r rest Hq Hc Ht Hr He Hv Ha Hp).
      * match goal with
        | |- context [session_stored ?v ?a ?rf (snd (vendor_resolved ?i _))] =>
            destruct (accepted_frame key (otp_attempts r + 1) v a rf i w)
              as (_ & C & N & _)
        end.
        unfold failed, cache_lookup, cache_entry. rewrite C, N. exact Hc.
    + now apply Hbad.
    + now apply (verify_otp_hash_error token otp w key r rest).
  - intros e Hc Hl. apply verify_otp_no_mapping; [exact Hq|].
    now apply (cache_lookup_stale w _ e).
  - intros token0 otp0 w0 resp w'. apply verify_otp_never_returns.
Qed.

End VerifyOtpOrder.

(** In the demo world the code 482913 passes every check, the vendor is
    created under key 8 and the session row under key 9, and the call
    raises "Failed to create session"; the token still maps to the
    record. *)
Lemma verify_otp_checks_in_order_witness :
  @AuthService.verify_otp Demo.collaborators "tok-1" "482913" Demo.world
  = (Raise (Exception MFailedSession), Demo.verified)
  /\ cache_lookup Demo.verified (AuthService.otp_token_key "tok-1") = Some (CNum 7)
  /\ vendor_sessions Demo.verified
     = [SessionRow 9 8 "access.8.1000.4600" "refresh.8.1000.2593000" 2593000 None].
Proof.
  pose proof (@verify_otp_checks_in_order Demo.collaborators "tok-1" "482913"
                Demo.world eq_refl) as [Horder _].
  change (cache_lookup Demo.world (AuthService.otp_token_key "tok-1"))
    with (Some (CNum 7)) in Horder.
  change (negb (truthy (CNum 7))) with false in Horder.
  change (otp_rows (CNum 7) Demo.world) with [Demo.issued] in Horder.
  change (now Demo.world >? otp_expires_at Demo.issued) with false in Horder.
  cbv iota in Horder.
  change (otp_verified Demo.issued) with false in Horder.
  change (otp_attempts Demo.issued >=? 3) with false in Horder.
  cbv iota in Horder.
  change (pwd_verify "482913" (otp_code Demo.issued)) with (Some true) in Horder.
  cbv iota in Horder.
  destruct Horder as [Hrun _].
  split; [|split].
  - rewrite Hrun. vm_compute. reflexivity.
  - vm_compute. reflexivity.
  - vm_compute. reflexivity.
Defined.

(** ** The attempts cap *)

Section AttemptsCap.
Context `{Collaborators}.
Import AuthService.

(** A failed attempt leaves the clock, the cache and the fault schedule
    as they were. *)
Lemma failed_attempt_frame key a w d :
  let w' := advance d (logged ERROR "OTP verification failed"
                         (otp_updated key (with_attempts a) w)) in
  faults w' = faults w /\ cache w' = cache w /\ now w' = now w + d.
Proof. cbn. auto. Qed.

Lemma failed_attempt_rows key a w d r rest :
  otp_rows key w = r :: rest ->
  otp_rows key (advance d (logged ERROR "OTP verification failed"
                             (otp_updated key (with_attempts a) w)))
  = with_attempts a r :: map (with_attempts a) rest.
Proof.
  intros Hr.
  change (otp_rows key (advance d (logged ERROR "OTP verification failed"
                                     (otp_updated key (with_attempts a) w))))
    with (otp_rows key (otp_updated key (with_attempts a) w)).
  rewrite otp_rows_updated by reflexivity. now rewrite Hr.
Qed.

(** One wrong code on an unverified record below the cap. *)
Lemma verify_otp_wrong_code token otp w id x r rest :
  faults w = [] ->
  cache w !! otp_token_key token = Some (CEntry (CNum id) (Some x)) ->
  now w < x ->
  otp_rows (CNum id) w = r :: rest ->
  now w <= otp_expires_at r ->
  otp_verified r = false ->
  otp_attempts r < 3 ->
  pwd_verify otp (otp_code r) = Some false ->
  verify_otp token otp w
  = (Raise (InvalidCode (3 - (otp_attempts r + 1))),
     logged ERROR "OTP verification failed"
       (otp_updated (CNum id) (with_attempts (otp_attempts r + 1)) w)).
Proof.
  intros Hq Hc Hx Hr He Hv Ha Hp.
  destruct (verify_otp_rejects token otp w (CNum id) r rest Hq
              (cache_lookup_live _ _ _ _ Hc Hx) eq_refl Hr) as (_ & _ & _ & Hbad).
  apply Hbad; trivial.
  - destruct (Z.gtb_spec (now w) (otp_expires_at r)); [lia | reflexivity].
  - unfold max_otp_attempts. destruct (Z.geb_spec (otp_attempts r) 3); [lia | reflexivity].
Qed.

(** The same, with what the next call will find after [d] more seconds. *)
Lemma wrong_code_step token otp w id x r rest d :
  faults w = [] ->
  cache w !! otp_token_key token = Some (CEntry (CNum id) (Some x)) ->
  now w < x ->
  otp_rows (CNum id) w = r :: rest ->
  now w <= otp_expires_at r ->
  otp_verified r = false ->
  otp_attempts r < 3 ->
  pwd_verify otp (otp_code r) = Some false ->
  let s := verify_otp token otp w in
  let w' := advance d (snd s) in
  fst s = Raise (InvalidCode (3 - (otp_attempts r + 1)))
  /\ faults w' = []
  /\ cache w' !! otp_token_key token = Some (CEntry (CNum id) (Some x))
  /\ now w' = now w + d
  /\ otp_rows (CNum id) w'
     = with_attempts (otp_attempts r + 1) r
       :: map (with_attempts (otp_attempts r + 1)) rest.
Proof.
  intros Hq Hc Hx Hr He Hv Ha Hp s w'. subst w' s.
  rewrite (verify_otp_wrong_code token otp w id x r rest Hq Hc Hx Hr He Hv Ha Hp).
  cbn [fst snd].
  destruct (failed_attempt_frame (CNum id) (otp_attempts r + 1) w d) as (F & C & N).
  rewrite F, C, N.
  repeat split; trivial.
  now apply failed_attempt_rows.
Qed.

(** At the cap every code is refused, and nothing but the log changes. *)
Lemma verify_otp_exhausted token otp w id x r rest :
  faults w = [] ->
  cache w !! otp_token_key token = Some (CEntry (CNum id) (Some x)) ->
  now w < x ->
  otp_rows (CNum id) w = r :: rest ->
  now w <= otp_expires_at r ->
  otp_verified r = false ->
  3 <= otp_attempts r ->
  verify_otp token otp w
  = (Raise AttemptsExhausted, logged ERROR "OTP verification failed" w).
Proof.
  intros Hq Hc Hx Hr He Hv Ha.
  destruct (verify_otp_rejects token otp w (CNum id) r rest Hq
              (cache_lookup_live _ _ _ _ Hc Hx) eq_refl Hr) as (_ & _ & Hmax & _).
  apply Hmax; trivial.
  - destruct (Z.gtb_spec (now w) (otp_expires_at r)); [lia | reflexivity].
  - unfold max_otp_attempts. destruct (Z.geb_spec (otp_attempts r) 3); [reflexivity | lia].
Qed.

(** C2 (amended): once [attempts] has reached 3 on an unverified record,
    every [verify_otp] made while the token mapping is live and the
    record unexpired fails with [AttemptsExhausted], whatever the code,
    and changes nothing but the log.  On a fresh record three wrong codes
    are answered with [InvalidCode] and 2, 1 and 0 attempts remaining,
    and a fourth attempt fails with [AttemptsExhausted] even with the
    correct code. *)
Theorem verify_otp_attempts_cap token w id x r rest :
  faults w = [] ->
  cache w !! otp_token_key token = Some (CEntry (CNum id) (Some x)) ->
  otp_rows (CNum id) w = r :: rest ->
  otp_verified r = false ->
  (3 <= otp_attempts r ->
   forall otp, now w < x -> now w <= otp_expires_at r ->
     verify_otp token otp w
     = (Raise AttemptsExhausted, logged ERROR "OTP verification failed" w))
  /\ (otp_attempts r = 0 ->
      forall c1 c2 c3 c4 d1 d2 d3,
        pwd_verify c1 (otp_code r) = Some false ->
        pwd_verify c2 (otp_code r) = Some false ->
        pwd_verify c3 (otp_code r) = Some false ->
        pwd_verify c4 (otp_code r) = Some true ->
        0 <= d1 -> 0 <= d2 -> 0 <= d3 ->
        now w + d1 + d2 + d3 < x ->
        now w + d1 + d2 + d3 <= otp_expires_at r ->
        let s1 := verify_otp token c1 w in
        let s2 := verify_otp token c2 (advance d1 (snd s1)) in
        let s3 := verify_otp token c3 (advance d2 (snd s2)) in
        let s4 := verify_otp token c4 (advance d3 (snd s3)) in
        fst s1 = Raise (InvalidCode 2)
        /\ fst s2 = Raise (InvalidCode 1)
        /\ fst s3 = Raise (InvalidCode 0)
        /\ fst s4 = Raise AttemptsExhausted).
Proof.
  intros Hq Hc Hr Hv. split.
  - intros Ha otp Hx He. now apply (verify_otp_exhausted token otp w id x r rest).
  - intros Ha c1 c2 c3 c4 d1 d2 d3 H1 H2 H3 H4 Hd1 Hd2 Hd3 Hx He s1 s2 s3 s4.
    destruct (wrong_code_step token c1 w id x r rest d1 Hq Hc ltac:(lia) Hr
                ltac:(lia) Hv ltac:(lia) H1) as (R1 & Q1 & C1 & N1 & T1).
    fold s1 in R1, Q1, C1, N1, T1.
    cbn [otp_attempts with_attempts] in T1.
    destruct (wrong_code_step token c2 (advance d1 (snd s1)) id x _ _ d2 Q1 C1
                ltac:(rewrite N1; lia) T1 ltac:(rewrite N1; cbn; lia) Hv
                ltac:(cbn; lia) H2)
      as (R2 & Q2 & C2 & N2 & T2).
    fold s2 in R2, Q2, C2, N2, T2.
    cbn [otp_attempts with_attempts] in T2.
    destruct (wrong_code_step token c3 (advance d2 (snd s2)) id x _ _ d3 Q2 C2
                ltac:(rewrite N2, N1; lia) T2 ltac:(rewrite N2, N1; cbn; lia) Hv
                ltac:(cbn; lia) H3)
      as (R3 & Q3 & C3 & N3 & T3).
    fold s3 in R3, Q3, C3, N3, T3.
    cbn [otp_attempts with_attempts] in R1, R2, R3, T3. rewrite Ha in R1, R2, R3.
    repeat split; trivial.
    subst s4.
    rewrite (verify_otp_exhausted token c4 _ id x _ _ Q3 C3
               ltac:(rewrite N3, N2, N1; lia) T3
               ltac:(rewrite N3, N2, N1; cbn; lia) Hv ltac:(cbn; lia)).
    reflexivity.
Qed.

End AttemptsCap.

(** Three wrong codes and then the right one on the demo OTP, ten, twenty
    and thirty seconds apart. *)
Lemma verify_otp_attempts_cap_witness :
  let s1 := Demo.try_code "111111" Demo.world in
  let s2 := Demo.try_code "222222" (advance 10 (snd s1)) in
  let s3 := Demo.try_code "333333" (advance 20 (snd s2)) in
  let s4 := Demo.try_code "482913" (advance 30 (snd s3)) in
  fst s1 = Raise (InvalidCode 2)
  /\ fst s2 = Raise (InvalidCode 1)
  /\ fst s3 = Raise (InvalidCode 0)
  /\ fst s4 = Raise AttemptsExhausted.
Proof.
  refine (proj2 (@verify_otp_attempts_cap Demo.collaborators "tok-1" Demo.world 7 1300
                   Demo.issued [] eq_refl eq_refl eq_refl eq_refl)
                eq_refl "111111" "222222" "333333" "482913" 10 20 30
                eq_refl eq_refl eq_refl eq_refl _ _ _ _ _);
    vm_compute; congruence.
Defined.

(** C2 as stated fails: the third wrong code on the fresh demo OTP is
    answered with [InvalidCode] and 0 attempts remaining, not with
    [AttemptsExhausted]. *)
Lemma third_wrong_code_is_invalid_code :
  let s1 := Demo.try_code "111111" Demo.world in
  let s2 := Demo.try_code "222222" (snd s1) in
  let s3 := Demo.try_code "333333" (snd s2) in
  fst s3 = Raise (InvalidCode 0) /\ fst s3 <> Raise AttemptsExhausted.
Proof.
  split.
  - vm_compute. reflexivity.
  - vm_compute. discriminate.
Qed.

(** ** The vendor created on a first login by email *)

Section EmailVendor.
Context `{Collaborators}.
Import AuthService.

(** C10: the vendor created for an email address.  In the call of
    [verify_otp] that accepts the code of a record whose identifier is not
    a phone number and which no vendor has as email,
    [_get_or_create_vendor] adds one vendor row and answers with it: empty
    name and market location, language "hi", status "active", the
    identifier as email, and as phone number "+91" followed by the
    ten-digit decimal text of a number between 1000000000 and 9999999999
    that is drawn from the random source.  The session row that the call
    stores next is for this vendor.  (The call itself then raises "Failed
    to create session", as every accepting call does.) *)
Theorem verify_otp_email_vendor token otp w key r rest :
  faults w = [] ->
  cache_lookup w (otp_token_key token) = Some key ->
  truthy key = true ->
  otp_rows key w = r :: rest ->
  (now w >? otp_expires_at r) = false ->
  otp_verified r = false ->
  (otp_attempts r >=? max_otp_attempts) = false ->
  pwd_verify otp (otp_code r) = Some true ->
  _is_valid_phone (otp_phone_or_email r) = false ->
  filter (fun v => option_string_is (otp_phone_or_email r) (vendor_email v))
         (vendors w) = [] ->
  exists w' n,
    let row := VendorRow (next_id w) "" "" "hi" "active" (now w)
                         (Some ("+91" +:+ str_int n)) (Some (otp_phone_or_email r)) in
    verify_otp token otp w = (Raise (Exception MFailedSession), w')
    /\ vendors w' = vendors w ++ [row]
    /\ (exists w2,
          _get_or_create_vendor (otp_phone_or_email r)
            (attempt_recorded key (otp_attempts r + 1) true w) = (Ok row, w2))
    /\ (exists s, vendor_sessions w' = vendor_sessions w ++ [s]
                  /\ session_vendor_id s = next_id w)
    /\ n = hd 0 (entropy w) mod 9000000000 + 1000000000
    /\ 1000000000 <= n <= 9999999999
    /\ String.length (str_int n) = 10%nat.
Proof.
  intros Hq Hc Ht Hr He Hv Ha Hp Hphone Hnone.
  set (w1 := otp_updated key (with_verified (otp_attempts r + 1)) w).
  assert (Hm : vendor_matches (otp_phone_or_email r) w1 = []).
  { unfold vendor_matches. rewrite Hphone. exact Hnone. }
  assert (Hg := get_vendor_created (otp_phone_or_email r) w1 Hq Hm).
  eexists _, (placeholder_number w). cbv zeta.
  split.
  - apply (verify_otp_accepts token otp w key r rest _ _ Hq Hc Ht Hr He Hv Ha Hp Hg).
    unfold entropy_used. rewrite Hphone. exact Hq.
  - unfold new_vendor, entropy_used in *. rewrite Hphone in *.
    split; [reflexivity|]. split.
    { eexists. exact Hg. }
    split.
    { eexists. split; reflexivity. }
    repeat split; try apply placeholder_number_range.
    apply str_int_ten_digits, placeholder_number_range.
Qed.

End EmailVendor.

(** The demo OTP was issued for an email address without a vendor: the
    call that accepts its code creates vendor 8 with the placeholder
    "+916123456789". *)
Lemma verify_otp_email_vendor_witness :
  exists w' n,
    let row := VendorRow (next_id Demo.world) "" "" "hi" "active" (now Demo.world)
                         (Some ("+91" +:+ str_int n))
                         (Some (otp_phone_or_email Demo.issued)) in
    @AuthService.verify_otp Demo.collaborators "tok-1" "482913" Demo.world
    = (Raise (Exception MFailedSession), w')
    /\ vendors w' = vendors Demo.world ++ [row]
    /\ (exists w2,
          @AuthService._get_or_create_vendor Demo.collaborators
            (otp_phone_or_email Demo.issued)
            (attempt_recorded (CNum 7) (otp_attempts Demo.issued + 1) true Demo.world)
          = (Ok row, w2))
    /\ (exists s, vendor_sessions w' = vendor_sessions Demo.world ++ [s]
                  /\ session_vendor_id s = next_id Demo.world)
    /\ n = hd 0 (entropy Demo.world) mod 9000000000 + 1000000000
    /\ 1000000000 <= n <= 9999999999
    /\ String.length (str_int n) = 10%nat.
Proof.
  exact (@verify_otp_email_vendor Demo.collaborators "tok-1" "482913" Demo.world
           (CNum 7) Demo.issued [] eq_refl eq_refl eq_refl eq_refl eq_refl eq_refl
           eq_refl eq_refl eq_refl eq_refl).
Defined.

(** The placeholder of the demo vendor. *)
Example demo_vendor_placeholder :
  vendors Demo.verified
  = [VendorRow 8 "" "" "hi" "active" 1000 (Some "+916123456789")
               (Some "asha@example.com")].
Proof. vm_compute. reflexivity. Qed.

Example str_int_examples :
  str_int 0 = "0" /\ str_int 7 = "7" /\ str_int 10 = "10"
  /\ str_int 6123456789 = "6123456789" /\ str_int (-42) = "-42".
Proof. repeat split. Qed.

Example is_valid_phone_examples :
  @AuthService._is_valid_phone Demo.collaborators "+919876543210" = true
  /\ @AuthService._is_valid_phone Demo.collaborators "9876543210" = true
  /\ @AuthService._is_valid_phone Demo.collaborators "919876543210" = true
  /\ @AuthService._is_valid_phone Demo.collaborators "+91 9876 543 210" = true
  /\ @AuthService._is_valid_phone Demo.collaborators "1234567890" = false
  /\ @AuthService._is_valid_phone Demo.collaborators "98765432" = false
  /\ @AuthService._is_valid_phone Demo.collaborators "98765432101" = false
  /\ @AuthService._is_valid_phone Demo.collaborators "+1234567890" = false
  /\ @AuthService._is_valid_phone Demo.collaborators "asha@example.com" = false
  /\ @AuthService._is_valid_phone Demo.collaborators ("987654321" +:+ Demo.devanagari_one)
     = true
  /\ @AuthService._is_valid_phone Demo.collaborators
       ("9876543210" +:+ Demo.devanagari_one) = false.
Proof. repeat split. Qed.

(** ** The admission decision of the rate limiter *)

Section Admission.
Context `{Collaborators}.
Import RateLimitMiddleware.

Lemma int_or_zero_count o n w :
  count_reply o = Some n -> int_or_zero o w = (Ok n, w).
Proof.
  destruct o as [[z| |]|]; cbn; intros E; try discriminate;
    inversion E; subst; reflexivity.
Qed.

Lemma minute_hour_keys_differ identifier t t' :
  minute_key identifier t <> hour_key identifier t'.
Proof. unfold minute_key, hour_key. cbn. discriminate. Qed.

Lemma cache_entry_lookup w k :
  cache_lookup w k = c_val <$> cache_entry w k.
Proof. reflexivity. Qed.

(** INCR followed by EXPIRE on a well-formed counter. *)
Lemma incr_expire_quiet k ttl n w :
  faults w = [] ->
  count_reply (cache_lookup w k) = Some n ->
  incrementable n = true ->
  (redis_incr k ;;; redis_expire k ttl) w
  = (Ok tt, set_cache (<[k := CEntry (CNum (n + 1)) (Some (now w + ttl))]> (cache w)) w).
Proof.
  intros Hq Hn Hi. unfold redis_incr, redis_expire.
  unfold cache_lookup in Hn.
  destruct (cache_entry w k) as [[[z| |] x]|] eqn:He; cbn in Hn;
    try discriminate; inversion Hn; subst.
  - unfold bind, round_trip. rewrite Hq, He, Hi. cbn [faults set_cache].
    rewrite Hq. unfold cache_entry. cbn [cache now set_cache].
    rewrite lookup_insert_eq.
    unfold cache_entry in He.
    destruct (cache w !! k) as [e|]; [|discriminate].
    destruct (live (now w) e) eqn:Hl; [|discriminate].
    inversion He; subst.
    change (live (now w) (CEntry (CNum (n + 1)) x))
      with (live (now w) (CEntry (CNum n) x)).
    rewrite Hl. cbn [c_val].
    now rewrite insert_insert_eq.
  - unfold bind, round_trip. rewrite Hq, He. cbn [faults set_cache].
    rewrite Hq. unfold cache_entry. cbn [cache now set_cache].
    rewrite lookup_insert_eq. cbn [live c_expiry c_val].
    now rewrite insert_insert_eq.
Qed.

(** INCR on a counter that cannot be raised: the cache refuses, and the
    counter stays. *)
Lemma incr_refused k n w :
  faults w = [] ->
  count_reply (cache_lookup w k) = Some n ->
  incrementable n = false ->
  redis_incr k w = (Raise StoreError, w).
Proof.
  intros Hq Hn Hi. unfold redis_incr.
  unfold cache_lookup in Hn.
  destruct (cache_entry w k) as [[[z| |] x]|] eqn:He; cbn in Hn;
    try discriminate; inversion Hn; subst.
  - unfold bind, round_trip. rewrite Hq, He, Hi. reflexivity.
  - discriminate.
Qed.

Lemma cache_lookup_other k k' e w :
  k <> k' ->
  cache_lookup (set_cache (<[k := e]> (cache w)) w) k' = cache_lookup w k'.
Proof.
  intros Hk. unfold cache_lookup, cache_entry. cbn [cache now set_cache].
  now rewrite lookup_insert_ne.
Qed.

Lemma increment_counters_quiet identifier mc hc w :
  faults w = [] ->
  redis_ready w = true ->
  count_reply (cache_lookup w (minute_key identifier (now w))) = Some mc ->
  count_reply (cache_lookup w (hour_key identifier (now w))) = Some hc ->
  _increment_counters identifier w = (Ok tt, counted identifier mc hc w).
Proof.
  intros Hq Hr Hm Hh. unfold _increment_counters, counted.
  destruct (incrementable mc) eqn:Im.
  2:{ eapply eq_trans.
      - eapply try_raise.
        run_with ltac:(apply get_redis_ready; assumption).
        run_pure.
        erewrite bind_raise by (apply (incr_refused _ mc); assumption).
        reflexivity.
      - reflexivity. }
  pose proof (incr_expire_quiet (minute_key identifier (now w)) 60 mc w Hq Hm Im) as E1.
  set (w2 := set_cache _ w) in E1.
  assert (Hq2 : faults w2 = []) by exact Hq.
  assert (Hh2 : count_reply (cache_lookup w2 (hour_key identifier (now w))) = Some hc).
  { subst w2. rewrite cache_lookup_other; [exact Hh | apply minute_hour_keys_differ]. }
  destruct (incrementable hc) eqn:Ih.
  - apply try_ok.
    run_with ltac:(apply get_redis_ready; assumption).
    run_pure.
    unfold bind in E1 |- *.
    destruct (redis_incr (minute_key identifier (now w)) w) as [[a|e] w1]; [|discriminate].
    rewrite E1.
    pose proof (incr_expire_quiet (hour_key identifier (now w)) 3600 hc w2 Hq2 Hh2 Ih)
      as E2.
    unfold bind in E2.
    destruct (redis_incr (hour_key identifier (now w)) w2) as [[a2|e2] w3]; [|discriminate].
    rewrite E2. reflexivity.
  - eapply eq_trans.
    + eapply try_raise.
      run_with ltac:(apply get_redis_ready; assumption).
      run_pure.
      unfold bind in E1 |- *.
      destruct (redis_incr (minute_key identifier (now w)) w) as [[a|e] w1]; [|discriminate].
      rewrite E1.
      rewrite (incr_refused _ hc w2 Hq2 Hh2 Ih). reflexivity.
    + reflexivity.
Qed.

Lemma check_rate_limit_quiet self identifier endpoint mc hc w :
  faults w = [] ->
  redis_ready w = true ->
  count_reply (cache_lookup w (minute_key identifier (now w))) = Some mc ->
  count_reply (cache_lookup w (hour_key identifier (now w))) = Some hc ->
  _check_rate_limit self identifier endpoint w
  = (Ok (let '(ml, hl) := limits_for self endpoint in
         if mc >=? ml then
           (false, LimitReached ml 0 ((now w / 60 + 1) * 60) "minute")
         else if hc >=? hl then
           (false, LimitReached hl 0 ((now w / 3600 + 1) * 3600) "hour")
         else (true, WithinLimits ml (ml - mc - 1) hl (hl - hc - 1))), w).
Proof.
  intros Hq Hr Hm Hh. unfold _check_rate_limit. apply try_ok.
  run_with ltac:(apply get_redis_ready; assumption).
  run_pure.
  destruct (limits_for self endpoint) as [ml hl].
  run_with ltac:(apply redis_get_quiet; assumption).
  run_with ltac:(apply int_or_zero_count; exact Hm).
  run_with ltac:(apply redis_get_quiet; assumption).
  run_with ltac:(apply int_or_zero_count; exact Hh).
  destruct (mc >=? ml); [reflexivity|].
  destruct (hc >=? hl); reflexivity.
Qed.

End Admission.

Section Dispatch.
Context `{Collaborators}.
Import RateLimitMiddleware.

Lemma counted_lookups identifier mc hc w :
  (if incrementable mc
   then cache_lookup (counted identifier mc hc w) (minute_key identifier (now w))
        = Some (CNum (mc + 1))
   else cache (counted identifier mc hc w) = cache w)
  /\ (if incrementable mc && incrementable hc
      then cache_lookup (counted identifier mc hc w) (hour_key identifier (now w))
           = Some (CNum (hc + 1))
      else cache_lookup (counted identifier mc hc w) (hour_key identifier (now w))
           = cache_lookup w (hour_key identifier (now w)))
  /\ (forall k, k <> minute_key identifier (now w) ->
                k <> hour_key identifier (now w) ->
                cache (counted identifier mc hc w) !! k = cache w !! k).
Proof.
  unfold counted, cache_lookup, cache_entry.
  destruct (incrementable mc), (incrementable hc);
    cbn [andb cache now set_cache logged set_log]; repeat split;
    try (intros k Hm Hh; rewrite ?lookup_insert_ne by auto; reflexivity).
  - rewrite lookup_insert_ne by (apply not_eq_sym, minute_hour_keys_differ).
    rewrite lookup_insert_eq. cbn [live c_expiry].
    destruct (Z.ltb_spec (now w) (now w + 60)); [reflexivity | lia].
  - rewrite lookup_insert_eq. cbn [live c_expiry].
    destruct (Z.ltb_spec (now w) (now w + 3600)); [reflexivity | lia].
  - rewrite lookup_insert_eq. cbn [live c_expiry].
    destruct (Z.ltb_spec (now w) (now w + 60)); [reflexivity | lia].
  - rewrite lookup_insert_ne by (apply minute_hour_keys_differ). reflexivity.
Qed.

(** C5 (amended): for a request whose path is not exempt, with the cache
    answering and both window counters well-formed, [dispatch] rejects
    with status 429 if and only if the minute count is at least the minute
    limit or the hour count is at least the hour limit, both counts taken
    before this request is counted; the limits are 5/20, 10/50 and 20/200
    for the login, verify-otp and refresh paths and the configured defaults
    otherwise.  A rejected request leaves both counters as they were and
    is not passed on; an admitted one raises each counter by exactly one
    before the application runs (a counter at the end of the 64-bit range,
    which only a limit beyond that range lets through, is refused by the
    cache: it and the counter after it stay, and the request is passed on
    all the same).  The exempt paths are passed on unchecked and
    uncounted. *)
Theorem dispatch_admission self request call_next w mc hc :
  faults w = [] ->
  redis_ready w = true ->
  let identifier := _get_client_identifier request in
  count_reply (cache_lookup w (minute_key identifier (now w))) = Some mc ->
  count_reply (cache_lookup w (hour_key identifier (now w))) = Some hc ->
  (exempt (url_path request) = false ->
   let '(ml, hl) := limits_for self (url_path request) in
   if (mc >=? ml) || (hc >=? hl) then
     exists detail hdrs,
       dispatch self request call_next w
       = (Raise (HTTPException 429 detail hdrs),
          logged WARNING "Rate limit exceeded" w)
   else
     dispatch self request call_next w
     = (response <- call_next request ;;
        ret (with_rate_headers ml mc hl hc response))
         (counted identifier mc hc w)
     /\ (if incrementable mc
         then cache_lookup (counted identifier mc hc w) (minute_key identifier (now w))
              = Some (CNum (mc + 1))
         else cache (counted identifier mc hc w) = cache w)
     /\ (if incrementable mc && incrementable hc
         then cache_lookup (counted identifier mc hc w) (hour_key identifier (now w))
              = Some (CNum (hc + 1))
         else cache_lookup (counted identifier mc hc w) (hour_key identifier (now w))
              = cache_lookup w (hour_key identifier (now w))))
  /\ (exempt (url_path request) = true ->
      dispatch self request call_next w = call_next request w)
  /\ limits_for self "/api/v1/auth/login" = (5, 20)
  /\ limits_for self "/api/v1/auth/verify-otp" = (10, 50)
  /\ limits_for self "/api/v1/auth/refresh" = (20, 200)
  /\ (sensitive_endpoints (url_path request) = None ->
      limits_for self (url_path request) = (calls_per_minute self, calls_per_hour self)).
Proof.
  intros Hq Hr identifier Hm Hh.
  split; [|split; [|repeat split]].
  - intros Hx. unfold dispatch. rewrite Hx. fold identifier.
    rewrite (bind_ok _ _ _ _ _
               (check_rate_limit_quiet self identifier (url_path request) mc hc w
                  Hq Hr Hm Hh)).
    destruct (limits_for self (url_path request)) as [ml hl].
    destruct (mc >=? ml) eqn:Em; cbn [orb negb].
    + eexists _, _. reflexivity.
    + destruct (hc >=? hl) eqn:Eh; cbn [negb].
      * eexists _, _. reflexivity.
      * rewrite (bind_ok _ _ _ _ _
                   (increment_counters_quiet identifier mc hc w Hq Hr Hm Hh)).
        destruct (counted_lookups identifier mc hc w) as (L1 & L2 & _).
        repeat split; trivial.
  - intros Hx. unfold dispatch. now rewrite Hx.
  - intros Hs. unfold limits_for. now rewrite Hs.
Qed.

End Dispatch.

(** The sixty-first request of the demo client within one minute is
    rejected with status 429, and the counters stay at sixty. *)
Lemma dispatch_admission_witness :
  exists detail hdrs,
    @RateLimitMiddleware.dispatch Demo.collaborators Demo.limiter
      Demo.profile_request Demo.app Demo.minute_used_up
    = (Raise (HTTPException 429 detail hdrs),
       logged WARNING "Rate limit exceeded" Demo.minute_used_up).
Proof.
  exact (proj1 (@dispatch_admission Demo.collaborators Demo.limiter
                  Demo.profile_request Demo.app Demo.minute_used_up 60 60
                  eq_refl eq_refl eq_refl eq_refl) eq_refl).
Defined.

(** C5 as stated fails: the health check of a client whose minute counter
    stands at the limit of sixty reaches [dispatch], is admitted, and
    neither counter is raised. *)
Lemma health_check_is_admitted_uncounted :
  cache_lookup Demo.minute_used_up (RateLimitMiddleware.minute_key Demo.client 1000)
  = Some (CNum 60)
  /\ fst (RateLimitMiddleware.limits_for Demo.limiter "/health") = 60
  /\ @RateLimitMiddleware.dispatch Demo.collaborators Demo.limiter
       Demo.health_check Demo.app Demo.minute_used_up
     = (Ok (mkResponse 200 []), Demo.minute_used_up).
Proof. repeat split. Qed.

(** ** Failing open *)

Section FailOpen.
Context `{Collaborators}.
Import RateLimitMiddleware BruteForceProtection.

(** A handler that answers makes the whole block answer. *)
Lemma try_total {A} (m : M A) h :
  (forall e w1, exists a w2, h e w1 = (Ok a, w2)) ->
  forall w, exists a w', try_catch m h w = (Ok a, w').
Proof.
  intros Hh w. unfold try_catch. destruct (m w) as [[a|e] w1]; eauto.
Qed.










End FailOpen.

(** ** Session validation *)

Section ValidateSession.
Context `{Collaborators}.
Import AuthService.

Lemma validate_session_total access_token w :
  exists r w', validate_session access_token w = (Ok r, w').
Proof.
  unfold validate_session. apply try_total.
  intros e w1. destruct e; eexists _, _; reflexivity.
Qed.


Lemma round_trip_inv w u w1 :
  round_trip w = (Ok u, w1) ->
  hd false (faults w) = false /\ faults w1 = tail (faults w)
  /\ now w1 = now w /\ cache w1 = cache w.
Proof.
  unfold round_trip. destruct (faults w) as [|[] fs] eqn:E; intros R;
    inversion R; subst; cbn; auto.
Qed.

Lemma redis_get_inv k w r w1 :
  redis_get k w = (Ok r, w1) ->
  r = cache_lookup w k
  /\ hd false (faults w) = false /\ faults w1 = tail (faults w) /\ now w1 = now w.
Proof.
  unfold redis_get. intros E. apply bind_inv_ok in E.
  destruct E as (u & w0 & Er & E). apply round_trip_inv in Er.
  destruct Er as (Hh & Ht & Hn & Hc). inversion E; subst.
  repeat split; trivial.
  unfold cache_lookup, cache_entry. now rewrite Hc, Hn.
Qed.






End ValidateSession.

(** In the demo world after the login attempt: a string that was never a
    token, a refresh token presented as an access token, and the access
    token while the database is down are all answered with [None]. *)
Example validate_session_denies :
  fst (@AuthService.validate_session Demo.collaborators "forged" Demo.verified) = Ok None
  /\ fst (@AuthService.validate_session Demo.collaborators "refresh.8.1000.2593000"
            Demo.verified) = Ok None
  /\ fst (@AuthService.validate_session Demo.collaborators "access.8.1000.4600"
            (set_faults [false; true] Demo.verified)) = Ok None
  /\ fst (@AuthService.validate_session Demo.collaborators "access.8.1000.4600"
            Demo.verified) = Ok (Some (mkSessionInfo (Some 8) 2593000)).
Proof. repeat split; vm_compute; reflexivity. Qed.

Section ExpiredTokens.
Context `{Collaborators}.
Import AuthService.

Lemma cached_session_silent access_token w :
  cache_trips access_token w = false ->
  cached_session (cache_lookup w (vendor_session_key access_token)) w = (Ok None, w).
Proof.
  unfold cache_trips, cached_session, truthy_opt.
  destruct (cache_lookup w (vendor_session_key access_token)) as [v|]; [|reflexivity].
  intros ->. reflexivity.
Qed.

Lemma cached_session_trips access_token w :
  cache_trips access_token w = true ->
  cached_session (cache_lookup w (vendor_session_key access_token)) w
  = (Raise TypeError, w).
Proof.
  unfold cache_trips, cached_session, truthy_opt.
  destruct (cache_lookup w (vendor_session_key access_token)) as [v|]; [|discriminate].
  intros ->. reflexivity.
Qed.

Lemma select_session_quiet token w :
  faults w = [] -> select_session_by_token token w = (Ok (session_rows token w), w).
Proof.
  intros E. unfold select_session_by_token.
  now rewrite (bind_ok _ _ _ _ _ (round_trip_quiet w E)).
Qed.

Lemma delete_session_quiet id w :
  faults w = [] ->
  delete_session_by_id id w
  = (Ok tt, set_vendor_sessions
              (filter (fun r => negb (session_id r =? id)) (vendor_sessions w)) w).
Proof.
  intros E. unfold delete_session_by_id.
  now rewrite (bind_ok _ _ _ _ _ (round_trip_quiet w E)).
Qed.

(** A token that [jwt.decode] rejects: the answer is [None], and neither
    store is written, whatever the stores do. *)
Lemma validate_session_rejected access_token w :
  jwt_decode access_token (now w) = None ->
  exists w',
    validate_session access_token w = (Ok None, w')
    /\ vendor_sessions w' = vendor_sessions w /\ cache w' = cache w.
Proof.
  intros Hd. unfold validate_session, try_catch.
  unfold bind at 1. unfold redis_get, bind at 1, round_trip.
  destruct (faults w) as [|[] fs] eqn:Hf.
  - unfold cached_session.
    destruct (cache_lookup w (vendor_session_key access_token)) as [v|];
      [destruct (truthy v)|]; cbn; rewrite ?Hd; eexists; repeat split; reflexivity.
  - cbn. eexists; repeat split; reflexivity.
  - unfold cached_session.
    change (cache_lookup (set_faults fs w) (vendor_session_key access_token))
      with (cache_lookup w (vendor_session_key access_token)).
    destruct (cache_lookup w (vendor_session_key access_token)) as [v|];
      [destruct (truthy v)|]; cbn; rewrite ?Hd; eexists; repeat split; reflexivity.
Qed.

(** C7 (amended): [validate_session] answers [None] for an access token
    that [jwt.decode] rejects, as it does once the token's hour has
    passed, and it deletes nothing: the session rows and the cache are as
    they were.  The session row and the cache entry are deleted, and
    [None] is answered, when the stores answer, the token still decodes
    with the type "access" and the [expires_at] of its session row has
    passed (with a text under the key of the token in the cache, which
    this code never writes, the call trips over it before it gets there
    and deletes nothing either). *)
Theorem validate_session_expired access_token w :
  (jwt_decode access_token (now w) = None ->
   exists w',
     validate_session access_token w = (Ok None, w')
     /\ vendor_sessions w' = vendor_sessions w /\ cache w' = cache w)
  /\ (forall sub session rest,
        faults w = [] ->
        jwt_decode access_token (now w) = Some (Some "access", sub) ->
        session_rows access_token w = session :: rest ->
        session_expires_at session < now w ->
        validate_session access_token w
        = (Ok None,
           if cache_trips access_token w
           then logged ERROR "Session validation failed" w
           else session_purged (session_id session) access_token w)
        /\ cache (session_purged (session_id session) access_token w)
             !! vendor_session_key access_token = None
        /\ (forall r, r ∈ vendor_sessions
                            (session_purged (session_id session) access_token w) ->
                      session_id r <> session_id session)).
Proof.
  split; [apply validate_session_rejected|].
  intros sub session rest Hq Hd Hrows Hexp. split; [|split].
  - unfold validate_session.
    destruct (cache_trips access_token w) eqn:Htr.
    + eapply eq_trans.
      * eapply try_raise.
        run_with ltac:(apply redis_get_quiet; quiet).
        erewrite bind_raise by (apply cached_session_trips; exact Htr).
        reflexivity.
      * reflexivity.
    + apply try_ok.
      run_with ltac:(apply redis_get_quiet; quiet).
      run_with ltac:(apply cached_session_silent; exact Htr).
      run_pure. rewrite Hd. cbn [option_string_is negb String.eqb Ascii.eqb Bool.eqb].
      run_with ltac:(apply select_session_quiet; quiet). rewrite Hrows.
      run_pure.
      destruct (Z.gtb_spec (now w) (session_expires_at session)); [|lia].
      run_with ltac:(apply delete_session_quiet; quiet).
      run_with ltac:(apply redis_delete_quiet; quiet).
      reflexivity.
  - cbn [cache session_purged set_cache]. apply lookup_delete_eq.
  - cbn [vendor_sessions session_purged set_cache set_vendor_sessions].
    intros r Hr. apply list_elem_of_filter in Hr. destruct Hr as [Hr _].
    destruct (Z.eqb_spec (session_id r) (session_id session)); [contradiction | trivial].
Qed.

End ExpiredTokens.

(** An hour and a second after the demo login attempt the access token is
    rejected: the answer is [None], and the session row of the token is
    still there.  A token that still decodes, with a session row past its
    [expires_at], has the row and the cache entry removed. *)
Lemma validate_session_expired_witness :
  (exists w',
     @AuthService.validate_session Demo.collaborators "access.8.1000.4600"
       (advance 3601 Demo.verified) = (Ok None, w')
     /\ vendor_sessions w' = vendor_sessions (advance 3601 Demo.verified)
     /\ cache w' = cache (advance 3601 Demo.verified))
  /\ @AuthService.validate_session Demo.collaborators "access.2.100.5000"
       Demo.lapsed_session
     = (Ok None,
        if cache_trips "access.2.100.5000" Demo.lapsed_session
        then logged ERROR "Session validation failed" Demo.lapsed_session
        else session_purged
               (session_id
                  (SessionRow 3 2 "access.2.100.5000" "refresh.2.100.900" 900 None))
               "access.2.100.5000" Demo.lapsed_session).
Proof.
  split.
  - exact (proj1 (@validate_session_expired Demo.collaborators "access.8.1000.4600"
                    (advance 3601 Demo.verified)) eq_refl).
  - exact (proj1 (proj2 (@validate_session_expired Demo.collaborators
                           "access.2.100.5000" Demo.lapsed_session)
                        (Some 2)
                        (SessionRow 3 2 "access.2.100.5000" "refresh.2.100.900" 900 None)
                        [] eq_refl eq_refl eq_refl eq_refl)).
Defined.

(** C7 as stated fails.  The access token of the demo login attempt was
    issued at time 1000 for one hour, and its session row was stored.  At
    4601 [jwt.decode] rejects the token and [validate_session] answers
    [None], but the session row is still in the table; and so it is a day
    later. *)
Lemma validate_session_after_token_ttl :
  @jwt_decode Demo.collaborators "access.8.1000.4600"
    (now (advance 3601 Demo.verified)) = None
  /\ fst (@AuthService.validate_session Demo.collaborators "access.8.1000.4600"
            (advance 3601 Demo.verified))
     = Ok None
  /\ vendor_sessions
       (snd (@AuthService.validate_session Demo.collaborators "access.8.1000.4600"
               (advance 3601 Demo.verified)))
     = [SessionRow 9 8 "access.8.1000.4600" "refresh.8.1000.2593000" 2593000 None]
  /\ fst (@AuthService.validate_session Demo.collaborators "access.8.1000.4600"
            (advance 86401 Demo.verified))
     = Ok None
  /\ vendor_sessions
       (snd (@AuthService.validate_session Demo.collaborators "access.8.1000.4600"
               (advance 86401 Demo.verified)))
     = [SessionRow 9 8 "access.8.1000.4600" "refresh.8.1000.2593000" 2593000 None].
Proof. repeat split; vm_compute; reflexivity. Qed.

(** ** The brute-force guard and the route handler *)

Section Ignores.
Context `{Collaborators}.

Lemma ignores_ret k {A} (a : A) : ignores k (ret a).
Proof. intros o w. reflexivity. Qed.

Lemma ignores_raise k {A} e : ignores k (@raise A e).
Proof. intros o w. reflexivity. Qed.

Lemma ignores_bind k {A B} (m : M A) (f : A -> M B) :
  ignores k m -> (forall a, ignores k (f a)) -> ignores k (bind m f).
Proof.
  intros Hm Hf o w. unfold bind. rewrite Hm.
  destruct (m w) as [[a|e] w1]; cbn [fst snd].
  - apply Hf.
  - reflexivity.
Qed.

Lemma ignores_try k {A} (m : M A) h :
  ignores k m -> (forall e, ignores k (h e)) -> ignores k (try_catch m h).
Proof.
  intros Hm Hh o w. unfold try_catch. rewrite Hm.
  destruct (m w) as [[a|e] w1]; cbn [fst snd].
  - reflexivity.
  - apply Hh.
Qed.

Lemma ignores_round_trip k : ignores k round_trip.
Proof.
  intros o w. unfold round_trip. cbn [faults poke set_cache].
  destruct (faults w) as [|[] fs]; reflexivity.
Qed.

Lemma ignores_time k : ignores k time_time.
Proof. intros o w. reflexivity. Qed.

Lemma ignores_logger k lvl what : ignores k (logger lvl what).
Proof. intros o w. reflexivity. Qed.

Lemma ignores_randbelow k n : ignores k (randbelow n).
Proof. intros o w. reflexivity. Qed.

(** A step that leaves the cache alone and does not look at it. *)
Lemma ignores_pure k {A} (f : World -> result A * World) :
  (forall o w, f (poke k o w) = (fst (f w), poke k o (snd (f w)))) ->
  ignores k (round_trip ;;; f).
Proof.
  intros Hf. apply ignores_bind; [apply ignores_round_trip|].
  intros _. exact Hf.
Qed.

Lemma cache_lookup_poke k o w k' :
  k <> k' -> cache_lookup (poke k o w) k' = cache_lookup w k'.
Proof.
  intros Hk. unfold cache_lookup, cache_entry. cbn [cache now poke set_cache].
  now rewrite lookup_partial_alter_ne.
Qed.

Lemma ignores_redis_get k k' : k <> k' -> ignores k (redis_get k').
Proof.
  intros Hk. unfold redis_get. apply ignores_pure.
  intros o w. cbn [fst snd]. now rewrite cache_lookup_poke.
Qed.

Lemma poke_insert k o k' e w :
  k <> k' ->
  set_cache (<[k' := e]> (cache (poke k o w))) (poke k o w)
  = poke k o (set_cache (<[k' := e]> (cache w)) w).
Proof.
  intros Hk. unfold poke. cbn [cache set_cache]. unfold set_cache. cbn.
  f_equal. now rewrite partial_alter_insert_ne.
Qed.

Lemma poke_delete k o k' w :
  k <> k' ->
  set_cache (delete k' (cache (poke k o w))) (poke k o w)
  = poke k o (set_cache (delete k' (cache w)) w).
Proof.
  intros Hk. unfold poke. cbn [cache set_cache]. unfold set_cache. cbn.
  f_equal. now rewrite partial_alter_delete_ne.
Qed.

Lemma ignores_redis_setex k k' ttl v : k <> k' -> ignores k (redis_setex k' ttl v).
Proof.
  intros Hk. unfold redis_setex. apply ignores_bind; [apply ignores_round_trip|].
  intros _. destruct ttl as [t|q]; [|destruct (float_ttl q) as [t|]].
  - intros o w. unfold cache_put. cbn [fst snd]. f_equal. now apply poke_insert.
  - intros o w. unfold cache_put. cbn [fst snd]. f_equal. now apply poke_insert.
  - apply ignores_raise.
Qed.

Lemma ignores_redis_delete k k' : k <> k' -> ignores k (redis_delete k').
Proof.
  intros Hk. unfold redis_delete. apply ignores_pure.
  intros o w. cbn [fst snd]. f_equal. now apply poke_delete.
Qed.

End Ignores.

Section GuardNotConsulted.
Context `{Collaborators}.
Import AuthService BruteForceProtection.

(** The keys of the guard are not keys of the OTP service. *)
Lemma guard_keys_apart identifier endpoint token :
  lockout_key identifier endpoint <> otp_token_key token
  /\ lockout_key identifier endpoint <> vendor_session_key token
  /\ failed_attempts_key identifier endpoint <> otp_token_key token
  /\ failed_attempts_key identifier endpoint <> vendor_session_key token.
Proof.
  unfold lockout_key, failed_attempts_key, otp_token_key, vendor_session_key.
  repeat split; cbn; discriminate.
Qed.

Ltac ignores_db := apply ignores_pure; intros; reflexivity.

Ltac ignores_step side :=
  first
    [ apply ignores_ret
    | apply ignores_raise
    | apply ignores_time
    | apply ignores_logger
    | apply ignores_randbelow
    | ignores_db
    | apply ignores_redis_get; solve [side]
    | apply ignores_redis_delete; solve [side]
    | apply ignores_redis_setex; solve [side]
    | apply ignores_try
    | apply ignores_bind
    | match goal with
      | |- ignores _ (match ?x with _ => _ end) => destruct x
      | |- forall _, _ => intro
      end ].

Lemma ignores_get_or_create_vendor k identifier :
  ignores k (_get_or_create_vendor identifier).
Proof.
  unfold _get_or_create_vendor, select_vendor_by_phone, select_vendor_by_email,
    touch_vendor, insert_vendor.
  repeat ignores_step idtac.
Qed.

Lemma ignores_create_vendor_session k vid access refresh :
  k <> vendor_session_key access ->
  ignores k (_create_vendor_session vid access refresh).
Proof.
  intros Hk. unfold _create_vendor_session, insert_session.
  repeat ignores_step assumption.
Qed.

(** [verify_otp] reads the cache under the key of its token and nowhere
    else; the keys of sessions, where it means to write, are set aside as
    well. *)
Lemma ignores_verify_otp k token otp :
  k <> otp_token_key token ->
  (forall access, k <> vendor_session_key access) ->
  ignores k (AuthService.verify_otp token otp).
Proof.
  intros Hk Hs. unfold AuthService.verify_otp, _generate_jwt_tokens, select_otp, update_otp.
  repeat first [ apply ignores_get_or_create_vendor
               | apply ignores_create_vendor_session; apply Hs
               | ignores_step assumption ].
Qed.

Lemma ignores_handler k token otp :
  k <> otp_token_key token ->
  (forall access, k <> vendor_session_key access) ->
  ignores k (Endpoints.verify_otp token otp).
Proof.
  intros Hk Hs. unfold Endpoints.verify_otp.
  apply ignores_try; [now apply ignores_verify_otp|].
  intros e. repeat ignores_step idtac.
Qed.

End GuardNotConsulted.

Section Guard.
Context `{Collaborators}.
Import BruteForceProtection.

Lemma failed_lockout_keys_differ identifier endpoint :
  failed_attempts_key identifier endpoint <> lockout_key identifier endpoint.
Proof. unfold failed_attempts_key, lockout_key. cbn. discriminate. Qed.

(** The failure that brings the count to the threshold or beyond. *)
Lemma record_failed_attempt_quiet identifier endpoint w n :
  faults w = [] ->
  redis_ready w = true ->
  cache_lookup w (failed_attempts_key identifier endpoint) = Some (CNum n) ->
  5 <= n + 1 ->
  record_failed_attempt identifier endpoint w
  = (Ok tt, locked_out identifier endpoint (n + 1)
              (Z.min (900 * 2 ^ (n + 1 - 5)) 3600) w).
Proof.
  intros Hq Hr Hc Hf. unfold record_failed_attempt. apply try_ok.
  run_with ltac:(apply get_redis_ready; assumption).
  run_with ltac:(apply redis_get_quiet; assumption).
  rewrite Hc. cbn [int_or_zero truthy py_int]. run_pure.
  rewrite (duration_for_threshold (n + 1) Hf).
  run_with ltac:(apply redis_setex_quiet; assumption).
  unfold max_failed_attempts.
  destruct (Z.geb_spec (n + 1) 5) as [_|]; [|lia].
  run_pure. cbn [py_add_int cval_of now set_cache].
  run_with ltac:(apply redis_setex_quiet; quiet).
  reflexivity.
Qed.

Lemma is_locked_out_active identifier endpoint w u x :
  faults w = [] ->
  redis_ready w = true ->
  cache w !! lockout_key identifier endpoint = Some (CEntry (CNum u) (Some x)) ->
  now w < x -> now w < u ->
  is_locked_out identifier endpoint w = (Ok (true, u - now w), w).
Proof.
  intros Hq Hr Hc Hx Hu. unfold is_locked_out. apply try_ok.
  run_with ltac:(apply get_redis_ready; assumption).
  run_with ltac:(apply redis_get_quiet; assumption).
  rewrite (cache_lookup_live w _ _ _ Hc Hx). cbn [truthy negb py_int].
  run_pure. run_pure.
  destruct (Z.ltb_spec (now w) u); [reflexivity | lia].
Qed.

Lemma is_locked_out_clear identifier endpoint w :
  faults w = [] ->
  redis_ready w = true ->
  cache w !! lockout_key identifier endpoint = None ->
  is_locked_out identifier endpoint w = (Ok (false, 0), w).
Proof.
  intros Hq Hr Hc. unfold is_locked_out. apply try_ok.
  run_with ltac:(apply get_redis_ready; assumption).
  run_with ltac:(apply redis_get_quiet; assumption).
  unfold cache_lookup, cache_entry. rewrite Hc. reflexivity.
Qed.

Lemma clear_failed_attempts_quiet identifier endpoint w :
  faults w = [] ->
  redis_ready w = true ->
  clear_failed_attempts identifier endpoint w
  = (Ok tt,
     set_cache (delete (lockout_key identifier endpoint)
                  (delete (failed_attempts_key identifier endpoint) (cache w))) w).
Proof.
  intros Hq Hr. unfold clear_failed_attempts. apply try_ok.
  run_with ltac:(apply get_redis_ready; assumption).
  run_with ltac:(apply redis_delete_quiet; assumption).
  rewrite redis_delete_quiet by quiet. reflexivity.
Qed.

(** C4 (amended): the verify-otp handler does not consult the brute-force
    guard.  Whatever stands in the cache under the lockout key and the
    failure-counter key of an identity and endpoint, the handler gives the
    same answer and leaves both entries as they were: it neither rejects on
    a lockout, nor records a failure, nor clears the counters.  The guard
    itself locks when it is driven: the recorded failure that brings the
    count to five or more sets a lockout during which [is_locked_out]
    answers "locked" with the remaining seconds, without touching the
    window counters of the rate limiter, and [clear_failed_attempts] ends
    it. *)
Theorem guard_is_not_consulted identifier endpoint token otp :
  ignores (lockout_key identifier endpoint) (Endpoints.verify_otp token otp)
  /\ ignores (failed_attempts_key identifier endpoint) (Endpoints.verify_otp token otp)
  /\ (forall w n,
        faults w = [] ->
        redis_ready w = true ->
        cache_lookup w (failed_attempts_key identifier endpoint) = Some (CNum n) ->
        5 <= n + 1 ->
        let d := Z.min (900 * 2 ^ (n + 1 - 5)) 3600 in
        let w' := locked_out identifier endpoint (n + 1) d w in
        record_failed_attempt identifier endpoint w = (Ok tt, w')
        /\ (forall t, 0 <= t < d ->
              is_locked_out identifier endpoint (advance t w')
              = (Ok (true, d - t), advance t w'))
        /\ (forall client t,
              cache w' !! RateLimitMiddleware.minute_key client t
              = cache w !! RateLimitMiddleware.minute_key client t
              /\ cache w' !! RateLimitMiddleware.hour_key client t
                 = cache w !! RateLimitMiddleware.hour_key client t)
        /\ (exists w'',
              clear_failed_attempts identifier endpoint w' = (Ok tt, w'')
              /\ is_locked_out identifier endpoint w'' = (Ok (false, 0), w''))).
Proof.
  split; [|split].
  - apply ignores_handler; intros; apply (guard_keys_apart identifier endpoint).
  - apply ignores_handler; intros; apply (guard_keys_apart identifier endpoint).
  - intros w n Hq Hr Hc Hf d w'. split; [|split; [|split]].
    + now apply record_failed_attempt_quiet.
    + intros t Ht.
      rewrite (is_locked_out_active identifier endpoint (advance t w')
                 (now w + d) (now w + d)).
      * cbn [now advance locked_out logged set_log set_cache].
        change (now w') with (now w).
        replace (now w + d - (now w + t)) with (d - t) by lia. reflexivity.
      * exact Hq.
      * exact Hr.
      * subst w'. cbn [cache advance locked_out logged set_log set_cache].
        apply lookup_insert_eq.
      * subst w'. cbn [now advance locked_out logged set_log set_cache]. lia.
      * subst w'. cbn [now advance locked_out logged set_log set_cache]. lia.
    + intros client t. subst w'. cbn [cache locked_out logged set_log set_cache].
      split; rewrite !lookup_insert_ne; trivial;
        unfold lockout_key, failed_attempts_key, RateLimitMiddleware.minute_key,
          RateLimitMiddleware.hour_key; cbn; discriminate.
    + eexists. split.
      * apply clear_failed_attempts_quiet; [exact Hq | exact Hr].
      * apply is_locked_out_clear; [exact Hq | exact Hr |].
        cbn [cache set_cache]. apply lookup_delete_eq.
Qed.

End Guard.


(** Once the guard has been told of a fifth failure of the demo client on
    the verify-otp route, it answers "locked" for the next 900 seconds,
    and the handler answers the same whether that lockout is in the cache
    or not. *)
Lemma guard_is_not_consulted_witness :
  BruteForceProtection.is_locked_out Demo.client Demo.verify_path
    (advance 60 (locked_out Demo.client Demo.verify_path 5 900
                   Demo.four_failed_verifications))
  = (Ok (true, 840),
     advance 60 (locked_out Demo.client Demo.verify_path 5 900
                   Demo.four_failed_verifications))
  /\ @Endpoints.verify_otp Demo.collaborators "tok-1" "482913"
       (poke (BruteForceProtection.lockout_key Demo.client Demo.verify_path)
             None Demo.fifth_failure_recorded)
     = (fst (@Endpoints.verify_otp Demo.collaborators "tok-1" "482913"
               Demo.fifth_failure_recorded),
        poke (BruteForceProtection.lockout_key Demo.client Demo.verify_path) None
          (snd (@Endpoints.verify_otp Demo.collaborators "tok-1" "482913"
                  Demo.fifth_failure_recorded))).
Proof.
  pose proof (@guard_is_not_consulted Demo.collaborators Demo.client Demo.verify_path
                "tok-1" "482913") as (Hlock & _ & Hguard).
  split.
  - destruct (Hguard Demo.four_failed_verifications 4 eq_refl eq_refl eq_refl
                ltac:(lia)) as (_ & Hactive & _).
    exact (Hactive 60 ltac:(vm_compute; split; congruence)).
  - exact (Hlock None Demo.fifth_failure_recorded).
Defined.

(** C4 as stated fails.  With the lockout of the demo client in force on
    the verify-otp route, the handler takes the request all the same: a
    wrong code is compared and counted, and the correct code is accepted
    and the record marked verified (the answer being the 400 of the
    session that cannot be cached, not a lockout).  And five failed
    requests in a row leave no trace with the guard: no failure count, no
    lockout, and the sixth request is taken likewise. *)
Lemma locked_out_client_is_served :
  fst (BruteForceProtection.is_locked_out Demo.client Demo.verify_path
         Demo.fifth_failure_recorded)
  = Ok (true, 900)
  /\ fst (@Endpoints.verify_otp Demo.collaborators "tok-1" "111111"
            Demo.fifth_failure_recorded)
     = Raise (HTTPException 400 (MInvalidOtp 2) [])
  /\ fst (@Endpoints.verify_otp Demo.collaborators "tok-1" "482913"
            Demo.fifth_failure_recorded)
     = Raise (HTTPException 400 MFailedSession [])
  /\ otp_verifications
       (snd (@Endpoints.verify_otp Demo.collaborators "tok-1" "482913"
               Demo.fifth_failure_recorded))
     = [OtpRow 7 "asha@example.com" "hash:482913" 1 true 1300]
  /\ fst (@Endpoints.verify_otp Demo.collaborators "no-such-token" "000000" Demo.world)
     = Raise (HTTPException 400 MInvalidToken [])
  /\ cache Demo.five_bad_requests = cache Demo.world
  /\ fst (BruteForceProtection.is_locked_out Demo.client Demo.verify_path
            Demo.five_bad_requests)
     = Ok (false, 0)
  /\ fst (@Endpoints.verify_otp Demo.collaborators "tok-1" "111111"
            Demo.five_bad_requests)
     = Raise (HTTPException 400 (MInvalidOtp 2) []).
Proof. repeat split; vm_compute; reflexivity. Qed.

(** * Further properties *)

(** ** Decimal text and the keys built from it *)

Section DecimalRoundTrip.

Lemma digit_char_value d :
  0 <= d <= 9 ->
  AuthService.is_digit (digit_char d) = true
  /\ Z.of_nat (nat_of_ascii (digit_char d)) - 48 = d.
Proof.
  intros Hd.
  assert (d = 0 \/ d = 1 \/ d = 2 \/ d = 3 \/ d = 4 \/ d = 5 \/ d = 6 \/ d = 7
          \/ d = 8 \/ d = 9) as Hc by lia.
  repeat (destruct Hc as [->|Hc]; [split; reflexivity|]).
  subst. split; reflexivity.
Qed.

Lemma parse_digit_char d s a :
  0 <= d <= 9 ->
  Demo.parse_digits (String (digit_char d) s) a = Demo.parse_digits s (10 * a + d).
Proof.
  intros Hd. destruct (digit_char_value d Hd) as [Hdig Hval].
  cbn [Demo.parse_digits]. now rewrite Hdig, Hval.
Qed.

Lemma parse_digits_fuel fuel :
  forall n acc a,
    Demo.parse_digits (digits_fuel fuel n acc) a
    = Demo.parse_digits acc (shift_fuel fuel a n).
Proof.
  induction fuel as [|fuel IH]; intros n acc a; cbn [digits_fuel shift_fuel];
    pose proof (Z.mod_pos_bound n 10 ltac:(lia)) as Hm.
  - apply parse_digit_char. lia.
  - destruct (n <? 10).
    + apply parse_digit_char. lia.
    + rewrite IH. apply parse_digit_char. lia.
Qed.

Lemma shift_fuel_exact fuel :
  forall n, 0 <= n < 10 ^ (Z.of_nat fuel + 1) -> shift_fuel fuel 0 n = n.
Proof.
  induction fuel as [|fuel IH]; intros n Hn; cbn [shift_fuel].
  - change (10 ^ (Z.of_nat 0 + 1)) with 10 in Hn.
    rewrite Z.mod_small by lia. lia.
  - destruct (Z.ltb_spec n 10) as [Hlt|Hge].
    + rewrite Z.mod_small by lia. lia.
    + rewrite IH.
      * pose proof (Z.div_mod n 10 ltac:(lia)). lia.
      * split; [apply Z.div_pos; lia|].
        apply Z.div_lt_upper_bound; [lia|].
        replace (Z.of_nat (S fuel) + 1) with (Z.succ (Z.of_nat fuel + 1)) in Hn by lia.
        rewrite Z.pow_succ_r in Hn by lia. lia.
Qed.

Lemma below_pow10_log2 n : 0 <= n -> n < 10 ^ (Z.of_nat (Z.to_nat (Z.log2 n)) + 1).
Proof.
  intros Hn. rewrite Z2Nat.id by apply Z.log2_nonneg.
  destruct (Z.eq_dec n 0) as [->|Hz]; [reflexivity|].
  pose proof (Z.log2_spec n ltac:(lia)) as [_ Hup].
  pose proof (Z.log2_nonneg n).
  replace (Z.succ (Z.log2 n)) with (Z.log2 n + 1) in Hup by lia.
  eapply Z.lt_le_trans; [exact Hup|].
  apply Z.pow_le_mono_l. lia.
Qed.

(** Reading the decimal text of a natural number gives the number back. *)
Lemma parse_digits_digits n : 0 <= n -> Demo.parse_digits (digits n) 0 = Some n.
Proof.
  intros Hn. unfold digits. rewrite parse_digits_fuel.
  cbn [Demo.parse_digits]. f_equal.
  apply shift_fuel_exact. split; [exact Hn | now apply below_pow10_log2].
Qed.

Lemma append_inj_l (p s1 s2 : string) : p +:+ s1 = p +:+ s2 -> s1 = s2.
Proof.
  induction p as [|c p IH]; cbn [String.append]; intros E.
  - exact E.
  - inversion E. auto.
Qed.

Lemma str_int_inj z1 z2 : str_int z1 = str_int z2 -> z1 = z2.
Proof.
  unfold str_int.
  destruct (Z.ltb_spec z1 0) as [H1|H1]; destruct (Z.ltb_spec z2 0) as [H2|H2];
    intros E.
  - apply append_inj_l in E. rename E into E'.
    pose proof (parse_digits_digits (- z1) ltac:(lia)) as P1.
    pose proof (parse_digits_digits (- z2) ltac:(lia)) as P2.
    rewrite E' in P1. rewrite P1 in P2. inversion P2. lia.
  - pose proof (parse_digits_digits z2 H2) as P2. rewrite <- E in P2. discriminate.
  - pose proof (parse_digits_digits z1 H1) as P1. rewrite E in P1. discriminate.
  - pose proof (parse_digits_digits z1 H1) as P1.
    pose proof (parse_digits_digits z2 H2) as P2.
    rewrite E in P1. rewrite P1 in P2. now inversion P2.
Qed.

(** Text that reads as a number holds no colon. *)
Lemma parsed_has_no_colon s : forall a v,
  Demo.parse_digits s a = Some v -> rsplit_colon s = None.
Proof.
  induction s as [|c s IH]; intros a v; cbn [Demo.parse_digits rsplit_colon].
  - reflexivity.
  - destruct (AuthService.is_digit c) eqn:Hd; [|discriminate].
    intros E. rewrite (IH _ _ E).
    destruct (Ascii.eqb_spec c ":"%char) as [->|]; [discriminate | reflexivity].
Qed.

Lemma str_int_has_no_colon z : rsplit_colon (str_int z) = None.
Proof.
  unfold str_int. destruct (Z.ltb_spec z 0) as [Hz|Hz].
  - change ("-" +:+ digits (- z)) with (String "-" (digits (- z))).
    cbn [rsplit_colon].
    rewrite (parsed_has_no_colon _ _ _ (parse_digits_digits (- z) ltac:(lia))).
    reflexivity.
  - exact (parsed_has_no_colon _ _ _ (parse_digits_digits z Hz)).
Qed.

Lemma rsplit_colon_append a d :
  rsplit_colon d = None -> rsplit_colon (a +:+ ":" +:+ d) = Some (a, d).
Proof.
  intros Hd. induction a as [|c a IH].
  - change ("" +:+ ":" +:+ d) with (String ":" d).
    cbn [rsplit_colon]. now rewrite Hd.
  - change (String c a +:+ ":" +:+ d) with (String c (a +:+ ":" +:+ d)).
    cbn [rsplit_colon]. now rewrite IH.
Qed.

(** A key [prefix ++ identifier ++ ":" ++ str(n)] determines both the
    identifier and the number. *)
Lemma numbered_key_inj prefix id1 id2 n1 n2 :
  prefix +:+ id1 +:+ ":" +:+ str_int n1 = prefix +:+ id2 +:+ ":" +:+ str_int n2 ->
  id1 = id2 /\ n1 = n2.
Proof.
  intros E. apply append_inj_l in E.
  pose proof (rsplit_colon_append id1 _ (str_int_has_no_colon n1)) as R1.
  pose proof (rsplit_colon_append id2 _ (str_int_has_no_colon n2)) as R2.
  rewrite E in R1. rewrite R1 in R2. inversion R2 as [[Hid Hn]].
  split; [reflexivity | now apply str_int_inj].
Qed.

End DecimalRoundTrip.

(** ** The window counters of the rate limiter *)

Section WindowCounters.
Context `{Collaborators}.
Import RateLimitMiddleware.

(** X1: two requests use the same minute counter exactly when they have
    the same client identifier and fall into the same 60-second window,
    and the same hour counter exactly when they have the same identifier
    and fall into the same 3600-second window; no minute counter is an
    hour counter. *)
Theorem window_keys_apart id1 id2 t1 t2 :
  (minute_key id1 t1 = minute_key id2 t2 <-> id1 = id2 /\ t1 / 60 = t2 / 60)
  /\ (hour_key id1 t1 = hour_key id2 t2 <-> id1 = id2 /\ t1 / 3600 = t2 / 3600)
  /\ minute_key id1 t1 <> hour_key id2 t2.
Proof.
  split; [|split].
  - split.
    + unfold minute_key. apply numbered_key_inj.
    + intros [-> E]. unfold minute_key. now rewrite E.
  - split.
    + unfold hour_key. apply numbered_key_inj.
    + intros [-> E]. unfold hour_key. now rewrite E.
  - unfold minute_key, hour_key. cbn. discriminate.
Qed.

(** X2: counting an admitted request changes the two counters of its own
    client and current windows and nothing else: the counters of every
    other client, and of every other minute or hour of the same client,
    read as before.  Each of the two counters is raised by one when the
    cache can raise it.  A counter at the end of the 64-bit range is
    refused: it stays as it is and the error is logged, not raised; and
    when it is the minute counter that is refused, the hour counter, which
    comes after it, is not raised either. *)
Theorem increment_counters_is_local identifier mc hc w :
  faults w = [] ->
  redis_ready w = true ->
  count_reply (cache_lookup w (minute_key identifier (now w))) = Some mc ->
  count_reply (cache_lookup w (hour_key identifier (now w))) = Some hc ->
  exists w',
    _increment_counters identifier w = (Ok tt, w')
    /\ (if incrementable mc
        then cache_lookup w' (minute_key identifier (now w)) = Some (CNum (mc + 1))
        else cache w' = cache w)
    /\ (if incrementable mc && incrementable hc
        then cache_lookup w' (hour_key identifier (now w)) = Some (CNum (hc + 1))
        else cache_lookup w' (hour_key identifier (now w))
             = cache_lookup w (hour_key identifier (now w)))
    /\ (if incrementable mc && incrementable hc
        then log w' = log w
        else log w' = (ERROR, "Failed to increment rate limit counters") :: log w)
    /\ (forall other t,
          other <> identifier \/ t / 60 <> now w / 60 ->
          cache_lookup w' (minute_key other t) = cache_lookup w (minute_key other t))
    /\ (forall other t,
          other <> identifier \/ t / 3600 <> now w / 3600 ->
          cache_lookup w' (hour_key other t) = cache_lookup w (hour_key other t)).
Proof.
  intros Hq Hr Hm Hh. exists (counted identifier mc hc w).
  destruct (counted_lookups identifier mc hc w) as (L1 & L2 & L3).
  split; [now apply increment_counters_quiet|].
  split; [exact L1|]. split; [exact L2|].
  split.
  { unfold counted. destruct (incrementable mc), (incrementable hc); reflexivity. }
  assert (Hnow : now (counted identifier mc hc w) = now w).
  { unfold counted. destruct (incrementable mc), (incrementable hc); reflexivity. }
  split; intros other t Hne; unfold cache_lookup, cache_entry; rewrite Hnow.
  - rewrite L3; [reflexivity| |].
    + intros E. unfold minute_key in E. apply numbered_key_inj in E. tauto.
    + unfold minute_key, hour_key. cbn. discriminate.
  - rewrite L3; [reflexivity| |].
    + unfold minute_key, hour_key. cbn. discriminate.
    + intros E. unfold hour_key in E. apply numbered_key_inj in E. tauto.
Qed.

Lemma next_window_bounds t n :
  0 < n -> 1 <= (t / n + 1) * n - t <= n.
Proof.
  intros Hn. pose proof (Z.div_mod t n ltac:(lia)) as E.
  pose proof (Z.mod_pos_bound t n Hn). nia.
Qed.

(** X3: a rejection names the exhausted window, the minute window first,
    and tells the client when to come back: the reset instant is the start
    of the next window, and the retry delay is the time left until then,
    between 1 and 60 seconds for the minute window and between 1 and 3600
    seconds for the hour window. *)
Theorem dispatch_rejection_details self request call_next w mc hc :
  faults w = [] ->
  redis_ready w = true ->
  exempt (url_path request) = false ->
  let identifier := _get_client_identifier request in
  count_reply (cache_lookup w (minute_key identifier (now w))) = Some mc ->
  count_reply (cache_lookup w (hour_key identifier (now w))) = Some hc ->
  let ml := fst (limits_for self (url_path request)) in
  let hl := snd (limits_for self (url_path request)) in
  let retry_minute := (now w / 60 + 1) * 60 - now w in
  let retry_hour := (now w / 3600 + 1) * 3600 - now w in
  (ml <= mc ->
   dispatch self request call_next w
   = (Raise (HTTPException 429 (MRateLimited retry_minute)
               [("X-RateLimit-Limit", str_int ml);
                ("X-RateLimit-Remaining", "0");
                ("X-RateLimit-Reset", str_int ((now w / 60 + 1) * 60));
                ("Retry-After", str_int retry_minute)]),
      logged WARNING "Rate limit exceeded" w))
  /\ (mc < ml -> hl <= hc ->
      dispatch self request call_next w
      = (Raise (HTTPException 429 (MRateLimited retry_hour)
                  [("X-RateLimit-Limit", str_int hl);
                   ("X-RateLimit-Remaining", "0");
                   ("X-RateLimit-Reset", str_int ((now w / 3600 + 1) * 3600));
                   ("Retry-After", str_int retry_hour)]),
         logged WARNING "Rate limit exceeded" w))
  /\ 1 <= retry_minute <= 60
  /\ 1 <= retry_hour <= 3600.
Proof.
  intros Hq Hr Hx identifier Hm Hh ml hl retry_minute retry_hour.
  assert (Hcheck := check_rate_limit_quiet self identifier (url_path request)
                      mc hc w Hq Hr Hm Hh).
  subst ml hl. destruct (limits_for self (url_path request)) as [ml hl].
  cbn [fst snd].
  split; [|split; [|split]].
  - intros Hge. unfold dispatch. rewrite Hx. fold identifier.
    rewrite (bind_ok _ _ _ _ _ Hcheck).
    destruct (Z.geb_spec mc ml); [|lia]. reflexivity.
  - intros Hlt Hge. unfold dispatch. rewrite Hx. fold identifier.
    rewrite (bind_ok _ _ _ _ _ Hcheck).
    destruct (Z.geb_spec mc ml); [lia|].
    destruct (Z.geb_spec hc hl); [|lia]. reflexivity.
  - apply next_window_bounds. lia.
  - apply next_window_bounds. lia.
Qed.

End WindowCounters.

(** The sixty-first request of the demo client at time 1000 is told to
    come back in 20 seconds, at 1020. *)
Lemma dispatch_rejection_details_witness :
  @RateLimitMiddleware.dispatch Demo.collaborators Demo.limiter
    Demo.profile_request Demo.app Demo.minute_used_up
  = (Raise (HTTPException 429 (MRateLimited 20)
              [("X-RateLimit-Limit", "60");
               ("X-RateLimit-Remaining", "0");
               ("X-RateLimit-Reset", "1020");
               ("Retry-After", "20")]),
     logged WARNING "Rate limit exceeded" Demo.minute_used_up).
Proof.
  exact (proj1 (@dispatch_rejection_details Demo.collaborators Demo.limiter
                  Demo.profile_request Demo.app Demo.minute_used_up 60 60
                  eq_refl eq_refl eq_refl eq_refl eq_refl)
               ltac:(vm_compute; congruence)).
Defined.

(** Counting a request of the demo client in an empty cache leaves one
    request on each of its two counters. *)
Lemma increment_counters_is_local_witness :
  exists w',
    RateLimitMiddleware._increment_counters Demo.client Demo.lapsed_session
    = (Ok tt, w')
    /\ (if incrementable 0
        then cache_lookup w' (RateLimitMiddleware.minute_key Demo.client
                                (now Demo.lapsed_session))
             = Some (CNum (0 + 1))
        else cache w' = cache Demo.lapsed_session)
    /\ (if incrementable 0 && incrementable 0
        then cache_lookup w' (RateLimitMiddleware.hour_key Demo.client
                                (now Demo.lapsed_session))
             = Some (CNum (0 + 1))
        else cache_lookup w' (RateLimitMiddleware.hour_key Demo.client
                                (now Demo.lapsed_session))
             = cache_lookup Demo.lapsed_session
                 (RateLimitMiddleware.hour_key Demo.client (now Demo.lapsed_session)))
    /\ (if incrementable 0 && incrementable 0
        then log w' = log Demo.lapsed_session
        else log w'
             = (ERROR, "Failed to increment rate limit counters")
               :: log Demo.lapsed_session)
    /\ (forall other t,
          other <> Demo.client \/ t / 60 <> now Demo.lapsed_session / 60 ->
          cache_lookup w' (RateLimitMiddleware.minute_key other t)
          = cache_lookup Demo.lapsed_session (RateLimitMiddleware.minute_key other t))
    /\ (forall other t,
          other <> Demo.client \/ t / 3600 <> now Demo.lapsed_session / 3600 ->
          cache_lookup w' (RateLimitMiddleware.hour_key other t)
          = cache_lookup Demo.lapsed_session (RateLimitMiddleware.hour_key other t)).
Proof.
  exact (increment_counters_is_local Demo.client 0 0
           Demo.lapsed_session eq_refl eq_refl eq_refl eq_refl).
Defined.

(** A minute counter at the end of the range: the request is not counted
    in either window, and the error is logged. *)
Example increment_counters_at_the_end :
  RateLimitMiddleware._increment_counters Demo.client Cases.minute_counter_at_the_end
  = (Ok tt,
     logged ERROR "Failed to increment rate limit counters"
       Cases.minute_counter_at_the_end).
Proof. vm_compute. reflexivity. Qed.

(** ** More on the brute-force guard *)

Section GuardAnswers.
Context `{Collaborators}.
Import BruteForceProtection.

Lemma py_int_inv v w z w1 : py_int v w = (Ok z, w1) -> v = CNum z /\ w1 = w.
Proof.
  destruct v; cbn; intros E; inversion E; auto.
Qed.

(** X4: whatever the cache holds and whatever fails, [is_locked_out]
    answers either "locked" with a positive number of remaining seconds,
    read off a timestamp in the cache that lies that far in the future, or
    "not locked" with 0. *)
Theorem is_locked_out_answer identifier endpoint w :
  exists b r w',
    is_locked_out identifier endpoint w = (Ok (b, r), w')
    /\ (b = true ->
        0 < r
        /\ cache_lookup w (lockout_key identifier endpoint) = Some (CNum (now w + r)))
    /\ (b = false -> r = 0).
Proof.
  unfold is_locked_out, try_catch.
  match goal with
  | |- context [match ?body w with _ => _ end] => destruct (body w) as [[[b r]|e] w1] eqn:E
  end.
  2:{ eexists false, 0, _. split; [reflexivity|]. split; [discriminate | reflexivity]. }
  exists b, r, w1. split; [reflexivity|].
  apply bind_inv_ok in E. destruct E as (u & w0 & Eg & E).
  assert (w0 = w) as ->.
  { unfold get_redis in Eg. destruct (redis_ready w); inversion Eg; reflexivity. }
  apply bind_inv_ok in E. destruct E as (reply & w2 & Er & E).
  apply redis_get_inv in Er. destruct Er as (-> & _ & _ & Hn).
  destruct (cache_lookup w (lockout_key identifier endpoint)) as [v|] eqn:Hc.
  2:{ inversion E; subst. split; [discriminate | reflexivity]. }
  destruct (negb (truthy v)).
  { inversion E; subst. split; [discriminate | reflexivity]. }
  apply bind_inv_ok in E. destruct E as (lu & w3 & Ei & E).
  apply py_int_inv in Ei. destruct Ei as (-> & ->).
  unfold bind at 1, time_time at 1 in E. rewrite Hn in E.
  destruct (Z.ltb_spec (now w) lu) as [Hlt|Hge].
  - inversion E; subst. split; [|discriminate].
    intros _. split; [lia|]. do 2 f_equal. lia.
  - apply bind_inv_ok in E. destruct E as (? & ? & _ & E).
    apply bind_inv_ok in E. destruct E as (? & ? & _ & E).
    inversion E; subst. split; [discriminate | reflexivity].
Qed.

(** X5: the lockout set by a recorded failure runs down with the clock:
    [t] seconds later [is_locked_out] answers "locked" with [d - t] seconds
    remaining while [t < d], and "not locked" with 0 from [t = d] on, when
    both entries have expired by themselves. *)
Theorem lockout_runs_down identifier endpoint w n t :
  faults w = [] ->
  redis_ready w = true ->
  cache_lookup w (failed_attempts_key identifier endpoint) = Some (CNum n) ->
  5 <= n + 1 ->
  0 <= t ->
  let d := Z.min (900 * 2 ^ (n + 1 - 5)) 3600 in
  let w' := locked_out identifier endpoint (n + 1) d w in
  record_failed_attempt identifier endpoint w = (Ok tt, w')
  /\ is_locked_out identifier endpoint (advance t w')
     = (Ok (if t <? d then (true, d - t) else (false, 0)), advance t w')
  /\ (d <= t ->
      cache_lookup (advance t w') (lockout_key identifier endpoint) = None
      /\ cache_lookup (advance t w') (failed_attempts_key identifier endpoint) = None).
Proof.
  intros Hq Hr Hc Hf Ht d w'.
  split; [now apply record_failed_attempt_quiet|].
  assert (Hlk : cache (advance t w') !! lockout_key identifier endpoint
                = Some (CEntry (CNum (now w + d)) (Some (now w + d)))).
  { subst w'. cbn [cache advance locked_out logged set_log set_cache].
    apply lookup_insert_eq. }
  assert (Hfk : cache (advance t w') !! failed_attempts_key identifier endpoint
                = Some (CEntry (CNum (n + 1)) (Some (now w + d)))).
  { subst w'. cbn [cache advance locked_out logged set_log set_cache].
    rewrite lookup_insert_ne by (apply not_eq_sym, failed_lockout_keys_differ).
    apply lookup_insert_eq. }
  assert (Hnow : now (advance t w') = now w + t) by reflexivity.
  split.
  - destruct (Z.ltb_spec t d) as [Hlt|Hge].
    + rewrite (is_locked_out_active identifier endpoint (advance t w')
                 (now w + d) (now w + d) Hq Hr Hlk); rewrite ?Hnow; try lia.
      replace (now w + d - (now w + t)) with (d - t) by lia. reflexivity.
    + unfold is_locked_out. apply try_ok.
      run_with ltac:(apply get_redis_ready; exact Hr).
      run_with ltac:(apply redis_get_quiet; exact Hq).
      rewrite (cache_lookup_stale _ _ _ Hlk); [reflexivity|].
      unfold live. cbn [c_expiry]. rewrite Hnow.
      destruct (Z.ltb_spec (now w + t) (now w + d)); [lia | reflexivity].
  - intros Hge. split.
    + apply (cache_lookup_stale _ _ _ Hlk).
      unfold live. cbn [c_expiry]. rewrite Hnow.
      destruct (Z.ltb_spec (now w + t) (now w + d)); [lia | reflexivity].
    + apply (cache_lookup_stale _ _ _ Hfk).
      unfold live. cbn [c_expiry]. rewrite Hnow.
      destruct (Z.ltb_spec (now w + t) (now w + d)); [lia | reflexivity].
Qed.

(** X6: a lockout entry that is still in the cache although its timestamp
    is not in the future is cleaned up on the next check: [is_locked_out]
    deletes it together with the failure counter and answers "not
    locked". *)
Theorem is_locked_out_cleans_up identifier endpoint w u :
  faults w = [] ->
  redis_ready w = true ->
  cache_lookup w (lockout_key identifier endpoint) = Some (CNum u) ->
  u <= now w ->
  is_locked_out identifier endpoint w
  = (Ok (false, 0),
     set_cache (delete (failed_attempts_key identifier endpoint)
                  (delete (lockout_key identifier endpoint) (cache w))) w).
Proof.
  intros Hq Hr Hc Hu. unfold is_locked_out. apply try_ok.
  run_with ltac:(apply get_redis_ready; exact Hr).
  run_with ltac:(apply redis_get_quiet; exact Hq).
  rewrite Hc. cbn [truthy negb py_int]. run_pure. run_pure.
  destruct (Z.ltb_spec (now w) u); [lia|].
  run_with ltac:(apply redis_delete_quiet; exact Hq).
  run_with ltac:(apply redis_delete_quiet; quiet).
  reflexivity.
Qed.

End GuardAnswers.

(** The fifth failure of the demo client locks it for 900 seconds: after
    899 seconds one second remains, and after 900 the guard answers "not
    locked". *)
Lemma lockout_runs_down_witness :
  BruteForceProtection.is_locked_out Demo.client Demo.verify_path
    (advance 899 (locked_out Demo.client Demo.verify_path (4 + 1)
                    (Z.min (900 * 2 ^ (4 + 1 - 5)) 3600)
                    Demo.four_failed_verifications))
  = (Ok (if 899 <? Z.min (900 * 2 ^ (4 + 1 - 5)) 3600
         then (true, Z.min (900 * 2 ^ (4 + 1 - 5)) 3600 - 899) else (false, 0)),
     advance 899 (locked_out Demo.client Demo.verify_path (4 + 1)
                    (Z.min (900 * 2 ^ (4 + 1 - 5)) 3600)
                    Demo.four_failed_verifications))
  /\ BruteForceProtection.is_locked_out Demo.client Demo.verify_path
       (advance 900 (locked_out Demo.client Demo.verify_path (4 + 1)
                       (Z.min (900 * 2 ^ (4 + 1 - 5)) 3600)
                       Demo.four_failed_verifications))
     = (Ok (if 900 <? Z.min (900 * 2 ^ (4 + 1 - 5)) 3600
            then (true, Z.min (900 * 2 ^ (4 + 1 - 5)) 3600 - 900) else (false, 0)),
        advance 900 (locked_out Demo.client Demo.verify_path (4 + 1)
                       (Z.min (900 * 2 ^ (4 + 1 - 5)) 3600)
                       Demo.four_failed_verifications)).
Proof.
  split.
  - exact (proj1 (proj2 (@lockout_runs_down Demo.collaborators Demo.client
                           Demo.verify_path Demo.four_failed_verifications 4 899
                           eq_refl eq_refl eq_refl ltac:(lia) ltac:(lia)))).
  - exact (proj1 (proj2 (@lockout_runs_down Demo.collaborators Demo.client
                           Demo.verify_path Demo.four_failed_verifications 4 900
                           eq_refl eq_refl eq_refl ltac:(lia) ltac:(lia)))).
Defined.

(** A lockout entry with the timestamp 900 that lives until 2000 is
    removed by a check at time 1000. *)
Lemma is_locked_out_cleans_up_witness :
  BruteForceProtection.is_locked_out Demo.client Demo.verify_path Cases.stale_lockout
  = (Ok (false, 0),
     set_cache
       (delete (BruteForceProtection.failed_attempts_key Demo.client Demo.verify_path)
          (delete (BruteForceProtection.lockout_key Demo.client Demo.verify_path)
             (cache Cases.stale_lockout)))
       Cases.stale_lockout).
Proof.
  exact (is_locked_out_cleans_up Demo.client Demo.verify_path Cases.stale_lockout 900
           eq_refl eq_refl eq_refl ltac:(vm_compute; congruence)).
Defined.

Section BelowThreshold.
Context `{Collaborators}.
Import BruteForceProtection.

Lemma redis_setex_float_quiet k q v w :
  faults w = [] ->
  redis_setex k (PyFloat q) v w
  = match float_ttl q with
    | Some t => (Ok tt, set_cache (<[k := CEntry v (Some (now w + t))]> (cache w)) w)
    | None => (Raise StoreError, w)
    end.
Proof.
  intros E. unfold redis_setex.
  rewrite (bind_ok _ _ _ _ _ (round_trip_quiet w E)).
  destruct (float_ttl q); reflexivity.
Qed.

Lemma duration_for_below f :
  1 <= f < 5 ->
  duration_for f = PyFloat (Qmult (inject_Z 900) (Qpower (2 # 1) (f - 5))).
Proof.
  intros Hf.
  assert (f = 1 \/ f = 2 \/ f = 3 \/ f = 4) as [->|[->|[->| ->]]] by lia;
    reflexivity.
Qed.

(** X7: a failure that brings the count to [f] below the threshold of 5
    asks the cache to keep the count for [900 * 2 ** (f - 5)] seconds, a
    float (56.25, 112.5, 225.0 and 450.0 for [f] from 1 to 4).  If the
    cache takes that TTL, the count is stored with it; if the cache refuses
    a TTL that is not an integer, nothing is stored and the error is only
    logged.  Either way no lockout is set. *)
Theorem record_failed_attempt_below_threshold identifier endpoint w n :
  faults w = [] ->
  redis_ready w = true ->
  count_reply (cache_lookup w (failed_attempts_key identifier endpoint)) = Some n ->
  0 <= n < 4 ->
  let f := n + 1 in
  let q := Qmult (inject_Z 900) (Qpower (2 # 1) (f - 5)) in
  duration_for f = PyFloat q
  /\ Qeq q (Qmake 900 (Z.to_pos (2 ^ (5 - f))))
  /\ (float_ttl q = None ->
      record_failed_attempt identifier endpoint w
      = (Ok tt, logged ERROR "Failed to record failed attempt" w))
  /\ (forall t, float_ttl q = Some t ->
      record_failed_attempt identifier endpoint w
      = (Ok tt,
         set_cache (<[failed_attempts_key identifier endpoint :=
                        CEntry (CNum f) (Some (now w + t))]> (cache w)) w))
  /\ cache (snd (record_failed_attempt identifier endpoint w))
       !! lockout_key identifier endpoint
     = cache w !! lockout_key identifier endpoint.
Proof.
  intros Hq Hr Hc Hn f q.
  assert (Hd : duration_for f = PyFloat q) by (apply duration_for_below; lia).
  assert (Hrun : record_failed_attempt identifier endpoint w
                 = match float_ttl q with
                   | Some t =>
                       (Ok tt,
                        set_cache (<[failed_attempts_key identifier endpoint :=
                                       CEntry (CNum f) (Some (now w + t))]> (cache w)) w)
                   | None => (Ok tt, logged ERROR "Failed to record failed attempt" w)
                   end).
  { unfold record_failed_attempt, try_catch.
    run_with ltac:(apply get_redis_ready; exact Hr).
    run_with ltac:(apply redis_get_quiet; exact Hq).
    run_with ltac:(apply int_or_zero_count; exact Hc).
    fold f. rewrite Hd.
    pose proof (redis_setex_float_quiet (failed_attempts_key identifier endpoint)
                  q (CNum f) w Hq) as Es.
    destruct (float_ttl q) as [t|].
    - rewrite (bind_ok _ _ _ _ _ Es).
      unfold max_failed_attempts.
      destruct (Z.geb_spec f 5); [lia|]. reflexivity.
    - rewrite (bind_raise _ _ _ _ _ Es). reflexivity. }
  split; [exact Hd|]. split.
  { subst q f.
    assert (n = 0 \/ n = 1 \/ n = 2 \/ n = 3) as [->|[->|[->| ->]]] by lia;
      reflexivity. }
  split; [|split].
  - intros E. now rewrite Hrun, E.
  - intros t E. now rewrite Hrun, E.
  - rewrite Hrun. destruct (float_ttl q); cbn [snd cache set_cache logged set_log].
    + rewrite lookup_insert_ne by apply failed_lockout_keys_differ. reflexivity.
    + reflexivity.
Qed.

End BelowThreshold.

(** With a cache that refuses a fractional TTL, the first failure of the
    demo client leaves no trace but a log record. *)
Lemma record_failed_attempt_below_threshold_witness :
  @BruteForceProtection.record_failed_attempt Demo.collaborators
    Demo.client Demo.verify_path Demo.world
  = (Ok tt, logged ERROR "Failed to record failed attempt" Demo.world).
Proof.
  exact (proj1 (proj2 (proj2
           (@record_failed_attempt_below_threshold Demo.collaborators
              Demo.client Demo.verify_path Demo.world 0
              eq_refl eq_refl eq_refl ltac:(lia)))) eq_refl).
Defined.

(** ** Sessions and vendors *)

Section SessionsAndVendors.
Context `{Collaborators}.
Import AuthService.

(** X8: [_create_vendor_session] never returns.  On every input and in
    every state it raises "Failed to create session" and leaves the cache
    as it was.  When the database answers, the session row has been stored
    by then, good for thirty days, and the failure is logged; when the
    database does not answer, no row is stored. *)
Theorem create_vendor_session_always_fails vid access refresh w :
  (exists w',
     _create_vendor_session vid access refresh w
     = (Raise (Exception MFailedSession), w')
     /\ cache w' = cache w)
  /\ (hd false (faults w) = false ->
      _create_vendor_session vid access refresh w
      = (Raise (Exception MFailedSession),
         logged ERROR "Failed to create vendor session"
           (session_stored vid access refresh (set_faults (tail (faults w)) w))))
  /\ (hd false (faults w) = true ->
      _create_vendor_session vid access refresh w
      = (Raise (Exception MFailedSession),
         logged ERROR "Failed to create vendor session"
           (set_faults (tail (faults w)) w))).
Proof.
  unfold _create_vendor_session, try_catch, bind, time_time, insert_session, bind,
    round_trip.
  destruct (faults w) as [|[] fs] eqn:Hf; cbn [hd tail].
  - split; [eexists; split; reflexivity|]. split; [|discriminate].
    intros _. cbn. unfold logged, session_stored. cbn.
    destruct w; cbn in *; subst; reflexivity.
  - split; [eexists; split; reflexivity|]. split; [discriminate|].
    intros _. reflexivity.
  - split; [eexists; split; reflexivity|]. split; [|discriminate].
    intros _. reflexivity.
Qed.

Lemma option_string_is_refl s : option_string_is s (Some s) = true.
Proof. cbn. apply String.eqb_refl. Qed.

Lemma vendor_matches_added identifier v w :
  vendor_matches identifier w = [] ->
  option_string_is identifier
    (if _is_valid_phone identifier then vendor_phone_number v else vendor_email v)
  = true ->
  forall w1, vendors w1 = vendors w ++ [v] -> vendor_matches identifier w1 = [v].
Proof.
  unfold vendor_matches. intros Hm Hv w1 ->.
  destruct (_is_valid_phone identifier); rewrite filter_app, Hm;
    cbn [app]; rewrite filter_cons, Hv; reflexivity.
Qed.

(** X9: resolving the same identifier again finds the vendor that the
    first resolution created: the second call returns that vendor and adds
    no row, it only refreshes [last_active]. *)
Theorem get_or_create_vendor_twice identifier w d :
  faults w = [] ->
  vendor_matches identifier w = [] ->
  let v := new_vendor identifier w in
  let w1 := advance d (vendor_added v (entropy_used identifier w)) in
  _get_or_create_vendor identifier w
  = (Ok v, vendor_added v (entropy_used identifier w))
  /\ _get_or_create_vendor identifier w1 = (Ok v, vendor_touched (vendor_id v) w1)
  /\ length (vendors (vendor_touched (vendor_id v) w1)) = S (length (vendors w)).
Proof.
  intros Hq Hm v w1. split; [now apply get_vendor_created|].
  assert (Hv : vendors w1 = vendors w ++ [v]).
  { subst w1. unfold entropy_used. destruct (_is_valid_phone identifier); reflexivity. }
  assert (Hq1 : faults w1 = []).
  { subst w1. unfold entropy_used. destruct (_is_valid_phone identifier); exact Hq. }
  split.
  - apply (get_vendor_existing identifier w1 v []); [exact Hq1|].
    apply (vendor_matches_added identifier v w Hm); [|exact Hv].
    subst v. unfold new_vendor.
    destruct (_is_valid_phone identifier); apply option_string_is_refl.
  - cbn [vendors vendor_touched set_vendors]. rewrite length_map, Hv, length_app.
    cbn [length]. lia.
Qed.

(** X10: the placeholder phone number of a vendor created for an email
    address is an ordinary value of the [phone_number] column.  When that
    text is a valid phone number, as it is whenever the number drawn starts
    with a digit from 6 to 9, a later login with this phone number resolves
    to the vendor that was created for the email address. *)
Theorem placeholder_phone_resolves email w d :
  faults w = [] ->
  _is_valid_phone email = false ->
  vendor_matches email w = [] ->
  let phone := "+91" +:+ str_int (placeholder_number w) in
  _is_valid_phone phone = true ->
  vendor_matches phone w = [] ->
  let v := new_vendor email w in
  let w1 := advance d (vendor_added v (entropy_used email w)) in
  _get_or_create_vendor email w = (Ok v, vendor_added v (entropy_used email w))
  /\ vendor_email v = Some email
  /\ _get_or_create_vendor phone w1 = (Ok v, vendor_touched (vendor_id v) w1).
Proof.
  intros Hq He Hm phone Hp Hmp v w1.
  split; [now apply get_vendor_created|].
  assert (Hvv : v = VendorRow (next_id w) "" "" "hi" "active" (now w)
                      (Some phone) (Some email)).
  { subst v. unfold new_vendor. now rewrite He. }
  split; [now rewrite Hvv|].
  assert (Hv : vendors w1 = vendors w ++ [v]).
  { subst w1. unfold entropy_used. rewrite He. reflexivity. }
  assert (Hq1 : faults w1 = []).
  { subst w1. unfold entropy_used. rewrite He. exact Hq. }
  apply (get_vendor_existing phone w1 v []); [exact Hq1|].
  apply (vendor_matches_added phone v w Hmp); [|exact Hv].
  rewrite Hp, Hvv. apply option_string_is_refl.
Qed.

End SessionsAndVendors.

(** In the demo world the session row of vendor 8 is stored under key 8,
    and the call raises. *)
Lemma create_vendor_session_always_fails_witness :
  AuthService._create_vendor_session 8 "access.8.1000.4600"
    "refresh.8.1000.2593000" Demo.world
  = (Raise (Exception MFailedSession),
     logged ERROR "Failed to create vendor session"
       (session_stored 8 "access.8.1000.4600" "refresh.8.1000.2593000"
          (set_faults (tail (faults Demo.world)) Demo.world))).
Proof.
  exact (proj1 (proj2 (create_vendor_session_always_fails 8
                         "access.8.1000.4600" "refresh.8.1000.2593000" Demo.world))
               eq_refl).
Defined.

(** A phone number without a vendor gets one on the first resolution and
    the same one on the second. *)
Lemma get_or_create_vendor_twice_witness :
  let new := @new_vendor Demo.collaborators "+919876543210" Demo.world in
  let w1 := advance 5 (vendor_added new
                         (@entropy_used Demo.collaborators "+919876543210" Demo.world)) in
  @AuthService._get_or_create_vendor Demo.collaborators "+919876543210" w1
  = (Ok new, vendor_touched (vendor_id new) w1).
Proof.
  exact (proj1 (proj2 (@get_or_create_vendor_twice Demo.collaborators
                         "+919876543210" Demo.world 5 eq_refl eq_refl))).
Defined.

(** The vendor created for asha@example.com in the demo world gets the
    placeholder +916123456789, and a login with that phone number is given
    her vendor. *)
Lemma placeholder_phone_resolves_witness :
  let new := @new_vendor Demo.collaborators "asha@example.com" Demo.world in
  let w1 := advance 5 (vendor_added new
                         (@entropy_used Demo.collaborators "asha@example.com"
                            Demo.world)) in
  vendor_email new = Some "asha@example.com"
  /\ @AuthService._get_or_create_vendor Demo.collaborators
       ("+91" +:+ str_int (placeholder_number Demo.world)) w1
     = (Ok new, vendor_touched (vendor_id new) w1).
Proof.
  exact (proj2 (@placeholder_phone_resolves Demo.collaborators "asha@example.com"
                  Demo.world 5 eq_refl eq_refl eq_refl eq_refl eq_refl)).
Defined.

Example placeholder_of_demo_world :
  "+91" +:+ str_int (placeholder_number Demo.world) = "+916123456789".
Proof. reflexivity. Qed.

(** ** A store failure in the middle of [verify_otp] *)

Section BurntOtp.
Context `{Collaborators}.
Import AuthService.

Lemma round_trip_answers w fs :
  faults w = false :: fs -> round_trip w = (Ok tt, set_faults fs w).
Proof. intros E. unfold round_trip. now rewrite E. Qed.

Lemma round_trip_fails w fs :
  faults w = true :: fs -> round_trip w = (Raise StoreError, set_faults fs w).
Proof. intros E. unfold round_trip. now rewrite E. Qed.

Lemma redis_get_answers k w fs :
  faults w = false :: fs ->
  redis_get k w = (Ok (cache_lookup w k), set_faults fs w).
Proof.
  intros E. unfold redis_get. now rewrite (bind_ok _ _ _ _ _ (round_trip_answers w fs E)).
Qed.

Lemma select_otp_answers key w fs :
  faults w = false :: fs ->
  select_otp key w = (Ok (otp_rows key w), set_faults fs w).
Proof.
  intros E. unfold select_otp. now rewrite (bind_ok _ _ _ _ _ (round_trip_answers w fs E)).
Qed.

Lemma update_otp_answers key f w fs :
  faults w = false :: fs ->
  update_otp key f w = (Ok tt, otp_updated key f (set_faults fs w)).
Proof.
  intros E. unfold update_otp. now rewrite (bind_ok _ _ _ _ _ (round_trip_answers w fs E)).
Qed.

Lemma get_or_create_vendor_fails identifier w fs :
  faults w = true :: fs ->
  _get_or_create_vendor identifier w
  = (Raise (Exception MFailedVendor),
     logged ERROR "Failed to get or create vendor" (set_faults fs w)).
Proof.
  intros E. unfold _get_or_create_vendor.
  eapply eq_trans.
  - eapply try_raise. eapply bind_raise.
    unfold select_vendor_by_phone, select_vendor_by_email.
    destruct (_is_valid_phone identifier);
      apply bind_raise; apply round_trip_fails; exact E.
  - reflexivity.
Qed.

(** X11: marking the record and opening the session are separate steps.
    When the database answers up to the update that marks the record
    verified and then fails, [verify_otp] fails with the message of
    [_get_or_create_vendor], "Failed to process vendor account", no
    session row is stored, and the record stays verified with its token
    mapping in place: once the database is back, every further attempt on
    that token that reaches the record (the mapping live, the record
    unexpired), also with the right code, is answered with [AlreadyUsed],
    "OTP already used". *)
Theorem verify_otp_store_failure_burns_code token otp w e r rest :
  faults w = [false; false; false; true] ->
  cache w !! otp_token_key token = Some e ->
  live (now w) e = true ->
  truthy (c_val e) = true ->
  otp_rows (c_val e) w = r :: rest ->
  (now w >? otp_expires_at r) = false ->
  otp_verified r = false ->
  (otp_attempts r >=? max_otp_attempts) = false ->
  pwd_verify otp (otp_code r) = Some true ->
  let w1 := logged ERROR "OTP verification failed"
              (logged ERROR "Failed to get or create vendor"
                 (attempt_recorded (c_val e) (otp_attempts r + 1) true
                    (set_faults [] w))) in
  verify_otp token otp w = (Raise (Exception MFailedVendor), w1)
  /\ render MFailedVendor = "Failed to process vendor account"
  /\ vendor_sessions w1 = vendor_sessions w
  /\ forall otp' d,
       live (now w + d) e = true ->
       now w + d <= otp_expires_at r ->
       verify_otp token otp' (advance d w1)
       = (Raise AlreadyUsed, logged ERROR "OTP verification failed" (advance d w1)).
Proof.
  intros Hf Hce Hl Ht Hr He Hv Ha Hp w1.
  assert (Hc : cache_lookup w (otp_token_key token) = Some (c_val e)).
  { unfold cache_lookup, cache_entry. now rewrite Hce, Hl. }
  split; [|split; [reflexivity|split]].
  - unfold verify_otp. eapply eq_trans.
    + eapply try_raise.
      run_with ltac:(apply redis_get_answers; exact Hf).
      rewrite Hc, Ht. cbn [negb].
      run_with ltac:(apply select_otp_answers; reflexivity).
      change (otp_rows (c_val e) (set_faults [false; false; true] w))
        with (otp_rows (c_val e) w).
      rewrite Hr. run_pure.
      change (now (set_faults [false; true] (set_faults [false; false; true] w)))
        with (now w).
      rewrite He, Hv, Ha, Hp.
      run_with ltac:(apply update_otp_answers; reflexivity).
      apply bind_raise. apply get_or_create_vendor_fails. reflexivity.
    + reflexivity.
  - reflexivity.
  - intros otp' d Hld Hed.
    assert (Hq1 : faults (advance d w1) = []) by reflexivity.
    assert (Hc1 : cache_lookup (advance d w1) (otp_token_key token) = Some (c_val e)).
    { unfold cache_lookup, cache_entry.
      change (cache (advance d w1)) with (cache w).
      change (now (advance d w1)) with (now w + d).
      now rewrite Hce, Hld. }
    assert (Hr1 : otp_rows (c_val e) (advance d w1)
                  = with_verified (otp_attempts r + 1) r
                    :: map (with_verified (otp_attempts r + 1)) rest).
    { change (otp_rows (c_val e) (advance d w1))
        with (otp_rows (c_val e)
                (otp_updated (c_val e) (with_verified (otp_attempts r + 1))
                   (set_faults [] w))).
      rewrite otp_rows_updated by reflexivity.
      change (otp_rows (c_val e) (set_faults [] w)) with (otp_rows (c_val e) w).
      now rewrite Hr. }
    destruct (verify_otp_rejects token otp' (advance d w1) (c_val e) _ _ Hq1 Hc1 Ht Hr1)
      as (_ & Hused & _).
    apply Hused; [|reflexivity].
    cbn [otp_expires_at with_verified].
    change (now (advance d w1)) with (now w + d).
    destruct (Z.gtb_spec (now w + d) (otp_expires_at r)); [lia | reflexivity].
Qed.

End BurntOtp.

(** In the demo world the right code is entered while the database fails at
    the vendor lookup: the call fails and the code is spent. *)
Lemma verify_otp_store_failure_burns_code_witness :
  @AuthService.verify_otp Demo.collaborators "tok-1" "482913"
    Cases.database_goes_down
  = (Raise (Exception MFailedVendor),
     logged ERROR "OTP verification failed"
       (logged ERROR "Failed to get or create vendor"
          (attempt_recorded (c_val (CEntry (CNum 7) (Some 1300)))
             (otp_attempts Demo.issued + 1) true
             (set_faults [] Cases.database_goes_down)))).
Proof.
  exact (proj1 (@verify_otp_store_failure_burns_code Demo.collaborators
                  "tok-1" "482913" Cases.database_goes_down (CEntry (CNum 7) (Some 1300))
                  Demo.issued [] eq_refl eq_refl eq_refl eq_refl eq_refl eq_refl
                  eq_refl eq_refl eq_refl)).
Defined.

(** The code is refused as used a minute after the failure. *)
Example burnt_code_a_minute_later :
  fst (@AuthService.verify_otp Demo.collaborators "tok-1" "482913"
         (advance 60 (snd (@AuthService.verify_otp Demo.collaborators "tok-1" "482913"
                             Cases.database_goes_down))))
  = Raise AlreadyUsed.
Proof. vm_compute. reflexivity. Qed.

(** ** The limit on codes per hour *)

Section CodesPerHour.
Context `{Collaborators}.
Import AuthServiceOtp.

Lemma limit_keys_differ limit_type identifier identifier' :
  rate_limit_key limit_type identifier <> lockout_key identifier'.
Proof. unfold rate_limit_key, lockout_key. cbn. discriminate. Qed.

Lemma check_rate_limit_below identifier limit_type w n :
  faults w = [] ->
  count_reply (cache_lookup w (rate_limit_key limit_type identifier)) = Some n ->
  n < limit_of limit_type ->
  _check_rate_limit identifier limit_type w = (Ok (true, 0), w).
Proof.
  intros Hq Hc Hn. unfold _check_rate_limit. apply try_ok.
  run_with ltac:(apply redis_get_quiet; exact Hq).
  run_with ltac:(apply int_or_zero_count; exact Hc).
  destruct (Z.geb_spec n (limit_of limit_type)); [lia | reflexivity].
Qed.

Lemma set_lockout_quiet identifier w :
  faults w = [] ->
  set_lockout identifier w = (Ok (false, lockout_duration), refused identifier w).
Proof.
  intros Hq. unfold set_lockout.
  run_pure.
  run_with ltac:(apply redis_setex_quiet; exact Hq).
  reflexivity.
Qed.

Lemma check_rate_limit_sets_lockout identifier limit_type w n :
  faults w = [] ->
  count_reply (cache_lookup w (rate_limit_key limit_type identifier)) = Some n ->
  limit_of limit_type <= n ->
  cache_lookup w (lockout_key identifier) = None ->
  _check_rate_limit identifier limit_type w
  = (Ok (false, lockout_duration), refused identifier w).
Proof.
  intros Hq Hc Hn Hl. unfold _check_rate_limit. apply try_ok.
  run_with ltac:(apply redis_get_quiet; exact Hq).
  run_with ltac:(apply int_or_zero_count; exact Hc).
  destruct (Z.geb_spec n (limit_of limit_type)); [|lia].
  run_with ltac:(apply redis_get_quiet; exact Hq).
  rewrite Hl. now apply set_lockout_quiet.
Qed.

Lemma check_rate_limit_locked identifier limit_type w n u :
  faults w = [] ->
  count_reply (cache_lookup w (rate_limit_key limit_type identifier)) = Some n ->
  limit_of limit_type <= n ->
  cache_lookup w (lockout_key identifier) = Some (CNum u) ->
  now w < u ->
  _check_rate_limit identifier limit_type w = (Ok (false, u - now w), w).
Proof.
  intros Hq Hc Hn Hl Hu. unfold _check_rate_limit. apply try_ok.
  run_with ltac:(apply redis_get_quiet; exact Hq).
  run_with ltac:(apply int_or_zero_count; exact Hc).
  destruct (Z.geb_spec n (limit_of limit_type)); [|lia].
  run_with ltac:(apply redis_get_quiet; exact Hq).
  rewrite Hl. cbn [truthy]. run_pure. run_pure.
  destruct (Z.gtb_spec (u - now w) 0); [reflexivity | lia].
Qed.


(** X13: a client whose count has reached the limit is refused while the
    counter lives.  The first check sets a lockout of 900 seconds; a check
    [t < 900] seconds later answers with the [900 - t] seconds that are
    left; a check more than 900 seconds later, when the lockout entry is
    gone and the counter is still there, sets the next lockout; and once
    the counter has expired the client is let through.  The clock of this
    development counts whole seconds, while the entry of a lockout runs
    out a fraction of a second after its timestamp: nothing is said here
    about the second [t = 900], nor about the second in which the counter
    runs out.  A check that finds the lockout entry still there with its
    timestamp reached, as a check within that second does, takes the
    branch that resets: it deletes the counter and the lockout and lets
    the client through. *)
Theorem code_limit_lasts_as_long_as_the_counter identifier limit_type w n x t :
  faults w = [] ->
  cache w !! rate_limit_key limit_type identifier = Some (CEntry (CNum n) (Some x)) ->
  now w < x ->
  limit_of limit_type <= n ->
  let w1 := refused identifier w in
  (cache_lookup w (lockout_key identifier) = None ->
   _check_rate_limit identifier limit_type w = (Ok (false, 900), w1)
   /\ (0 <= t < 900 -> now w + t < x ->
       _check_rate_limit identifier limit_type (advance t w1)
       = (Ok (false, 900 - t), advance t w1))
   /\ (900 < t -> now w + t < x ->
       _check_rate_limit identifier limit_type (advance t w1)
       = (Ok (false, 900), refused identifier (advance t w1)))
   /\ (0 <= t -> x < now w + t ->
       _check_rate_limit identifier limit_type (advance t w1)
       = (Ok (true, 0), advance t w1)))
  /\ (forall u,
        cache_lookup w (lockout_key identifier) = Some (CNum u) ->
        u <= now w ->
        _check_rate_limit identifier limit_type w
        = (Ok (true, 0),
           set_cache (delete (lockout_key identifier)
                        (delete (rate_limit_key limit_type identifier) (cache w))) w)).
Proof.
  intros Hq Hc Hx Hn w1.
  assert (Hlive : cache_lookup w (rate_limit_key limit_type identifier) = Some (CNum n)).
  { now apply (cache_lookup_live _ _ _ x). }
  split.
  2:{ intros u Hl Hu. unfold _check_rate_limit. apply try_ok.
      run_with ltac:(apply redis_get_quiet; exact Hq).
      rewrite Hlive. cbn [int_or_zero truthy py_int]. run_pure.
      destruct (Z.geb_spec n (limit_of limit_type)); [|lia].
      run_with ltac:(apply redis_get_quiet; exact Hq).
      rewrite Hl. cbn [truthy py_int]. run_pure. run_pure.
      destruct (Z.gtb_spec (u - now w) 0); [lia|].
      run_with ltac:(apply redis_delete_quiet; exact Hq).
      run_with ltac:(apply redis_delete_quiet; exact Hq).
      reflexivity. }
  intros Hl. split.
  { apply check_rate_limit_sets_lockout with (n := n); trivial. now rewrite Hlive. }
  assert (Hq1 : faults (advance t w1) = []) by exact Hq.
  assert (Hc1 : cache (advance t w1) !! rate_limit_key limit_type identifier
                = Some (CEntry (CNum n) (Some x))).
  { subst w1. cbn [cache advance refused set_cache].
    rewrite lookup_insert_ne by (apply not_eq_sym, limit_keys_differ). exact Hc. }
  assert (Hl1 : cache (advance t w1) !! lockout_key identifier
                = Some (CEntry (CNum (now w + 900)) (Some (now w + 900)))).
  { subst w1. cbn [cache advance refused set_cache]. apply lookup_insert_eq. }
  assert (Hnow : now (advance t w1) = now w + t) by reflexivity.
  assert (Hlive1 : now w + t < x ->
                   count_reply (cache_lookup (advance t w1)
                                  (rate_limit_key limit_type identifier)) = Some n).
  { intros Hin. rewrite (cache_lookup_live _ _ _ x Hc1); [reflexivity | rewrite Hnow; lia]. }
  split; [|split].
  - intros Hlt Hin.
    rewrite (check_rate_limit_locked identifier limit_type (advance t w1) n
               (now w + 900) Hq1 (Hlive1 Hin) Hn).
    + rewrite Hnow. do 3 f_equal. lia.
    + apply (cache_lookup_live _ _ _ (now w + 900) Hl1). rewrite Hnow. lia.
    + rewrite Hnow. lia.
  - intros Hge Hin.
    apply check_rate_limit_sets_lockout with (n := n); trivial; [now apply Hlive1|].
    apply (cache_lookup_stale _ _ _ Hl1).
    unfold live. cbn [c_expiry]. rewrite Hnow.
    destruct (Z.ltb_spec (now w + t) (now w + 900)); [lia | reflexivity].
  - intros Ht Hout.
    apply check_rate_limit_below with (n := 0); trivial.
    + rewrite (cache_lookup_stale _ _ _ Hc1); [reflexivity|].
      unfold live. cbn [c_expiry]. rewrite Hnow.
      destruct (Z.ltb_spec (now w + t) x); [lia | reflexivity].
    + unfold limit_of, otp_rate_limit, login_rate_limit.
      destruct (String.eqb limit_type "otp"); lia.
Qed.

Lemma increment_rate_limit_quiet identifier limit_type w n :
  faults w = [] ->
  count_reply (cache_lookup w (rate_limit_key limit_type identifier)) = Some n ->
  _increment_rate_limit identifier limit_type w
  = (Ok tt, tallied identifier limit_type (n + 1) w).
Proof.
  intros Hq Hc. unfold _increment_rate_limit. apply try_ok.
  run_with ltac:(apply redis_get_quiet; exact Hq).
  run_with ltac:(apply int_or_zero_count; exact Hc).
  now apply redis_setex_quiet.
Qed.

(** X14: every counted code renews the counter's hour.  When each code
    follows the one before within less than an hour, none of them is
    forgotten: the counter stands at the number of all of them, however
    long ago the first ones were sent. *)
Theorem code_counter_slides identifier limit_type gaps : forall w n,
  faults w = [] ->
  count_reply (cache_lookup w (rate_limit_key limit_type identifier)) = Some n ->
  Forall (fun d => 0 <= d < 3600) gaps ->
  faults (increments identifier limit_type gaps w) = []
  /\ count_reply (cache_lookup (increments identifier limit_type gaps w)
                    (rate_limit_key limit_type identifier))
     = Some (n + Z.of_nat (length gaps)).
Proof.
  induction gaps as [|d gaps IH]; intros w n Hq Hc Hg.
  - cbn [increments length]. split; [exact Hq|]. rewrite Hc. f_equal. lia.
  - cbn [increments].
    rewrite (increment_rate_limit_quiet identifier limit_type w n Hq Hc).
    cbn [snd]. inversion Hg as [|? ? Hd Hg']; subst.
    destruct (IH (advance d (tallied identifier limit_type (n + 1) w)) (n + 1))
      as [Hq' Hc']; trivial.
    + rewrite (cache_lookup_live _ _ (CNum (n + 1)) (now w + 3600)).
      * reflexivity.
      * cbn [cache advance tallied set_cache]. apply lookup_insert_eq.
      * cbn [now advance tallied set_cache]. lia.
    + split; [exact Hq'|]. rewrite Hc'. f_equal. cbn [length]. lia.
Qed.

End CodesPerHour.

(** Five codes are on record: the sixth request is refused, and still
    refused a minute later. *)
Lemma code_limit_lasts_as_long_as_the_counter_witness :
  @AuthServiceOtp._check_rate_limit Demo.collaborators "asha@example.com" "otp"
    Cases.five_codes_sent
  = (Ok (false, 900), refused "asha@example.com" Cases.five_codes_sent)
  /\ @AuthServiceOtp._check_rate_limit Demo.collaborators "asha@example.com" "otp"
       (advance 60 (refused "asha@example.com" Cases.five_codes_sent))
     = (Ok (false, 900 - 60), advance 60 (refused "asha@example.com" Cases.five_codes_sent)).
Proof.
  pose proof (@code_limit_lasts_as_long_as_the_counter Demo.collaborators
                "asha@example.com" "otp" Cases.five_codes_sent 5 4000 60
                eq_refl eq_refl eq_refl ltac:(cbv; discriminate)) as [Hfirst _].
  destruct (Hfirst eq_refl) as (Hset & Hleft & _).
  split; [exact Hset|].
  apply Hleft; [lia | vm_compute; reflexivity].
Defined.

(** The lockout of the address has reached its timestamp and its entry is
    still there: the check deletes the counter and the lockout, and the
    address is good for five more codes. *)
Example code_limit_reset_at_the_boundary :
  @AuthServiceOtp._check_rate_limit Demo.collaborators "asha@example.com" "otp"
    Cases.lockout_at_its_end
  = (Ok (true, 0), set_cache ∅ Cases.lockout_at_its_end).
Proof. vm_compute. reflexivity. Qed.

(** Three codes, fifty minutes apart: all three are on the counter. *)
Lemma code_counter_slides_witness :
  count_reply
    (cache_lookup
       (@increments Demo.collaborators "asha@example.com" "otp" [3000; 3000; 3000]
          Demo.world)
       (AuthServiceOtp.rate_limit_key "otp" "asha@example.com"))
  = Some (0 + Z.of_nat (length [3000; 3000; 3000])).
Proof.
  exact (proj2 (@code_counter_slides Demo.collaborators "asha@example.com" "otp"
                  [3000; 3000; 3000] Demo.world 0 eq_refl eq_refl
                  ltac:(repeat constructor; lia))).
Defined.

(** ** The code and the contact *)

Section CodeAndContact.
Import AuthService AuthServiceOtp.

Lemma digit_char_is_digit r : is_digit (digit_char (r mod 10)) = true.
Proof.
  pose proof (Z.mod_pos_bound r 10 ltac:(lia)) as B.
  assert (r mod 10 = 0 \/ r mod 10 = 1 \/ r mod 10 = 2 \/ r mod 10 = 3
          \/ r mod 10 = 4 \/ r mod 10 = 5 \/ r mod 10 = 6 \/ r mod 10 = 7
          \/ r mod 10 = 8 \/ r mod 10 = 9) as E by lia.
  repeat (destruct E as [E|E]; [rewrite E; reflexivity|]).
  rewrite E. reflexivity.
Qed.

Lemma choice_digit_draw w :
  choice_digit w
  = (Ok (digit_char (hd 0 (entropy w) mod 10)), set_entropy (tail (entropy w)) w).
Proof.
  unfold choice_digit. run_pure. unfold ret. do 2 f_equal.
  change (Z.of_nat (String.length string_digits)) with 10.
  pose proof (Z.mod_pos_bound (hd 0 (entropy w)) 10 ltac:(lia)) as B.
  set (r := hd 0 (entropy w) mod 10) in *.
  assert (r = 0 \/ r = 1 \/ r = 2 \/ r = 3 \/ r = 4 \/ r = 5 \/ r = 6 \/ r = 7
          \/ r = 8 \/ r = 9) as E by lia.
  repeat (destruct E as [E|E]; [rewrite E; reflexivity|]).
  rewrite E. reflexivity.
Qed.

Lemma join_choices_draws n : forall w,
  join_choices n w
  = (Ok (otp_of (draws n (entropy w))), set_entropy (tails n (entropy w)) w).
Proof.
  induction n as [|n IH]; intros w.
  - destruct w; reflexivity.
  - cbn [join_choices].
    run_with ltac:(apply choice_digit_draw).
    run_with ltac:(apply IH).
    reflexivity.
Qed.

(** X15: [_generate_otp] always answers with six decimal digits, one for
    each of the next six outputs of the random source, the first output
    giving the first digit; a code may start with zeros. *)
Theorem generate_otp_six_digits w :
  let otp := otp_of (draws 6 (entropy w)) in
  _generate_otp w = (Ok otp, set_entropy (tails 6 (entropy w)) w)
  /\ String.length otp = 6%nat
  /\ string_forall is_digit otp = true.
Proof.
  intros otp. split; [apply join_choices_draws|]. split; [reflexivity|].
  subst otp. unfold string_forall, otp_of.
  rewrite list_ascii_of_string_of_list_ascii.
  cbn [draws map forallb]. now rewrite !digit_char_is_digit.
Qed.

(** *** The two formats *)

Lemma letters_then_end_eq seen s :
  letters_then_end seen s
  = ((2 <=? seen)%nat && at_end s)
    || match s with
       | EmptyString => false
       | String c s' => is_alpha c && letters_then_end (S seen) s'
       end.
Proof. destruct s; reflexivity. Qed.

Lemma string_forall_cons p c s :
  string_forall p (String c s) = p c && string_forall p s.
Proof. reflexivity. Qed.

Lemma string_forall_app p s t :
  string_forall p (s +:+ t) = string_forall p s && string_forall p t.
Proof.
  induction s as [|c s IH]; [reflexivity|].
  change (String c s +:+ t) with (String c (s +:+ t)).
  rewrite !string_forall_cons, IH. apply andb_assoc.
Qed.

Lemma length_app_string s t :
  String.length (s +:+ t) = (String.length s + String.length t)%nat.
Proof.
  induction s as [|c s IH]; [reflexivity|].
  change (String c s +:+ t) with (String c (s +:+ t)). cbn [String.length].
  now rewrite IH.
Qed.

Lemma letters_then_end_spec s : forall seen,
  letters_then_end seen s = true <->
  exists a e, s = a +:+ e /\ string_forall is_alpha a = true
              /\ (2 <= seen + String.length a)%nat
              /\ (e = "" \/ e = String "010" "").
Proof.
  induction s as [|c s IH]; intros seen; rewrite letters_then_end_eq.
  - rewrite orb_false_r, andb_true_r, Nat.leb_le. split.
    + intros Hs. exists "", "". cbn. repeat split; auto; lia.
    + intros (a & e & E & _ & Hl & _). destruct a; [cbn in Hl; lia | discriminate].
  - rewrite orb_true_iff, !andb_true_iff, Nat.leb_le, IH. split.
    + intros [[Hs He]|[Hc (a & e & -> & Ha & Hl & He)]].
      * exists "", (String c s). cbn [String.length]. repeat split; auto; [lia|].
        right. destruct s as [|? ?]; [|destruct s; discriminate].
        cbn in He. apply Ascii.eqb_eq in He. now subst.
      * exists (String c a), e. rewrite string_forall_cons, Hc, Ha.
        cbn [String.length]. repeat split; auto. lia.
    + intros (a & e & E & Ha & Hl & He). destruct a as [|c' a].
      * left. change ("" +:+ e) with e in E. cbn in Hl. split; [lia|]. subst e.
        destruct He as [He|He]; [discriminate|]. inversion He; subst. reflexivity.
      * right. change (String c' a +:+ e) with (String c' (a +:+ e)) in E.
        inversion E; subst. rewrite string_forall_cons in Ha.
        apply andb_true_iff in Ha. destruct Ha as [Hc Ha]. split; [exact Hc|].
        exists a, e. cbn [String.length] in Hl. repeat split; auto. lia.
Qed.

Lemma domain_then_end_spec s : forall started,
  domain_then_end started s = true <->
  exists d a e, s = d +:+ "." +:+ a +:+ e
                /\ string_forall is_domain_char d = true
                /\ (started = true \/ d <> "")
                /\ string_forall is_alpha a = true
                /\ (2 <= String.length a)%nat
                /\ (e = "" \/ e = String "010" "").
Proof.
  induction s as [|c s IH]; intros started; cbn [domain_then_end].
  - split; [discriminate|]. intros (d & a & e & E & _). destruct d; discriminate.
  - rewrite orb_true_iff, !andb_true_iff, IH, letters_then_end_spec. split.
    + intros [[[Hs Hc] (a & e & -> & Ha & Hl & He)]
             |[Hc (d & a & e & -> & Hd & _ & Ha & Hl & He)]].
      * apply Ascii.eqb_eq in Hc. subst c.
        exists "", a, e. repeat split; auto.
      * exists (String c d), a, e. rewrite string_forall_cons, Hc, Hd.
        repeat split; auto; try (right; discriminate).
    + intros (d & a & e & E & Hd & Hs & Ha & Hl & He). destruct d as [|c' d].
      * left. destruct Hs as [Hs|Hs]; [|contradiction].
        change ("" +:+ "." +:+ a +:+ e) with (String "." (a +:+ e)) in E.
        inversion E; subst. repeat split; auto. exists a, e. repeat split; auto.
      * right.
        change (String c' d +:+ "." +:+ a +:+ e)
          with (String c' (d +:+ "." +:+ a +:+ e)) in E.
        inversion E; subst. rewrite string_forall_cons in Hd.
        apply andb_true_iff in Hd. destruct Hd as [Hc Hd]. split; [exact Hc|].
        exists d, a, e. repeat split; auto.
Qed.

Lemma local_then_rest_spec s : forall started,
  local_then_rest started s = true <->
  exists l rest, s = l +:+ "@" +:+ rest
                 /\ string_forall is_local_char l = true
                 /\ (started = true \/ l <> "")
                 /\ domain_then_end false rest = true.
Proof.
  induction s as [|c s IH]; intros started; cbn [local_then_rest].
  - split; [discriminate|]. intros (l & rest & E & _). destruct l; discriminate.
  - rewrite orb_true_iff, !andb_true_iff, IH. split.
    + intros [[[Hs Hc] Hd]|[Hc (l & rest & -> & Hl & _ & Hd)]].
      * apply Ascii.eqb_eq in Hc. subst c. exists "", s. repeat split; auto.
      * exists (String c l), rest. rewrite string_forall_cons, Hc, Hl.
        repeat split; auto; try (right; discriminate).
    + intros (l & rest & E & Hl & Hs & Hd). destruct l as [|c' l].
      * left. destruct Hs as [Hs|Hs]; [|contradiction].
        change ("" +:+ "@" +:+ rest) with (String "@" rest) in E.
        inversion E; subst. repeat split; auto.
      * right.
        change (String c' l +:+ "@" +:+ rest) with (String c' (l +:+ "@" +:+ rest)) in E.
        inversion E; subst. rewrite string_forall_cons in Hl.
        apply andb_true_iff in Hl. destruct Hl as [Hc Hl]. split; [exact Hc|].
        exists l, rest. repeat split; auto.
Qed.

(** X16: the texts that [_is_valid_email] accepts are exactly those made of
    a non-empty local part of letters, digits and [._%+-], an [@], a
    non-empty domain of letters, digits, dots and hyphens, a dot, and at
    least two letters, with nothing after them but, possibly, one final
    newline. *)
Theorem valid_email_shape email :
  _is_valid_email email = true <->
  exists l d a e,
    email = l +:+ "@" +:+ d +:+ "." +:+ a +:+ e
    /\ l <> "" /\ string_forall is_local_char l = true
    /\ d <> "" /\ string_forall is_domain_char d = true
    /\ (2 <= String.length a)%nat /\ string_forall is_alpha a = true
    /\ (e = "" \/ e = String "010" "").
Proof.
  unfold _is_valid_email. rewrite local_then_rest_spec. split.
  - intros (l & rest & -> & Hl & Hs & Hd).
    apply domain_then_end_spec in Hd.
    destruct Hd as (d & a & e & -> & Hd & Hds & Ha & Hla & He).
    exists l, d, a, e. repeat split; auto.
    + destruct Hs as [Hs|Hs]; [discriminate | exact Hs].
    + destruct Hds as [Hds|Hds]; [discriminate | exact Hds].
  - intros (l & d & a & e & -> & Hl0 & Hl & Hd0 & Hd & Hla & Ha & He).
    exists l, (d +:+ "." +:+ a +:+ e). repeat split; auto.
    apply domain_then_end_spec. exists d, a, e. repeat split; auto.
Qed.

End CodeAndContact.

(** ** Phone numbers *)

Section PhoneNumbers.
Context `{Collaborators}.
Import AuthService AuthServiceOtp.

Lemma string_forall_impl (p q : ascii -> bool) s :
  (forall c, p c = true -> q c = true) ->
  string_forall p s = true -> string_forall q s = true.
Proof.
  intros Hpq. induction s as [|c s IH]; [reflexivity|].
  rewrite !string_forall_cons, !andb_true_iff. intros [Hc Hs]. auto.
Qed.

Lemma append_empty_r s : s +:+ "" = s.
Proof.
  induction s as [|c s IH]; [reflexivity|].
  change (String c s +:+ "") with (String c (s +:+ "")). now rewrite IH.
Qed.

Lemma prefix_drop pre : forall s,
  String.prefix pre s = true -> s = pre +:+ string_drop (String.length pre) s.
Proof.
  induction pre as [|a pre IH]; intros s Hp; [reflexivity|].
  destruct s as [|b s]; [discriminate|]. cbn in Hp.
  destruct (ascii_dec a b) as [->|]; [|discriminate].
  cbn [String.length string_drop].
  change (String b pre +:+ string_drop (String.length pre) s)
    with (String b (pre +:+ string_drop (String.length pre) s)).
  now rewrite <- IH.
Qed.

Lemma prefix_append pre s : String.prefix pre (pre +:+ s) = true.
Proof.
  induction pre as [|a pre IH]; [destruct s; reflexivity|].
  change (String a pre +:+ s) with (String a (pre +:+ s)). cbn.
  destruct (ascii_dec a a); [exact IH | contradiction].
Qed.

Lemma string_drop_append pre s : string_drop (String.length pre) (pre +:+ s) = s.
Proof.
  induction pre as [|a pre IH]; [reflexivity|].
  change (String a pre +:+ s) with (String a (pre +:+ s)). exact IH.
Qed.

Lemma py_len_app s t : py_len (s +:+ t) = (py_len s + py_len t)%nat.
Proof.
  induction s as [|c s IH]; [reflexivity|].
  change (String c s +:+ t) with (String c (s +:+ t)). cbn [py_len].
  destruct (is_continuation c); rewrite IH; reflexivity.
Qed.

Lemma string_take_drop k : forall s, s = string_take k s +:+ string_drop k s.
Proof.
  induction k as [|k IH]; intros s; [reflexivity|].
  destruct s as [|c s]; [reflexivity|]. cbn [string_take string_drop].
  change (String c (string_take k s) +:+ string_drop k s)
    with (String c (string_take k s +:+ string_drop k s)).
  now rewrite <- IH.
Qed.

Lemma py_len_continuation s :
  forallb is_continuation (list_ascii_of_string s) = true -> py_len s = 0%nat.
Proof.
  induction s as [|c s IH]; [reflexivity|]. cbn [list_ascii_of_string forallb py_len].
  rewrite andb_true_iff. intros [-> Hs]. exact (IH Hs).
Qed.

Lemma continuation_is_digit_byte c : is_continuation c = true -> is_digit_byte c = true.
Proof.
  unfold is_continuation, is_digit_byte. rewrite andb_true_iff. intros [-> _].
  apply orb_true_r.
Qed.

Lemma is_digit_single c : is_digit c = true -> is_continuation c = false.
Proof.
  unfold is_digit, is_continuation. rewrite andb_true_iff, !Nat.leb_le.
  intros [_ Hc]. apply andb_false_iff. left. apply Nat.leb_gt. lia.
Qed.

Lemma lead_byte c :
  (0 <? followers c)%nat = true ->
  is_continuation c = false /\ is_digit_byte c = true.
Proof.
  unfold followers, is_continuation, is_digit_byte.
  destruct (Nat.ltb_spec (nat_of_ascii c) 192) as [|Hc]; [discriminate|].
  intros _. split.
  - apply andb_false_r.
  - apply orb_true_iff. right. apply Nat.leb_le. lia.
Qed.

(** What [\d] takes from the head of a text is one character, written
    with an ASCII digit or with bytes beyond ASCII. *)
Lemma after_digit_shape s s' :
  after_digit s = Some s' ->
  exists d, s = d +:+ s' /\ string_forall is_digit_byte d = true
            /\ py_len d = 1%nat.
Proof.
  destruct s as [|c s]; [discriminate|]. cbn [after_digit].
  destruct (is_digit c) eqn:Hc.
  - intros E. inversion E; subst. exists (String c "").
    split; [reflexivity|]. split.
    + unfold string_forall. cbn. unfold is_digit_byte. now rewrite Hc.
    + cbn [py_len]. now rewrite (is_digit_single c Hc).
  - destruct (_ && _) eqn:Hk; [|discriminate].
    intros E. inversion E; subst.
    apply andb_true_iff in Hk. destruct Hk as [Hk _].
    apply andb_true_iff in Hk. destruct Hk as [Hk Hcont].
    apply andb_true_iff in Hk. destruct Hk as [Hpos _].
    destruct (lead_byte c Hpos) as [Hlead Hbyte].
    exists (String c (string_take (followers c) s)). split; [|split].
    + change (String c (string_take (followers c) s) +:+ string_drop (followers c) s)
        with (String c (string_take (followers c) s +:+ string_drop (followers c) s)).
      now rewrite <- string_take_drop.
    + rewrite string_forall_cons, Hbyte. cbn [andb].
      unfold string_forall. revert Hcont.
      generalize (list_ascii_of_string (string_take (followers c) s)).
      intros l. induction l as [|a l IH]; [reflexivity|]. cbn [forallb].
      rewrite !andb_true_iff. intros [Ha Hl].
      split; [now apply continuation_is_digit_byte | exact (IH Hl)].
    + cbn [py_len]. rewrite Hlead. now rewrite (py_len_continuation _ Hcont).
Qed.

Lemma digits_then_end_shape k : forall s,
  digits_then_end k s = true ->
  exists ds e, s = ds +:+ e /\ string_forall is_digit_byte ds = true
               /\ py_len ds = k /\ (e = "" \/ e = String "010" "").
Proof.
  induction k as [|k IH]; intros s; cbn [digits_then_end].
  - intros Hd. exists "", s. repeat split; auto.
    destruct s as [|c [|? ?]]; [auto| |discriminate].
    apply Ascii.eqb_eq in Hd. subst. auto.
  - destruct (after_digit s) as [s'|] eqn:Ha; [|discriminate].
    intros Hd. apply after_digit_shape in Ha. destruct Ha as (d & -> & Hdb & Hdl).
    destruct (IH s' Hd) as (ds & e & -> & Hds & Hl & He).
    exists (d +:+ ds), e. split; [|split; [|split]].
    + clear. induction d as [|a d IHd]; [reflexivity|].
      change (String a d +:+ ds +:+ e) with (String a (d +:+ ds +:+ e)).
      change ((String a d +:+ ds) +:+ e) with (String a ((d +:+ ds) +:+ e)).
      now rewrite IHd.
    + rewrite string_forall_app, Hdb, Hds. reflexivity.
    + rewrite py_len_app, Hdl, Hl. reflexivity.
    + exact He.
Qed.

Lemma is_6_to_9_digit c : is_6_to_9 c = true -> is_digit c = true.
Proof.
  unfold is_6_to_9, is_digit. rewrite !andb_true_iff, !Nat.leb_le. lia.
Qed.

(** A national number is ten digits, the first an ASCII digit from 6 to 9
    and the others of any script, and possibly a final newline. *)
Lemma national_number_shape n :
  national_number n = true ->
  exists ds e, n = ds +:+ e /\ string_forall is_digit_byte ds = true
               /\ py_len ds = 10%nat
               /\ (e = "" \/ e = String "010" "").
Proof.
  destruct n as [|c s]; [discriminate|]. cbn [national_number].
  rewrite andb_true_iff. intros [Hc Hd].
  apply digits_then_end_shape in Hd.
  destruct Hd as (ds & e & -> & Hds & Hl & He).
  exists (String c ds), e.
  pose proof (is_6_to_9_digit c Hc) as Hdig.
  rewrite string_forall_cons, Hds. cbn [py_len].
  rewrite (is_digit_single c Hdig), Hl.
  unfold is_digit_byte at 1. rewrite Hdig. repeat split; auto.
Qed.

Lemma valid_phone_shape phone :
  _is_valid_phone phone = true <->
  exists pre n, strip_separators phone = pre +:+ n
                /\ (pre = "" \/ pre = "91" \/ pre = "+91")
                /\ national_number n = true.
Proof.
  unfold _is_valid_phone. rewrite !orb_true_iff, !andb_true_iff. split.
  - intros [[[Hp Hn]|[Hp Hn]]|Hn].
    + exists "+91", (string_drop 3 (strip_separators phone)).
      split; [exact (prefix_drop "+91" _ Hp) | auto].
    + exists "91", (string_drop 2 (strip_separators phone)).
      split; [exact (prefix_drop "91" _ Hp) | auto].
    + exists "", (strip_separators phone). auto.
  - intros (pre & n & -> & [->|[->| ->]] & Hn).
    + right. exact Hn.
    + left. right. split; [apply prefix_append|].
      now rewrite (string_drop_append "91").
    + left. left. split; [apply prefix_append|].
      now rewrite (string_drop_append "+91").
Qed.

Lemma strip_separators_forall q s :
  string_forall q (strip_separators s) = true ->
  string_forall (fun c => q c || is_separator c) s = true.
Proof.
  induction s as [|c s IH]; [reflexivity|].
  cbn [strip_separators]. fold (is_separator c). rewrite string_forall_cons.
  destruct (is_separator c) eqn:E.
  - intros Hs. rewrite orb_true_r. exact (IH Hs).
  - rewrite string_forall_cons, andb_true_iff. intros [Hc Hs].
    rewrite Hc. exact (IH Hs).
Qed.

Lemma strip_separators_fixed s :
  string_forall (fun c => negb (is_separator c)) s = true -> strip_separators s = s.
Proof.
  induction s as [|c s IH]; [reflexivity|].
  rewrite string_forall_cons, andb_true_iff. intros [Hc Hs].
  cbn [strip_separators]. fold (is_separator c).
  apply negb_true_iff in Hc. rewrite Hc. now rewrite IH.
Qed.

Lemma single_line_strip s : single_line (strip_separators s) = single_line s.
Proof.
  unfold single_line. induction s as [|c s IH]; [reflexivity|].
  cbn [strip_separators]. fold (is_separator c). rewrite !string_forall_cons.
  destruct (is_separator c) eqn:E.
  - rewrite IH. unfold is_separator in E. apply orb_true_iff in E.
    destruct E as [E|E]; apply Ascii.eqb_eq in E; subst; reflexivity.
  - rewrite string_forall_cons. now rewrite IH.
Qed.

Lemma digit_is_plain c :
  is_digit_byte c = true ->
  is_separator c = false /\ Ascii.eqb c "010"%char = false /\ Ascii.eqb c "@"%char = false.
Proof.
  intros Hc. repeat split.
  - unfold is_separator. apply orb_false_iff.
    split; destruct (Ascii.eqb_spec c " "%char), (Ascii.eqb_spec c "-"%char);
      subst; try reflexivity; discriminate.
  - destruct (Ascii.eqb_spec c "010"%char); [subst; discriminate | reflexivity].
  - destruct (Ascii.eqb_spec c "@"%char); [subst; discriminate | reflexivity].
Qed.

Lemma digits_single_line ds :
  string_forall is_digit_byte ds = true ->
  single_line ds = true /\ strip_separators ds = ds.
Proof.
  intros Hd. split.
  - revert Hd. apply string_forall_impl. intros c Hc.
    now rewrite (proj1 (proj2 (digit_is_plain c Hc))).
  - apply strip_separators_fixed. revert Hd. apply string_forall_impl.
    intros c Hc. now rewrite (proj1 (digit_is_plain c Hc)).
Qed.

(** The three ways [_normalize_phone] goes. *)
Lemma normalize_plus phone n :
  strip_separators phone = "+91" +:+ n -> _normalize_phone phone = "+91" +:+ n.
Proof.
  intros E. unfold _normalize_phone. rewrite E.
  replace (String.prefix "91" ("+91" +:+ n)) with false by reflexivity.
  rewrite (prefix_append "+91"). reflexivity.
Qed.

Lemma normalize_91 phone n :
  strip_separators phone = "91" +:+ n ->
  _normalize_phone phone
  = if (py_len n =? 10)%nat then "+91" +:+ n
    else if (py_len n =? 8)%nat then "+91" +:+ "91" +:+ n
    else "91" +:+ n.
Proof.
  intros E. unfold _normalize_phone. rewrite E.
  rewrite (prefix_append "91"). cbn [andb].
  change (py_len ("91" +:+ n)) with (S (S (py_len n))).
  change (S (S (py_len n)) =? 12)%nat with (py_len n =? 10)%nat.
  change (S (S (py_len n)) =? 10)%nat with (py_len n =? 8)%nat.
  destruct (py_len n =? 10)%nat; [reflexivity|].
  replace (String.prefix "+91" ("91" +:+ n)) with false by reflexivity.
  reflexivity.
Qed.

Lemma normalize_national phone :
  national_number (strip_separators phone) = true ->
  py_len (strip_separators phone) <> 12%nat ->
  _normalize_phone phone
  = if (py_len (strip_separators phone) =? 10)%nat
    then "+91" +:+ strip_separators phone
    else strip_separators phone.
Proof.
  intros Hn Hl. unfold _normalize_phone.
  destruct (Nat.eqb_spec (py_len (strip_separators phone)) 12); [contradiction|].
  rewrite andb_false_r.
  destruct (String.prefix "+91" (strip_separators phone)) eqn:Hp; [|reflexivity].
  apply prefix_drop in Hp. rewrite Hp in Hn. discriminate.
Qed.

Lemma national_length n :
  national_number n = true ->
  (single_line n = true /\ py_len n = 10%nat)
  \/ (single_line n = false /\ py_len n = 11%nat).
Proof.
  intros Hn. apply national_number_shape in Hn.
  destruct Hn as (ds & e & -> & Hd & Hl & [->| ->]).
  - left. rewrite append_empty_r. split; [now apply digits_single_line | exact Hl].
  - right. split.
    + unfold single_line. rewrite string_forall_app.
      apply andb_false_iff. right. reflexivity.
    + rewrite py_len_app, Hl. reflexivity.
Qed.

Lemma single_line_prefixed pre n :
  pre = "" \/ pre = "91" \/ pre = "+91" -> single_line (pre +:+ n) = single_line n.
Proof.
  unfold single_line. rewrite string_forall_app.
  intros [->|[->| ->]]; reflexivity.
Qed.

(** X17: no text is both a phone number and an email address for this
    code.  What [_is_valid_phone] accepts is written with ASCII digits,
    the bytes of characters beyond ASCII (the decimal digits of other
    scripts, which [\d] admits as well), [+], spaces, dashes and a final
    newline; it holds no [@], which every email address has. *)
Theorem phone_is_no_email s :
  _is_valid_phone s = true ->
  string_forall is_phone_char s = true /\ _is_valid_email s = false.
Proof.
  intros Hv.
  assert (Hchars : string_forall is_phone_char s = true).
  { apply valid_phone_shape in Hv. destruct Hv as (pre & n & E & Hpre & Hn).
    apply national_number_shape in Hn.
    destruct Hn as (ds & e & -> & Hd & _ & He).
    apply (string_forall_impl
             (fun c => (is_digit_byte c || Ascii.eqb c "+" || Ascii.eqb c "010")%char
                       || is_separator c)).
    { intros c. unfold is_phone_char, one_of, is_separator. cbn [existsb list_ascii_of_string].
      destruct (is_digit_byte c), (Ascii.eqb c "+"), (Ascii.eqb c " "), (Ascii.eqb c "-"),
        (Ascii.eqb c "010"); cbn; congruence. }
    apply strip_separators_forall. rewrite E, !string_forall_app.
    repeat (apply andb_true_iff; split).
    - destruct Hpre as [->|[->| ->]]; reflexivity.
    - revert Hd. apply string_forall_impl. intros c ->. reflexivity.
    - destruct He as [->| ->]; reflexivity. }
  split; [exact Hchars|].
  destruct (_is_valid_email s) eqn:He; [|reflexivity].
  unfold _is_valid_email in He. apply local_then_rest_spec in He.
  destruct He as (l & rest & -> & _).
  rewrite !string_forall_app in Hchars.
  apply andb_true_iff in Hchars. destruct Hchars as [_ Hchars].
  apply andb_true_iff in Hchars. destruct Hchars as [Hat _]. discriminate.
Qed.

(** X18: a phone number that passes the check and has no newline is
    normalised to [+91] and its ten digits, whether it was written with or
    without the country code, with or without the plus sign, with spaces or
    dashes anywhere; the result passes the check and is left as it is by a
    second normalisation.  The ten digits are ten characters, the first an
    ASCII digit from 6 to 9; the others are kept as they were written, in
    whatever script. *)
Theorem normalize_phone_canonical phone :
  _is_valid_phone phone = true ->
  single_line phone = true ->
  exists n,
    national_number n = true /\ py_len n = 10%nat
    /\ (strip_separators phone = n \/ strip_separators phone = "91" +:+ n
        \/ strip_separators phone = "+91" +:+ n)
    /\ _normalize_phone phone = "+91" +:+ n
    /\ _is_valid_phone (_normalize_phone phone) = true
    /\ _normalize_phone (_normalize_phone phone) = _normalize_phone phone.
Proof.
  intros Hv Hs. apply valid_phone_shape in Hv.
  destruct Hv as (pre & n & E & Hpre & Hn).
  assert (Hsn : single_line n = true).
  { rewrite <- (single_line_prefixed pre n Hpre), <- E, single_line_strip. exact Hs. }
  destruct (national_length n Hn) as [[_ Hl]|[Hf _]]; [|congruence].
  assert (Hstrip : strip_separators ("+91" +:+ n) = "+91" +:+ n).
  { apply strip_separators_fixed. rewrite string_forall_app.
    apply andb_true_iff. split; [reflexivity|].
    pose proof Hn as Hshape. apply national_number_shape in Hshape.
    destruct Hshape as (ds & e & -> & Hd & _ & [->| ->]).
    - rewrite append_empty_r. revert Hd. apply string_forall_impl.
      intros c Hc. now rewrite (proj1 (digit_is_plain c Hc)).
    - unfold single_line in Hsn. rewrite string_forall_app in Hsn.
      apply andb_true_iff in Hsn. destruct Hsn as [_ Hsn]. discriminate. }
  assert (Hnorm : _normalize_phone phone = "+91" +:+ n).
  { destruct Hpre as [->|[->| ->]].
    - change ("" +:+ n) with n in E.
      rewrite normalize_national; rewrite E; trivial; [|lia].
      now rewrite Hl.
    - rewrite (normalize_91 phone n E), Hl. reflexivity.
    - exact (normalize_plus phone n E). }
  exists n. split; [exact Hn|]. split; [exact Hl|]. split.
  { destruct Hpre as [->|[->| ->]]; auto. }
  split; [exact Hnorm|]. rewrite Hnorm. split.
  - apply valid_phone_shape. exists "+91", n. auto.
  - exact (normalize_plus _ n Hstrip).
Qed.

(** X19: a phone number followed by a newline passes the check as well,
    but normalisation only takes its spaces and dashes away: no country
    code is added, the newline stays, and the result still passes the
    check.  The same number thus has a second identifier. *)
Theorem normalize_phone_final_newline phone :
  _is_valid_phone phone = true ->
  single_line phone = false ->
  _normalize_phone phone = strip_separators phone
  /\ single_line (_normalize_phone phone) = false
  /\ _is_valid_phone (_normalize_phone phone) = true.
Proof.
  intros Hv Hs. pose proof Hv as Hshape. apply valid_phone_shape in Hshape.
  destruct Hshape as (pre & n & E & Hpre & Hn).
  assert (Hsn : single_line n = false).
  { rewrite <- (single_line_prefixed pre n Hpre), <- E, single_line_strip. exact Hs. }
  destruct (national_length n Hn) as [[Ht _]|[_ Hl]]; [congruence|].
  assert (Hnorm : _normalize_phone phone = strip_separators phone).
  { destruct Hpre as [->|[->| ->]].
    - change ("" +:+ n) with n in E.
      rewrite normalize_national; rewrite E; trivial; [|lia].
      now rewrite Hl.
    - rewrite (normalize_91 phone n E), Hl, E. reflexivity.
    - rewrite (normalize_plus phone n E), E. reflexivity. }
  split; [exact Hnorm|]. rewrite Hnorm, single_line_strip. split; [exact Hs|].
  apply valid_phone_shape. exists pre, n. split; [|auto].
  rewrite <- E. apply strip_separators_fixed.
  clear. induction phone as [|c s IH]; [reflexivity|].
  cbn [strip_separators]. fold (is_separator c).
  destruct (is_separator c) eqn:Ec; [exact IH|].
  rewrite string_forall_cons, Ec. exact IH.
Qed.

End PhoneNumbers.

(** A number whose last digit is the Devanagari one: it passes the check
    and is no email address. *)
Lemma phone_is_no_email_witness :
  string_forall is_phone_char ("+91 98765-4321" +:+ Demo.devanagari_one) = true
  /\ AuthServiceOtp._is_valid_email ("+91 98765-4321" +:+ Demo.devanagari_one) = false.
Proof.
  exact (@phone_is_no_email Demo.collaborators
           ("+91 98765-4321" +:+ Demo.devanagari_one) eq_refl).
Defined.

Lemma normalize_phone_canonical_witness :
  exists n,
    @AuthService.national_number Demo.collaborators n = true
    /\ AuthService.py_len n = 10%nat
    /\ (AuthService.strip_separators "98765-43210" = n
        \/ AuthService.strip_separators "98765-43210" = "91" +:+ n
        \/ AuthService.strip_separators "98765-43210" = "+91" +:+ n)
    /\ AuthServiceOtp._normalize_phone "98765-43210" = "+91" +:+ n
    /\ @AuthService._is_valid_phone Demo.collaborators
         (AuthServiceOtp._normalize_phone "98765-43210") = true
    /\ AuthServiceOtp._normalize_phone (AuthServiceOtp._normalize_phone "98765-43210")
       = AuthServiceOtp._normalize_phone "98765-43210".
Proof.
  exact (@normalize_phone_canonical Demo.collaborators "98765-43210" eq_refl eq_refl).
Defined.

(** The number 98765 43210 with a newline after it is left without the
    country code. *)
Lemma normalize_phone_final_newline_witness :
  AuthServiceOtp._normalize_phone ("98765 43210" +:+ String "010" "")
  = AuthService.strip_separators ("98765 43210" +:+ String "010" "")
  /\ single_line (AuthServiceOtp._normalize_phone ("98765 43210" +:+ String "010" ""))
     = false
  /\ @AuthService._is_valid_phone Demo.collaborators
       (AuthServiceOtp._normalize_phone ("98765 43210" +:+ String "010" "")) = true.
Proof.
  exact (@normalize_phone_final_newline Demo.collaborators
           ("98765 43210" +:+ String "010" "") eq_refl eq_refl).
Defined.

Example normalize_phone_examples :
  AuthServiceOtp._normalize_phone "+91 9876 543 210" = "+919876543210"
  /\ AuthServiceOtp._normalize_phone "919876543210" = "+919876543210"
  /\ AuthServiceOtp._normalize_phone ("9876543210" +:+ String "010" "")
     = "9876543210" +:+ String "010" ""
  /\ AuthServiceOtp._normalize_phone ("98765 4321" +:+ Demo.devanagari_one)
     = "+91987654321" +:+ Demo.devanagari_one
  /\ AuthService.py_len ("987654321" +:+ Demo.devanagari_one) = 10%nat
  /\ String.length ("987654321" +:+ Demo.devanagari_one) = 12%nat
  /\ AuthServiceOtp._is_valid_email "user+tag@domain.co.in" = true
  /\ AuthServiceOtp._is_valid_email "user@domain" = false
  /\ AuthServiceOtp._is_valid_email "@domain.com" = false.
Proof. repeat split; reflexivity. Qed.

(** ** Stepping through a computation of the second part *)

Section PyStepping.

Lemma py_bind_ok {A B} (m : Py A) (k : A -> Py B) w a w1 :
  m w = (Returned a, w1) -> py_bind m k w = k a w1.
Proof. intros E. unfold py_bind. now rewrite E. Qed.

Lemma py_bind_raise {A B} (m : Py A) (k : A -> Py B) w e w1 :
  m w = (Raised e, w1) -> py_bind m k w = (Raised e, w1).
Proof. intros E. unfold py_bind. now rewrite E. Qed.

Lemma py_try_ok {A} (m : Py A) h w a w1 :
  m w = (Returned a, w1) -> py_try m h w = (Returned a, w1).
Proof. intros E. unfold py_try. now rewrite E. Qed.

Lemma py_try_raise {A} (m : Py A) h w e w1 :
  m w = (Raised e, w1) -> py_try m h w = h e w1.
Proof. intros E. unfold py_try. now rewrite E. Qed.

Lemma lift_ok {A} (m : M A) w a w1 :
  m w = (Ok a, w1) -> lift m w = (Returned a, w1).
Proof. intros E. unfold lift. now rewrite E. Qed.

Lemma lift_raise {A} (m : M A) w e w1 :
  m w = (Raise e, w1) -> lift m w = (Raised (Inner e), w1).
Proof. intros E. unfold lift. now rewrite E. Qed.

End PyStepping.

Ltac py_run_with tac := erewrite py_bind_ok by tac; cbn beta iota.
Ltac py_lift tac := erewrite py_bind_ok by (apply lift_ok; tac); cbn beta iota.
Ltac py_pure := py_run_with ltac:(reflexivity).

(** ** Sending a code *)

Section SendOtp.
Context `{Collaborators} `{Issuing}.
Import AuthService AuthServiceOtp AuthServiceApi.

(** X20: a contact that is neither a phone number nor an email address is
    turned down before any store is asked, whatever state the stores are
    in: [send_otp] raises the text of its [ValueError], and the login route
    answers 400 with that text. *)
Theorem send_otp_rejects_malformed phone_or_email w :
  _is_valid_phone phone_or_email = false ->
  _is_valid_email phone_or_email = false ->
  send_otp phone_or_email w
  = (Raised (ExceptionOf "Invalid phone number or email format"),
     logged WARNING "Invalid input for OTP request" w)
  /\ Routes.login phone_or_email w
     = (Raised (HTTPError 400 "Invalid phone number or email format"),
        logged WARNING "Login attempt failed"
          (logged WARNING "Invalid input for OTP request" w)).
Proof.
  intros Hp He.
  assert (Hs : send_otp phone_or_email w
               = (Raised (ExceptionOf "Invalid phone number or email format"),
                  logged WARNING "Invalid input for OTP request" w)).
  { unfold send_otp. eapply eq_trans.
    - eapply py_try_raise. apply py_bind_raise. rewrite Hp, He. reflexivity.
    - reflexivity. }
  split; [exact Hs|].
  unfold Routes.login. eapply eq_trans.
  - eapply py_try_raise. apply py_bind_raise. exact Hs.
  - reflexivity.
Qed.

Lemma send_otp_contact phone_or_email identifier kind (k : string * string -> Py OtpSent) w :
  contact_of phone_or_email = Some (identifier, kind) ->
  py_bind
    (if _is_valid_phone phone_or_email
     then py_return (_normalize_phone phone_or_email, "phone")
     else if _is_valid_email phone_or_email
     then py_return (lower phone_or_email, "email")
     else py_raise (ValueErrorOf "Invalid phone number or email format")) k w
  = k (identifier, kind) w.
Proof.
  unfold contact_of.
  destruct (_is_valid_phone phone_or_email); [|destruct (_is_valid_email phone_or_email)];
    intros E; inversion E; subst; reflexivity.
Qed.

(** X21: when the limit on codes refuses, the caller is not told so:
    [send_otp] raises its general text, not the one with the minutes to
    wait, and the login route answers 400 with the general text.  No code
    is drawn and nothing is stored. *)
Theorem send_otp_hides_the_limit phone_or_email identifier kind r w w1 :
  contact_of phone_or_email = Some (identifier, kind) ->
  _check_rate_limit identifier "otp" w = (Ok (false, r), w1) ->
  send_otp phone_or_email w
  = (Raised (ExceptionOf "Failed to send OTP. Please try again."),
     logged ERROR "Failed to send OTP" w1)
  /\ Routes.login phone_or_email w
     = (Raised (HTTPError 400 "Failed to send OTP. Please try again."),
        logged WARNING "Login attempt failed" (logged ERROR "Failed to send OTP" w1)).
Proof.
  intros Hc Hr.
  assert (Hs : send_otp phone_or_email w
               = (Raised (ExceptionOf "Failed to send OTP. Please try again."),
                  logged ERROR "Failed to send OTP" w1)).
  { unfold send_otp. eapply eq_trans.
    - eapply py_try_raise. rewrite (send_otp_contact _ _ _ _ _ Hc). cbn beta iota.
      py_lift ltac:(exact Hr). reflexivity.
    - reflexivity. }
  split; [exact Hs|].
  unfold Routes.login. eapply eq_trans.
  - eapply py_try_raise. apply py_bind_raise. exact Hs.
  - reflexivity.
Qed.

Lemma urandom_draw w :
  urandom w = (Ok (hd 0 (entropy w)), set_entropy (tail (entropy w)) w).
Proof. reflexivity. Qed.

Lemma insert_otp_quiet data w :
  faults w = [] ->
  insert_otp data w
  = (Ok [data (next_id w)],
     set_next_id (next_id w + 1)
       (set_otp_verifications (otp_verifications w ++ [data (next_id w)]) w)).
Proof.
  intros E. unfold insert_otp. now rewrite (bind_ok _ _ _ _ _ (round_trip_quiet w E)).
Qed.

Lemma store_otp_quiet identifier otp hash w :
  faults w = [] ->
  pwd_hash (hd 0 (tail (entropy w))) otp = Some hash ->
  _store_otp identifier otp w
  = (Returned (token_urlsafe (hd 0 (entropy w))),
     set_cache
       (<[otp_token_key (token_urlsafe (hd 0 (entropy w))) :=
            CEntry (CNum (next_id w)) (Some (now w + 300))]> (cache w))
       (set_next_id (next_id w + 1)
          (set_otp_verifications
             (otp_verifications w
              ++ [OtpRow (next_id w) identifier hash 0 false (now w + 300)])
             (set_entropy (tail (tail (entropy w))) w)))).
Proof.
  intros Hq Hh. unfold _store_otp. apply py_try_ok.
  py_lift ltac:(apply urandom_draw).
  py_lift ltac:(apply urandom_draw).
  cbn [entropy set_entropy]. rewrite Hh.
  py_lift ltac:(reflexivity).
  py_lift ltac:(apply insert_otp_quiet; exact Hq).
  py_lift ltac:(apply redis_setex_quiet; exact Hq).
  reflexivity.
Qed.

Lemma cache_lookup_inserted w w' k e k' :
  cache w' = <[k := e]> (cache w) -> now w' = now w -> k <> k' ->
  cache_lookup w' k' = cache_lookup w k'.
Proof.
  intros Hc Hn Hk. unfold cache_lookup, cache_entry.
  now rewrite Hc, Hn, lookup_insert_ne.
Qed.

Lemma send_otp_notification_logs identifier otp w :
  _send_otp_notification identifier otp w
  = (Returned true, set_log (notification identifier otp :: log w) w).
Proof.
  unfold _send_otp_notification, notification. apply py_try_ok.
  destruct (_is_valid_phone identifier); reflexivity.
Qed.

(** X22: a code that was sent is accepted, and no session comes of it.
    With both stores answering and fewer than 5 codes on the counter,
    [send_otp] stores the hash of the code it drew under a new token,
    writes the code into the log, counts the code and returns the token.
    For the next five minutes [verify_otp] with that token and code marks
    the record verified, resolves the vendor of the normalised contact and
    stores a session row for it, and then raises "Failed to create
    session"; after more than five minutes the token is reported as
    invalid, whatever code is given. *)
Theorem send_then_verify phone_or_email identifier kind w n hash t :
  faults w = [] ->
  contact_of phone_or_email = Some (identifier, kind) ->
  count_reply (cache_lookup w (rate_limit_key "otp" identifier)) = Some n ->
  n < 5 ->
  let otp := otp_of (draws 6 (entropy w)) in
  let token := token_urlsafe (hd 0 (tails 6 (entropy w))) in
  pwd_hash (hd 0 (tails 7 (entropy w))) otp = Some hash ->
  pwd_verify otp hash = Some true ->
  otp_rows (CNum (next_id w)) w = [] ->
  0 <= t ->
  let w1 := code_sent identifier otp hash n w in
  send_otp phone_or_email w
  = (Returned (mkOtpSent true ("OTP sent to " +:+ kind) token 300), w1)
  /\ hd_error (log w1) = Some (notification identifier otp)
  /\ (t < 300 ->
      exists w2 s,
        verify_otp token otp (advance t w1) = (Raise (Exception MFailedSession), w2)
        /\ otp_rows (CNum (next_id w)) w2
           = [OtpRow (next_id w) identifier hash 1 true (now w + 300)]
        /\ vendor_sessions w2 = vendor_sessions w ++ [s]
        /\ session_vendor_id s
           = vendor_id (fst (vendor_resolved identifier
                               (attempt_recorded (CNum (next_id w)) 1 true
                                  (advance t w1))))
        /\ session_expires_at s = now w + t + 30 * 86400)
  /\ (300 < t ->
      forall code,
        verify_otp token code (advance t w1)
        = (Raise TokenInvalid, logged ERROR "OTP verification failed" (advance t w1))).
Proof.
  intros Hq Hc Hn Hlt otp token Hh Hv Hfresh Ht w1.
  assert (Hkeys : rate_limit_key "otp" identifier <> otp_token_key token).
  { unfold rate_limit_key, otp_token_key. cbn. discriminate. }
  assert (Htok : cache (advance t w1) !! otp_token_key token
                 = Some (CEntry (CNum (next_id w)) (Some (now w + 300)))).
  { subst w1. unfold code_sent, tallied, code_issued.
    cbn [cache advance set_cache set_log set_next_id set_otp_verifications set_entropy].
    rewrite lookup_insert_ne by exact Hkeys. apply lookup_insert_eq. }
  assert (Hnow : now (advance t w1) = now w + t) by reflexivity.
  assert (Hq1 : faults (advance t w1) = []) by exact Hq.
  split; [|split; [reflexivity|split]].
  - unfold send_otp. apply py_try_ok.
    rewrite (send_otp_contact _ _ _ _ _ Hc). cbn beta iota.
    py_lift ltac:(apply check_rate_limit_below with (n := n); trivial).
    cbn [negb].
    py_lift ltac:(apply join_choices_draws).
    py_run_with ltac:(apply store_otp_quiet with (hash := hash); [exact Hq | exact Hh]).
    py_run_with ltac:(apply send_otp_notification_logs).
    cbn [negb].
    py_lift ltac:(apply increment_rate_limit_quiet with (n := n);
                  [exact Hq
                  |erewrite cache_lookup_inserted;
                   [exact Hn | reflexivity | reflexivity | apply not_eq_sym, Hkeys]]).
    reflexivity.
  - intros Hin.
    pose (r := OtpRow (next_id w) identifier hash 0 false (now w + 300)).
    assert (Hrows : otp_rows (CNum (next_id w)) (advance t w1) = [r]).
    { subst w1. unfold otp_rows, code_sent, tallied, code_issued.
      cbn [otp_verifications advance set_cache set_log set_next_id
           set_otp_verifications set_entropy].
      rewrite filter_app. unfold otp_rows in Hfresh. rewrite Hfresh.
      cbn [app]. rewrite filter_cons. cbn [otp_id_matches otp_id].
      rewrite Z.eqb_refl. reflexivity. }
    set (wv := attempt_recorded (CNum (next_id w)) 1 true (advance t w1)).
    destruct (vendor_resolved_frame identifier wv) as (Hf2 & Hn2 & _ & Ho2 & Hs2).
    eexists _, _. split.
    + apply (verify_otp_accepted token otp (advance t w1) (CNum (next_id w)) r []);
        trivial.
      * apply (cache_lookup_live _ _ _ (now w + 300) Htok). rewrite Hnow. lia.
      * rewrite Hnow. cbn [otp_expires_at r].
        destruct (Z.gtb_spec (now w + t) (now w + 300)); [lia | reflexivity].
    + cbn [otp_attempts otp_phone_or_email r Z.add Pos.add].
      change (0 + 1) with 1. fold wv.
      split; [|split; [|split]].
      * unfold otp_rows.
        cbn [otp_verifications logged session_stored set_log set_next_id
             set_vendor_sessions].
        rewrite Ho2.
        change (filter (fun r0 => otp_id_matches (CNum (next_id w)) r0)
                  (otp_verifications wv))
          with (otp_rows (CNum (next_id w))
                  (otp_updated (CNum (next_id w)) (with_verified 1) (advance t w1))).
        rewrite otp_rows_updated by reflexivity. rewrite Hrows. reflexivity.
      * cbn [vendor_sessions logged session_stored set_log set_next_id
             set_vendor_sessions].
        rewrite Hs2. reflexivity.
      * reflexivity.
      * cbn [session_expires_at]. rewrite Hn2. reflexivity.
  - intros Hout code. apply verify_otp_no_mapping; [exact Hq1|].
    apply (cache_lookup_stale _ _ _ Htok).
    unfold live. cbn [c_expiry]. rewrite Hnow.
    destruct (Z.ltb_spec (now w + t) (now w + 300)); [lia | reflexivity].
Qed.

End SendOtp.

(** ** Sessions: refreshing, logging out, authenticating *)

Section SessionLife.
Context `{Collaborators}.
Import AuthService AuthServiceApi.

Lemma filter_out_then_in {A} (p : A -> bool) l :
  filter (fun r => p r) (filter (fun r => negb (p r)) l) = [].
Proof.
  induction l as [|r l IH]; [reflexivity|].
  rewrite filter_cons. destruct (p r) eqn:E; simpl.
  - exact IH.
  - rewrite filter_cons, E. simpl. exact IH.
Qed.

Lemma filter_nil_filter {A} (p q : A -> bool) l :
  filter (fun r => p r) l = [] ->
  filter (fun r => p r) (filter (fun r => q r) l) = [].
Proof.
  induction l as [|r l IH]; [reflexivity|].
  rewrite !filter_cons. destruct (p r) eqn:E; simpl; [discriminate|].
  intros Hl. destruct (q r); simpl; [rewrite filter_cons, E; simpl|]; auto.
Qed.

Lemma filter_nil_map {A} (p : A -> bool) (f : A -> A) l :
  (forall r, p (f r) = p r) ->
  filter (fun r => p r) l = [] ->
  filter (fun r => p r) (map f l) = [].
Proof.
  intros Hf. induction l as [|r l IH]; [reflexivity|].
  cbn [map]. rewrite !filter_cons, Hf. destruct (p r); simpl; [discriminate|].
  exact IH.
Qed.

Lemma validate_session_gone access w :

  faults w = [] ->
  cache_lookup w (vendor_session_key access) = None ->
  session_rows access w = [] ->
  validate_session access w = (Ok None, w).
Proof.
  intros Hq Hc Hr. unfold validate_session.
  destruct (jwt_decode access (now w)) as [[type sub]|] eqn:Hd.
  - apply try_ok.
    run_with ltac:(apply redis_get_quiet; exact Hq). rewrite Hc.
    run_pure. run_pure. rewrite Hd.
    destruct (negb (option_string_is "access" type)); [reflexivity|].
    run_with ltac:(apply select_session_quiet; exact Hq). rewrite Hr.
    reflexivity.
  - eapply eq_trans.
    + eapply try_raise.
      run_with ltac:(apply redis_get_quiet; exact Hq). rewrite Hc.
      run_pure. run_pure. rewrite Hd. reflexivity.
    + reflexivity.
Qed.



Lemma delete_session_by_token_quiet token w :
  faults w = [] ->
  delete_session_by_token token w
  = (Ok tt,
     set_vendor_sessions
       (filter (fun r => negb (String.eqb (session_token r) token))
               (vendor_sessions w)) w).
Proof.
  intros E. unfold delete_session_by_token.
  now rewrite (bind_ok _ _ _ _ _ (round_trip_quiet w E)).
Qed.


Lemma logout_quiet access w :
  faults w = [] ->
  logout access w = (Returned "Logged out successfully", logged_out access w).
Proof.
  intros Hq. unfold logout. apply py_try_ok.
  py_lift ltac:(apply delete_session_by_token_quiet; exact Hq).
  py_lift ltac:(apply redis_delete_quiet; exact Hq).
  reflexivity.
Qed.

(** X23: the dependency that authenticates a request has one answer for
    every failure: it returns the session that [validate_session] found,
    and whenever [validate_session] found none it answers 401 with
    "Authentication failed"; its own text for that case, "Invalid or
    expired token", is never sent. *)
Theorem get_current_vendor_answer credentials w :
  exists found w1,
    validate_session credentials w = (Ok found, w1)
    /\ Routes.get_current_vendor credentials w
       = match found with
         | Some session => (Returned session, w1)
         | None => (Raised (HTTPError 401 "Authentication failed"),
                    logged ERROR "Authentication failed" w1)
         end.
Proof.
  destruct (validate_session_total credentials w) as (found & w1 & E).
  exists found, w1. split; [exact E|].
  unfold Routes.get_current_vendor, py_try, py_bind, lift. rewrite E.
  destruct found; reflexivity.
Qed.

(** X24: after [logout] the access token is worth nothing: with both
    stores answering, [logout] removes the session rows and the cache entry
    of the token, and from then on [validate_session] returns [None] for
    it and the authenticating dependency answers 401, whatever the token
    itself says. *)
Theorem logout_ends_the_session access w t :
  faults w = [] ->
  0 <= t ->
  let w1 := logged_out access w in
  logout access w = (Returned "Logged out successfully", w1)
  /\ validate_session access (advance t w1) = (Ok None, advance t w1)
  /\ Routes.get_current_vendor access (advance t w1)
     = (Raised (HTTPError 401 "Authentication failed"),
        logged ERROR "Authentication failed" (advance t w1)).
Proof.
  intros Hq Ht w1.
  assert (Hv : validate_session access (advance t w1) = (Ok None, advance t w1)).
  { apply validate_session_gone; [exact Hq| |].
    - unfold cache_lookup, cache_entry. subst w1.
      cbn [cache advance logged_out set_cache]. now rewrite lookup_delete_eq.
    - unfold session_rows. subst w1.
      cbn [vendor_sessions advance logged_out set_cache set_vendor_sessions].
      apply filter_out_then_in. }
  split; [now apply logout_quiet|]. split; [exact Hv|].
  unfold Routes.get_current_vendor, py_try, py_bind, lift. now rewrite Hv.
Qed.


End SessionLife.

(** ** What a failed refresh tells the caller *)

Section RefreshTexts.
Context `{Collaborators}.
Import AuthService AuthServiceApi.

Lemma answers_return {A} (Q : A -> Prop) a : Q a -> answers Q (py_return a).
Proof. intros Ha w r w' E. inversion E; subst. exact Ha. Qed.

Lemma answers_raise {A} (Q : A -> Prop) e :
  is_jwt_error e = false -> answers Q (py_raise e).
Proof. intros He w r w' E. inversion E; subst. exact He. Qed.

Lemma answers_bind {A B} (Q : B -> Prop) (m : Py A) (k : A -> Py B) :
  answers (fun _ => True) m -> (forall a, answers Q (k a)) -> answers Q (py_bind m k).
Proof.
  intros Hm Hk w r w' E. unfold py_bind in E.
  destruct (m w) as [[a|e] w1] eqn:Em.
  - exact (Hk a w1 r w' E).
  - inversion E; subst. exact (Hm w _ _ Em).
Qed.

Lemma answers_lift {A} (m : M A) : store_only m -> answers (fun _ => True) (lift m).
Proof.
  intros Hm w r w' E. unfold lift in E.
  destruct (m w) as [[a|e] w1] eqn:Em; inversion E; subst; [exact I|].
  now rewrite (Hm w e w' Em).
Qed.

Ltac store_only_op :=
  let w := fresh "w" in
  let E := fresh "E" in
  intros w ? ? E;
  unfold select_session_by_refresh, delete_session_by_id, retoken_session,
    _generate_jwt_tokens, redis_setex, cache_put, time_time, bind, round_trip, ret in E;
  destruct (faults w) as [|[] ?]; inversion E; reflexivity.

(** X26: a caller of [refresh_token] learns one of two things from a
    failure.  When the token does not decode the text is "Invalid refresh
    token"; in every other case (an access token, a token without subject,
    no session, an expired session, a store that fails) the text is
    "Failed to refresh token", and the texts written for those cases do
    not leave the function.  The route answers 401 with the text it
    gets.  A success is of type "bearer" for 3600 seconds, and only a token
    that decodes can have one. *)
Theorem refresh_token_failure_texts rt w :
  exists r w',
    refresh_token rt w = (r, w')
    /\ Routes.refresh_token rt w
       = match r with
         | Returned x => (Returned x, w')
         | Raised e => (Raised (HTTPError 401 (str_failure e)),
                        logged WARNING "Token refresh failed" w')
         end
    /\ match r with
       | Returned x =>
           jwt_decode rt (now w) <> None
           /\ token_type x = "bearer" /\ new_expires_in x = 3600
       | Raised e =>
           e = match jwt_decode rt (now w) with
               | None => ExceptionOf "Invalid refresh token"
               | Some _ => ExceptionOf "Failed to refresh token"
               end
       end.
Proof.
  assert (Hroute : forall r w',
            refresh_token rt w = (r, w') ->
            Routes.refresh_token rt w
            = match r with
              | Returned x => (Returned x, w')
              | Raised e => (Raised (HTTPError 401 (str_failure e)),
                             logged WARNING "Token refresh failed" w')
              end).
  { intros r w' E. unfold Routes.refresh_token, py_try. rewrite E.
    destruct r; reflexivity. }
  destruct (jwt_decode rt (now w)) as [[type sub]|] eqn:Hd.
  2:{ assert (E : refresh_token rt w
                  = (Raised (ExceptionOf "Invalid refresh token"),
                     logged WARNING "JWT error during token refresh" w)).
      { unfold refresh_token. eapply eq_trans.
        - eapply py_try_raise. py_lift ltac:(reflexivity). rewrite Hd. reflexivity.
        - reflexivity. }
      eexists _, _. split; [exact E|]. split; [exact (Hroute _ _ E)|]. reflexivity. }
  set (Q := fun x : Refreshed => token_type x = "bearer" /\ new_expires_in x = 3600).
  assert (Hbody : exists body : Py Refreshed,
            answers Q body
            /\ refresh_token rt w
               = py_try body
                   (fun e =>
                      if is_jwt_error e then
                        lift (logger WARNING "JWT error during token refresh") ;;~
                        py_raise (ExceptionOf "Invalid refresh token")
                      else
                        lift (logger ERROR "Token refresh failed") ;;~
                        py_raise (ExceptionOf "Failed to refresh token")) w).
  { eexists. split; [|unfold refresh_token, py_try;
                      erewrite py_bind_ok by (apply lift_ok; reflexivity);
                      cbn beta iota; rewrite Hd; reflexivity].
    destruct (negb (option_string_is "refresh" type));
      [apply answers_raise; reflexivity|].
    destruct sub as [vendor_id|]; [|apply answers_raise; reflexivity].
    apply answers_bind; [apply answers_lift; store_only_op|].
    intros [|session rest]; [apply answers_raise; reflexivity|].
    apply answers_bind; [apply answers_lift; store_only_op|]. intros t.
    destruct (t >? session_expires_at session).
    { apply answers_bind; [apply answers_lift; store_only_op|]. intros _.
      apply answers_raise; reflexivity. }
    apply answers_bind; [apply answers_lift; store_only_op|]. intros tokens.
    apply answers_bind; [apply answers_lift; store_only_op|]. intros t'.
    apply answers_bind; [apply answers_lift; store_only_op|]. intros _.
    apply answers_bind.
    { intros w0 r0 w0' E0. unfold lift, redis_setex_dict, raise in E0.
      inversion E0; subst. reflexivity. }
    intros _. apply answers_return. split; reflexivity. }
  destruct Hbody as (body & Hans & Hrun).
  destruct (body w) as [[x|e] w1] eqn:Eb.
  - assert (E : refresh_token rt w = (Returned x, w1)).
    { rewrite Hrun. unfold py_try. now rewrite Eb. }
    eexists _, _. split; [exact E|]. split; [exact (Hroute _ _ E)|].
    split; [discriminate|]. exact (Hans w _ _ Eb).
  - pose proof (Hans w _ _ Eb) as Hj. cbn beta iota in Hj.
    assert (E : refresh_token rt w
                = (Raised (ExceptionOf "Failed to refresh token"),
                   logged ERROR "Token refresh failed" w1)).
    { rewrite Hrun. unfold py_try. rewrite Eb, Hj. reflexivity. }
    eexists _, _. split; [exact E|]. split; [exact (Hroute _ _ E)|]. reflexivity.
Qed.

End RefreshTexts.

(** ** The decorator *)

Section Decorator.
Import RateLimitDecorator.

Lemma incr_expire_then {A} k ttl n w (rest : Py A) :
  faults w = [] ->
  count_reply (cache_lookup w k) = Some n ->
  incrementable n = true ->
  py_bind (lift (redis_incr k)) (fun _ => py_bind (lift (redis_expire k ttl)) (fun _ => rest)) w
  = rest (set_cache (<[k := CEntry (CNum (n + 1)) (Some (now w + ttl))]> (cache w)) w).
Proof.
  intros Hq Hn Hi. pose proof (incr_expire_quiet k ttl n w Hq Hn Hi) as E.
  unfold bind in E. unfold py_bind, lift.
  destruct (redis_incr k w) as [[a|e] w1]; [|discriminate].
  now rewrite E.
Qed.

Lemma window_end_ahead t period :
  0 < period -> 0 < (t / period + 1) * period - t <= period.
Proof.
  intros Hp. pose proof (Z.div_mod t period ltac:(lia)) as E.
  pose proof (Z.mod_pos_bound t period Hp) as B. nia.
Qed.

Lemma caller_found request name w :
  caller (as_argument request) name w = (Returned (caller_text request name), w).
Proof. destruct request; reflexivity. Qed.

(** X27: the decorator keeps one counter for each caller, path and window
    of [period] seconds, a positive number of 31 bits.  For a call whose
    request, if it has one, is a [Request], with the cache answering: a
    call that finds the count below
    [calls] is counted and the wrapped function runs in the world with the
    counter raised by one (a counter at the end of the 64-bit range cannot
    be raised: the error is logged and the function runs uncounted); a
    call that finds the count at [calls] or beyond is refused with status
    429 before the function runs, nothing is counted, and the refusal
    names the end of the window, which lies between 1 and [period] seconds
    ahead.  A call whose keyword argument [request] is an object of
    another class, as the text-to-speech routes have it, is neither
    admitted nor refused: reading [request.client] raises
    [AttributeError] before anything is counted, in every state, and the
    function does not run. *)
Theorem decorator_admission {A} calls period name (func : Py A) request w n :
  faults w = [] ->
  redis_ready w = true ->
  0 < period < 2 ^ 31 ->
  let key := endpoint_key (caller_text request name) (now w / period) in
  count_reply (cache_lookup w key) = Some n ->
  let reset := (now w / period + 1) * period in
  (n < calls -> incrementable n = true ->
   rate_limit calls period name func (as_argument request) w
   = func (set_cache (<[key := CEntry (CNum (n + 1)) (Some (now w + period))]> (cache w)) w))
  /\ (n < calls -> incrementable n = false ->
      rate_limit calls period name func (as_argument request) w
      = func (logged ERROR "Rate limit check failed" w))
  /\ (calls <= n ->
      rate_limit calls period name func (as_argument request) w
      = (Raised (Inner (HTTPException 429 (MRateLimited (reset - now w))
                          (limit_headers calls reset (reset - now w)))), w))
  /\ 0 < reset - now w <= period
  /\ (forall class_name w0,
        rate_limit calls period name func (AnotherObject class_name) w0
        = (Raised (AttributeErrorOf
                     ("'" +:+ class_name +:+ "' object has no attribute 'client'")),
           w0)).
Proof.
  intros Hq Hr [Hp _] key Hn reset.
  assert (Hz : (period =? 0) = false) by (apply Z.eqb_neq; lia).
  split; [|split; [|split; [|split; [now apply window_end_ahead|]]]].
  - intros Hlt Hi. unfold rate_limit.
    rewrite (py_bind_ok _ _ _ _ _ (caller_found request name w)).
    eapply eq_trans.
    + apply py_bind_ok. apply py_try_ok.
      py_lift ltac:(apply get_redis_ready; exact Hr).
      py_lift ltac:(reflexivity). rewrite Hz.
      py_lift ltac:(apply redis_get_quiet; exact Hq).
      py_lift ltac:(apply int_or_zero_count; exact Hn).
      destruct (Z.geb_spec n calls); [lia|].
      apply (incr_expire_then _ period n w (py_return tt) Hq Hn Hi).
    + reflexivity.
  - intros Hlt Hi. unfold rate_limit.
    rewrite (py_bind_ok _ _ _ _ _ (caller_found request name w)).
    eapply eq_trans.
    + apply py_bind_ok. eapply eq_trans.
      * eapply py_try_raise.
        py_lift ltac:(apply get_redis_ready; exact Hr).
        py_lift ltac:(reflexivity). rewrite Hz.
        py_lift ltac:(apply redis_get_quiet; exact Hq).
        py_lift ltac:(apply int_or_zero_count; exact Hn).
        destruct (Z.geb_spec n calls); [lia|].
        apply py_bind_raise. apply lift_raise.
        apply (incr_refused _ n); assumption.
      * reflexivity.
    + reflexivity.
  - intros Hge. unfold rate_limit.
    rewrite (py_bind_ok _ _ _ _ _ (caller_found request name w)).
    apply py_bind_raise. eapply eq_trans.
    + eapply py_try_raise.
      py_lift ltac:(apply get_redis_ready; exact Hr).
      py_lift ltac:(reflexivity). rewrite Hz.
      py_lift ltac:(apply redis_get_quiet; exact Hq).
      py_lift ltac:(apply int_or_zero_count; exact Hn).
      destruct (Z.geb_spec n calls); [|lia]. reflexivity.
    + reflexivity.
  - intros class_name w0. reflexivity.
Qed.

(** X28: for a call whose request, if it has one, is a [Request], the
    decorator never stands in the way when it cannot count: if the cache
    client was not initialised, if the period is 0, or if the cache fails
    on the first round trip, the error is logged and the wrapped function
    runs. *)
Theorem decorator_fails_open {A} calls period name (func : Py A) request w :
  (redis_ready w = false ->
   rate_limit calls period name func (as_argument request) w
   = func (logged ERROR "Rate limit check failed" w))
  /\ (redis_ready w = true -> period = 0 ->
      rate_limit calls period name func (as_argument request) w
      = func (logged ERROR "Rate limit check failed" w))
  /\ (forall fs, redis_ready w = true -> period <> 0 -> faults w = true :: fs ->
      rate_limit calls period name func (as_argument request) w
      = func (logged ERROR "Rate limit check failed" (set_faults fs w))).
Proof.
  split; [|split].
  - intros Hr. unfold rate_limit.
    rewrite (py_bind_ok _ _ _ _ _ (caller_found request name w)).
    eapply eq_trans.
    + apply py_bind_ok. eapply eq_trans.
      * eapply py_try_raise. apply py_bind_raise. apply lift_raise.
        unfold get_redis. rewrite Hr. reflexivity.
      * reflexivity.
    + reflexivity.
  - intros Hr ->. unfold rate_limit.
    rewrite (py_bind_ok _ _ _ _ _ (caller_found request name w)).
    eapply eq_trans.
    + apply py_bind_ok. eapply eq_trans.
      * eapply py_try_raise.
        py_lift ltac:(apply get_redis_ready; exact Hr).
        py_lift ltac:(reflexivity). reflexivity.
      * reflexivity.
    + reflexivity.
  - intros fs Hr Hp Hf. unfold rate_limit.
    rewrite (py_bind_ok _ _ _ _ _ (caller_found request name w)).
    eapply eq_trans.
    + apply py_bind_ok. eapply eq_trans.
      * eapply py_try_raise.
        py_lift ltac:(apply get_redis_ready; exact Hr).
        py_lift ltac:(reflexivity).
        destruct (Z.eqb_spec period 0); [contradiction|].
        apply py_bind_raise. apply lift_raise.
        unfold redis_get. apply bind_raise. unfold round_trip. rewrite Hf. reflexivity.
      * reflexivity.
    + reflexivity.
Qed.

End Decorator.

(** ** The further properties on examples *)

Lemma send_otp_rejects_malformed_witness :
  @AuthServiceApi.send_otp Demo.collaborators Cases.issuing "user@domain" Demo.world
  = (Raised (ExceptionOf "Invalid phone number or email format"),
     logged WARNING "Invalid input for OTP request" Demo.world)
  /\ @Routes.login Demo.collaborators Cases.issuing "user@domain" Demo.world
     = (Raised (HTTPError 400 "Invalid phone number or email format"),
        logged WARNING "Login attempt failed"
          (logged WARNING "Invalid input for OTP request" Demo.world)).
Proof.
  exact (@send_otp_rejects_malformed Demo.collaborators Cases.issuing "user@domain"
           Demo.world eq_refl eq_refl).
Defined.

(** Five codes were sent to asha@example.com; the address is asked for
    with capitals. *)
Lemma send_otp_hides_the_limit_witness :
  @AuthServiceApi.send_otp Demo.collaborators Cases.issuing "Asha@Example.com"
    Cases.five_codes_sent
  = (Raised (ExceptionOf "Failed to send OTP. Please try again."),
     logged ERROR "Failed to send OTP" (refused "asha@example.com" Cases.five_codes_sent))
  /\ @Routes.login Demo.collaborators Cases.issuing "Asha@Example.com"
       Cases.five_codes_sent
     = (Raised (HTTPError 400 "Failed to send OTP. Please try again."),
        logged WARNING "Login attempt failed"
          (logged ERROR "Failed to send OTP"
             (refused "asha@example.com" Cases.five_codes_sent))).
Proof.
  exact (@send_otp_hides_the_limit Demo.collaborators Cases.issuing "Asha@Example.com"
           "asha@example.com" "email" 900 Cases.five_codes_sent
           (refused "asha@example.com" Cases.five_codes_sent) eq_refl
           (@check_rate_limit_sets_lockout Demo.collaborators "asha@example.com" "otp"
              Cases.five_codes_sent 5 eq_refl eq_refl ltac:(cbv; discriminate) eq_refl)).
Defined.

(** The code 482913 is sent to 98765 43210. *)
Lemma send_then_verify_witness :
  @AuthServiceApi.send_otp Demo.collaborators Cases.issuing "98765 43210" Cases.fresh_start
  = (Returned (mkOtpSent true ("OTP sent to " +:+ "phone")
                 (@token_urlsafe Cases.issuing (hd 0 (tails 6 (entropy Cases.fresh_start))))
                 300),
     @code_sent Demo.collaborators Cases.issuing "+919876543210"
       (otp_of (draws 6 (entropy Cases.fresh_start))) "hash:482913" 0 Cases.fresh_start).
Proof.
  exact (proj1 (@send_then_verify Demo.collaborators Cases.issuing "98765 43210"
                  "+919876543210" "phone" Cases.fresh_start 0 "hash:482913" 60
                  eq_refl eq_refl eq_refl eq_refl eq_refl eq_refl eq_refl
                  ltac:(lia))).
Defined.

Example code_and_token_of_fresh_start :
  otp_of (draws 6 (entropy Cases.fresh_start)) = "482913"
  /\ @token_urlsafe Cases.issuing (hd 0 (tails 6 (entropy Cases.fresh_start))) = "tok-777".
Proof. split; reflexivity. Qed.

(** The code sent to 98765 43210 is given a minute later: the record is
    verified, vendor 2 is created with the session row 3, and the call
    raises "Failed to create session". *)
Example send_then_verify_demo :
  let w1 := @code_sent Demo.collaborators Cases.issuing "+919876543210" "482913"
              "hash:482913" 0 Cases.fresh_start in
  let run := @AuthService.verify_otp Demo.collaborators "tok-777" "482913"
               (advance 60 w1) in
  fst run = Raise (Exception MFailedSession)
  /\ otp_verifications (snd run) = [OtpRow 1 "+919876543210" "hash:482913" 1 true 1300]
  /\ map vendor_id (vendors (snd run)) = [2]
  /\ map session_vendor_id (vendor_sessions (snd run)) = [2].
Proof. repeat split; vm_compute; reflexivity. Qed.

Lemma logout_ends_the_session_witness :
  @AuthService.validate_session Demo.collaborators "access.8.1000.4600"
    (advance 10
       (logged_out "access.8.1000.4600"
          (session_stored 8 "access.8.1000.4600" "refresh.8.1000.2593000" Demo.world)))
  = (Ok None,
     advance 10
       (logged_out "access.8.1000.4600"
          (session_stored 8 "access.8.1000.4600" "refresh.8.1000.2593000" Demo.world))).
Proof.
  exact (proj1 (proj2 (@logout_ends_the_session Demo.collaborators "access.8.1000.4600"
                         (session_stored 8 "access.8.1000.4600" "refresh.8.1000.2593000"
                            Demo.world)
                         10 eq_refl ltac:(lia)))).
Defined.


(** A route without a [Request] among its arguments, as the voice query
    route is: the first call of a minute is counted under the name of the
    function. *)
Lemma decorator_admission_witness :
  RateLimitDecorator.rate_limit 30 60 "process_voice_query" (py_return "done")
    (as_argument None) Demo.world
  = py_return "done"
      (set_cache
         (<[RateLimitDecorator.endpoint_key
              (RateLimitDecorator.caller_text None "process_voice_query")
              (now Demo.world / 60) :=
              CEntry (CNum (0 + 1)) (Some (now Demo.world + 60))]> (cache Demo.world))
         Demo.world).
Proof.
  exact (proj1 (@decorator_admission string 30 60 "process_voice_query"
                  (py_return "done") None Demo.world 0 eq_refl eq_refl
                  (conj eq_refl eq_refl) eq_refl)
           ltac:(lia) eq_refl).
Defined.

(** The text-to-speech route is called with its [TTSRequest] as keyword
    argument [request]: the call fails before the function runs, and
    nothing is counted. *)
Example decorator_on_text_to_speech :
  RateLimitDecorator.rate_limit 50 60 "text_to_speech" (py_return "done")
    (RateLimitDecorator.AnotherObject "TTSRequest") Demo.world
  = (Raised (AttributeErrorOf "'TTSRequest' object has no attribute 'client'"),
     Demo.world).
Proof. reflexivity. Qed.

(** With the cache client missing the same route, called with a
    [Request], runs its function. *)
Lemma decorator_fails_open_witness :
  RateLimitDecorator.rate_limit 50 60 "text_to_speech" (py_return "done")
    (as_argument (Some Demo.profile_request)) (Cases.no_cache_client)
  = py_return "done" (logged ERROR "Rate limit check failed" Cases.no_cache_client).
Proof.
  exact (proj1 (@decorator_fails_open string 50 60 "text_to_speech" (py_return "done")
                  (Some Demo.profile_request) Cases.no_cache_client) eq_refl).
Defined.

(** ** What verification does to the records *)

Section RecordsOnlyAdvance.
Context `{Collaborators}.
Import AuthService.
















End RecordsOnlyAdvance.


Example wrong_code_counts_one_attempt :
  otp_verifications
    (snd (@AuthService.verify_otp Demo.collaborators "tok-1" "000000" Demo.world))
  = [AuthService.with_attempts 1 Demo.issued].
Proof. reflexivity. Qed.
